(** * Bulghousing backend: listings, price normalisation and search

    A shallow embedding of [main.py] and [schemas.py].

    - [Float64]: Python's [float] (IEEE 754 binary64) with the operations
      the handlers use: [*], [/], the comparisons and the builtin
      [round(x, ndigits)].
    - [Schemas]: the [Property] model and its field constraints;
      [PropertyStored]: the model of a stored listing.
    - [Database]: the document store behind [create_document] and
      [get_documents].
    - [Main]: the two request handlers, [create_property] and
      [search_properties].
    - [Diagnostics]: the handler [test_database]. *)

From Stdlib Require Import ZArith String Ascii List Bool Lia.
From Stdlib Require Import Floats.SpecFloat.
From stdpp Require Import gmap strings list.
From Stdlib Require Import QArith Qabs Qpower Lqa Btauto.

Local Open Scope Z_scope.

(** ** Python floats *)

Module Float64.

(** binary64: 53 bits of precision, infinities at exponent 1024. *)
Definition prec : Z := 53.
Definition emax : Z := 1024.

Abbreviation float := spec_float.

Definition mul : float -> float -> float := SFmul prec emax.
Definition div : float -> float -> float := SFdiv prec emax.
Definition ltb : float -> float -> bool := SFltb.
Definition leb : float -> float -> bool := SFleb.

Definition zero : float := S754_zero false.

Definition is_finite (x : float) : bool :=
  match x with
  | S754_zero _ | S754_finite _ _ _ => true
  | _ => false
  end.

(** The double nearest to [± n / d] (ties to even): what reading a decimal
    literal, or [strtod], produces.  The quotient is computed with at
    least 53 significant bits and the position of the remainder, then
    rounded once. *)
Definition of_ratio (s : bool) (n d : positive) : float :=
  let '(q, e, l) := SFdiv_core_binary prec emax (Zpos n) 0 (Zpos d) 0 in
  binary_round_aux prec emax s q e l.

(** The integer nearest to [n / d], ties to the even one. *)
Definition round_half_even (n : Z) (d : positive) : Z :=
  let q := n / Zpos d in
  let r := n mod Zpos d in
  match 2 * r ?= Zpos d with
  | Lt => q
  | Gt => q + 1
  | Eq => if Z.even q then q else q + 1
  end.

(** [10 ** n]. *)
Definition pow10 (n : nat) : positive := Nat.iter n (Pos.mul 10) 1%positive.

(** [round(x, ndigits)] for [0 <= ndigits]: infinities and NaN round to
    themselves; a finite [x] is written out as the decimal with [ndigits]
    digits after the point that is nearest to its exact value (ties to
    even), and that decimal is read back as a float.  The sign of a
    result that rounds to zero is kept. *)
Definition round (x : float) (ndigits : nat) : float :=
  match x with
  | S754_finite s m e =>
      let scale := pow10 ndigits in
      let k :=
        match e with
        | Zneg p => round_half_even (Zpos (m * scale)) (Pos.pow 2 p)
        | _ => Zpos (m * scale) * 2 ^ e
        end in
      match k with
      | Zpos k => of_ratio s k scale
      | _ => S754_zero s
      end
  | _ => x
  end.

(** The exact value of a finite float, as a rational. *)
Definition to_Q (x : float) : Q :=
  match x with
  | S754_finite s m e =>
      ((if s then -1 else 1) * inject_Z (Zpos m) * Qpower 2 e)%Q
  | _ => 0%Q
  end.

(** [abs(x - y) <= tol], computed exactly, for finite [x] and [y]. *)
Definition within (tol : Q) (x y : float) : bool :=
  is_finite x && is_finite y && Qle_bool (Qabs (to_Q x - to_Q y)) tol.

End Float64.

(** ** JSON values, documents and validation errors *)

(** What a request body, a [model_dump()] dictionary or a stored document
    holds.  [VOid] is an identity generated by the store. *)
#[local] Set Warnings "-register-all".
Inductive value :=
| VNull
| VBool (b : bool)
| VNum (x : Float64.float)
| VStr (s : string)
| VList (l : list value)
| VOid (n : N).
#[local] Set Warnings "register-all".

(** A Python [dict] with string keys. *)
Abbreviation dict := (gmap string value).

(** The values a JSON response can hold.  The framework writes a response
    with [json.dumps(..., allow_nan=False)]: a NaN or an infinity anywhere
    in it, like an identity of the store, which is no JSON value, makes
    the writing fail, and the request is answered with a server error. *)
Fixpoint json_ok (v : value) : bool :=
  match v with
  | VNum x => Float64.is_finite x
  | VList l => forallb json_ok l
  | VOid _ => false
  | _ => true
  end.

Inductive err_type :=
| missing
| string_type
| float_type
| list_type
| literal_error
| greater_than
| greater_than_equal
| less_than_equal.

(** One entry of a validation error's [detail]: the offending field and
    what is wrong with it. *)
Definition error : Type := string * err_type.

Global Instance err_type_eq_dec : EqDecision err_type.
Proof. solve_decision. Defined.

(** ** schemas.py *)

Module Schemas.

Definition BULGARIAN_REGIONS : list string :=
  [ "Blagoevgrad"; "Burgas"; "Dobrich"; "Gabrovo"; "Haskovo"; "Kardzhali";
    "Kyustendil"; "Lovech"; "Montana"; "Pazardzhik"; "Pernik"; "Pleven";
    "Plovdiv"; "Razgrad"; "Ruse"; "Shumen"; "Silistra"; "Sliven";
    "Smolyan"; "Sofia City"; "Sofia Province"; "Stara Zagora";
    "Targovishte"; "Varna"; "Veliko Tarnovo"; "Vidin"; "Vratsa";
    "Yambol" ]%string.

(** A validated [Property]. *)
Record Property := {
  title : string;
  region : string;
  address : option string;
  description : option string;
  size_sqm : Float64.float;
  currency : string;
  price_value : Float64.float;
  images : option (list string)
}.

(** *** Field types *)

(** [str]: a JSON string, and nothing else. *)
Definition str (v : value) : err_type + string :=
  match v with
  | VStr s => inr s
  | _ => inl string_type
  end.

(** [Literal[...]] over strings: one of the listed strings. *)
Definition Literal (allowed : list string) (v : value) : err_type + string :=
  match v with
  | VStr s => if bool_decide (s ∈ allowed) then inr s else inl literal_error
  | _ => inl literal_error
  end.

(** [Optional[T]]: [null], or a [T]. *)
Definition Optional {A} (ty : value -> err_type + A) (v : value)
  : err_type + option A :=
  match v with
  | VNull => inr None
  | _ => match ty v with inl e => inl e | inr a => inr (Some a) end
  end.

(** [List[str]]: an array whose items are all strings. *)
Fixpoint strs (l : list value) : err_type + list string :=
  match l with
  | [] => inr []
  | v :: l' =>
      match str v, strs l' with
      | inr s, inr ss => inr (s :: ss)
      | inl e, _ => inl e
      | _, inl e => inl e
      end
  end.

Definition List_str (v : value) : err_type + list string :=
  match v with
  | VList l => strs l
  | _ => inl list_type
  end.

(** *** Field declarations *)

(** [Field(...)]: the field is required. *)
Definition required {A} (ty : value -> err_type + A) (name : string)
    (payload : dict) : err_type + A :=
  match payload !! name with
  | None => inl missing
  | Some v => ty v
  end.

(** [Field(d)] / [Field(default=d)]: [d] stands in for an absent field. *)
Definition default_to {A} (d : A) (ty : value -> err_type + A)
    (name : string) (payload : dict) : err_type + A :=
  match payload !! name with
  | None => inr d
  | Some v => ty v
  end.

(** The errors a field contributes to the report. *)
Definition report {A} (name : string) (r : err_type + A) : list error :=
  match r with
  | inl e => [(name, e)]
  | inr _ => []
  end.

Section Validation.

(** How a JSON value is read as a [float] is the validation library's
    business (numbers are, and some other values are coerced); the
    schema only relies on its outcome. *)
Variable as_float : value -> option Float64.float.

Definition float (v : value) : err_type + Float64.float :=
  match as_float v with
  | Some x => inr x
  | None => inl float_type
  end.

(** [float] with [gt=bound]. *)
Definition float_gt (bound : Float64.float) (v : value)
  : err_type + Float64.float :=
  match float v with
  | inr x => if Float64.ltb bound x then inr x else inl greater_than
  | inl e => inl e
  end.

(** The fields of [Property], as declared. *)
Definition field_title := required str "title".
Definition field_region := required (Literal BULGARIAN_REGIONS) "region".
Definition field_address := default_to None (Optional str) "address".
Definition field_description :=
  default_to None (Optional str) "description".
Definition field_size_sqm := required (float_gt Float64.zero) "size_sqm".
Definition field_currency :=
  default_to "EUR"%string (Literal ["EUR"; "BGN"]%string) "currency".
Definition field_price_value :=
  required (float_gt Float64.zero) "price_value".
Definition field_images := default_to None (Optional List_str) "images".

(** The errors of all fields, in declaration order. *)
Definition errors (payload : dict) : list error :=
  report "title" (field_title payload)
  ++ report "region" (field_region payload)
  ++ report "address" (field_address payload)
  ++ report "description" (field_description payload)
  ++ report "size_sqm" (field_size_sqm payload)
  ++ report "currency" (field_currency payload)
  ++ report "price_value" (field_price_value payload)
  ++ report "images" (field_images payload).

(** Validation of a request body against [Property]: every field is
    checked, and the body is accepted only when none fails. *)
Definition validate (payload : dict) : list error + Property :=
  match field_title payload, field_region payload,
        field_address payload, field_description payload,
        field_size_sqm payload, field_currency payload,
        field_price_value payload, field_images payload with
  | inr t, inr r, inr a, inr d, inr s, inr c, inr p, inr i =>
      inr {| title := t; region := r; address := a; description := d;
             size_sqm := s; currency := c; price_value := p;
             images := i |}
  | _, _, _, _, _, _, _, _ => inl (errors payload)
  end.

End Validation.

(** [model_dump()]: the validated fields as a dictionary. *)
Definition opt_value {A} (f : A -> value) (o : option A) : value :=
  match o with
  | Some a => f a
  | None => VNull
  end.

Definition model_dump (p : Property) : dict :=
  <["title" := VStr (title p)]>
  (<["region" := VStr (region p)]>
  (<["address" := opt_value VStr (address p)]>
  (<["description" := opt_value VStr (description p)]>
  (<["size_sqm" := VNum (size_sqm p)]>
  (<["currency" := VStr (currency p)]>
  (<["price_value" := VNum (price_value p)]>
  (<["images" := opt_value (fun l => VList (VStr <$> l)) (images p)]>
   ∅))))))).

End Schemas.

(** [PropertyStored(Property)]: the fields of [Property], and the two
    prices, each a required [float] with [gt=0]. *)
Module PropertyStored.
Import Schemas.

Record t := {
  base : Property;
  price_eur : Float64.float;
  price_bgn : Float64.float
}.

Section Validation.
Variable as_float : value -> option Float64.float.

Definition field_price_eur :=
  required (float_gt as_float Float64.zero) "price_eur".
Definition field_price_bgn :=
  required (float_gt as_float Float64.zero) "price_bgn".

(** The errors of all fields: the inherited ones first. *)
Definition errors (payload : dict) : list error :=
  Schemas.errors as_float payload
  ++ report "price_eur" (field_price_eur payload)
  ++ report "price_bgn" (field_price_bgn payload).

Definition validate (payload : dict) : list error + t :=
  match Schemas.validate as_float payload,
        field_price_eur payload, field_price_bgn payload with
  | inr p, inr e, inr b =>
      inr {| base := p; price_eur := e; price_bgn := b |}
  | _, _, _ => inl (errors payload)
  end.
End Validation.
End PropertyStored.

(** ** The document store *)

(** What a query dictionary binds a name to: a plain value, a dictionary of
    operators ([{"$gte": a, "$lte": b}], [{"$regex": p, "$options": o}]), or,
    under ["$or"], a list of alternatives binding fields to operators. *)
Inductive fval :=
| FEq (v : value)
| FOps (ops : dict)
| FOr (alts : list (gmap string dict)).

Abbreviation query := (gmap string fval).

(** The store is MongoDB ([schemas.py]; "Build mongo filter" in [main.py]),
    whose [$regex] operator reads its operand as a regular expression and
    matches it anywhere in the text.  This is that reading for the
    patterns made of ordinary characters and the wildcard [.] (any
    character but a newline); how a pattern that uses another construct
    of the pattern language is read is left to the store
    ([Database.regex_engine]).  Texts are sequences of ASCII
    characters. *)
Module Regex.

Definition metachars : list ascii :=
  list_ascii_of_string "\^$.|?*+()[]{}".

Definition is_meta (c : ascii) : bool := bool_decide (c ∈ metachars).

Inductive atom :=
| Chr (c : ascii)
| Any.

Definition compile_char (c : ascii) : option atom :=
  if Ascii.eqb c "."%char then Some Any
  else if is_meta c then None
  else Some (Chr c).

Fixpoint compile (pat : string) : option (list atom) :=
  match pat with
  | EmptyString => Some []
  | String c pat' =>
      match compile_char c, compile pat' with
      | Some a, Some re => Some (a :: re)
      | _, _ => None
      end
  end.

(** ASCII case folding. *)
Definition lower (c : ascii) : ascii :=
  let n := N_of_ascii c in
  if ((65 <=? n) && (n <=? 90))%N then ascii_of_N (n + 32) else c.

Definition newline : ascii := ascii_of_N 10.

Definition atom_matches (ci : bool) (a : atom) (c : ascii) : bool :=
  match a with
  | Any => negb (Ascii.eqb c newline)
  | Chr p => if ci then Ascii.eqb (lower p) (lower c) else Ascii.eqb p c
  end.

(** The expression matches a prefix of [s]. *)
Fixpoint match_here (ci : bool) (re : list atom) (s : string) : bool :=
  match re, s with
  | [], _ => true
  | a :: re', String c s' => atom_matches ci a c && match_here ci re' s'
  | _ :: _, EmptyString => false
  end.

(** The expression matches somewhere in [s] (patterns are not anchored). *)
Fixpoint search (ci : bool) (re : list atom) (s : string) : bool :=
  match_here ci re s ||
  match s with
  | EmptyString => false
  | String _ s' => search ci re s'
  end.

Definition case_insensitive (options : string) : option bool :=
  if String.eqb options "" then Some false
  else if String.eqb options "i" then Some true
  else None.

End Regex.

(** Modelled from the spec: the [database] module ([create_document],
    [get_documents]) is not part of the sources.  The store holds named
    collections of documents; insert-one adds the document under a
    generated identity and returns that identity; find-many returns the
    documents of the collection that satisfy every clause of a conjunctive
    filter (equality, inclusive numeric ranges, case-insensitive matching
    of text, asked for through the operators [$gte], [$lte] and [$regex]
    with [$options]), in the collection's order, and at most [limit] of
    them.  The store has a pattern engine of its own, [regex_engine]: for
    a pattern and options that [Regex] does not read it gives the texts
    the pattern matches, or nothing when the store refuses the pattern
    (an invalid expression: the query fails).  Nothing is assumed of it,
    so that what is proved of a store holds whatever its engine does with
    such patterns.  A filter with an operator the model does not know
    gets no answer.  The store is taken to be reachable. *)
Module Database.

Record store := {
  collections : gmap string (list dict);
  next_id : N;
  regex_engine : string -> string -> option (string -> bool)
}.

Definition collection (name : string) (st : store) : list dict :=
  default [] (collections st !! name).

Definition create_document (collection_name : string) (data : dict)
    (st : store) : N * store :=
  let oid := next_id st in
  let stored := <["_id" := VOid oid]> data in
  (oid,
   {| collections :=
        <[collection_name := collection collection_name st ++ [stored]]>
          (collections st);
      next_id := N.succ oid;
      regex_engine := regex_engine st |}).

(** *** Queries *)

Definition map_forallb {A} (P : string -> A -> bool) (m : gmap string A)
  : bool :=
  forallb (fun kv => P kv.1 kv.2) (map_to_list m).

Definition operators : list string :=
  ["$gte"; "$lte"; "$regex"; "$options"]%string.

Section Queries.
Variable st : store.

(** How the store reads a pattern with its options: as [Regex] does where
    [Regex] reads them, as the store's engine does elsewhere.  [None]:
    the store refuses the pattern. *)
Definition reading (pat options : string) : option (string -> bool) :=
  match Regex.compile pat, Regex.case_insensitive options with
  | Some re, Some ci => Some (Regex.search ci re)
  | _, _ => regex_engine st pat options
  end.

(** The operator dictionaries the store answers: a non-empty set of the
    four operators above, numeric bounds, a pattern the store reads, and
    no options without a pattern. *)
Definition ops_ok (ops : dict) : bool :=
  negb (bool_decide (ops = ∅))
  && map_forallb (fun k _ => bool_decide (k ∈ operators)) ops
  && match ops !! "$gte" with Some (VNum _) | None => true | _ => false end
  && match ops !! "$lte" with Some (VNum _) | None => true | _ => false end
  && match ops !! "$regex", ops !! "$options" with
     | Some (VStr pat), Some (VStr o) => bool_decide (is_Some (reading pat o))
     | Some (VStr pat), None => bool_decide (is_Some (reading pat ""))
     | None, None => true
     | _, _ => false
     end.

Definition field_name_ok (name : string) : bool :=
  negb (String.prefix "$" name).

Definition fval_ok (name : string) (f : fval) : bool :=
  match f with
  | FEq (VStr _) => field_name_ok name
  | FEq _ => false
  | FOps ops => field_name_ok name && ops_ok ops
  | FOr alts =>
      String.eqb name "$or"
      && negb (bool_decide (alts = []))
      && forallb (map_forallb (fun k ops => field_name_ok k && ops_ok ops))
           alts
  end.

Definition filter_ok (flt : query) : bool := map_forallb fval_ok flt.

(** Does the field value [v] (absent: [None]) satisfy the operators? *)
Definition eval_ops (ops : dict) (v : option value) : bool :=
  match ops !! "$gte" with
  | Some (VNum a) =>
      match v with Some (VNum x) => Float64.leb a x | _ => false end
  | _ => true
  end
  && match ops !! "$lte" with
     | Some (VNum b) =>
         match v with Some (VNum x) => Float64.leb x b | _ => false end
     | _ => true
     end
  && match ops !! "$regex" with
     | Some (VStr pat) =>
         let o := match ops !! "$options" with
                  | Some (VStr o) => o
                  | _ => ""%string
                  end in
         match v with
         | Some (VStr s) =>
             match reading pat o with
             | Some matching => matching s
             | None => false
             end
         | _ => false
         end
     | _ => true
     end.

Definition eval_fval (d : dict) (name : string) (f : fval) : bool :=
  match f with
  | FEq (VStr s) =>
      match d !! name with Some (VStr s') => String.eqb s s' | _ => false end
  | FEq _ => false
  | FOps ops => eval_ops ops (d !! name)
  | FOr alts =>
      existsb (map_forallb (fun k ops => eval_ops ops (d !! k))) alts
  end.

(** A document matches when it satisfies every entry of the filter. *)
Definition matches (flt : query) (d : dict) : bool :=
  map_forallb (eval_fval d) flt.

End Queries.

Definition get_documents (collection_name : string) (flt : query)
    (limit : Z) (st : store) : option (list dict) :=
  if filter_ok st flt then
    Some (take (Z.to_nat limit)
            (List.filter (matches st flt) (collection collection_name st)))
  else None.

End Database.

(** ** main.py *)

(** The outcome of a request: the handler's return value, a rejection of
    the request by validation (with the fields at fault), or an error
    raised while handling it. *)
Inductive response (A : Type) :=
| OK (body : A)
| Unprocessable (detail : list error)
| ServerError.
Arguments OK {A} body.
Arguments Unprocessable {A} detail.
Arguments ServerError {A}.

Module Main.

Import Database.

(** [EUR_TO_BGN = 1.95583] *)
Definition EUR_TO_BGN : Float64.float :=
  Float64.of_ratio false 195583 100000.

(** Python truthiness of an [Optional[str]]: neither [None] nor [""]. *)
Definition truthy (o : option string) : bool :=
  match o with
  | Some s => negb (String.eqb s "")
  | None => false
  end.

(** [v == s] for a string [s]. *)
Definition eq_str (v : value) (s : string) : bool :=
  match v with
  | VStr s' => String.eqb s' s
  | _ => false
  end.

(** *** POST /api/properties *)

Record Created := { id : N }.

(** [None]: the handler raised. *)
Definition create_property (payload : Schemas.Property) (st : store)
  : option Created * store :=
  let data := Schemas.model_dump payload in
  (* normalize currency and compute both EUR/BGN for fast filtering *)
  let cur := default (VStr "EUR") (data !! "currency") in
  match data !! "price_value" with
  | Some (VNum price_value) =>
      let '(price_eur, price_bgn) :=
        if eq_str cur "EUR"
        then (price_value, Float64.mul price_value EUR_TO_BGN)
        else (Float64.div price_value EUR_TO_BGN, price_value) in
      let data := <["price_eur" := VNum (Float64.round price_eur 2)]> data in
      let data := <["price_bgn" := VNum (Float64.round price_bgn 2)]> data in
      let '(inserted_id, st') := create_document "property" data st in
      (Some {| id := inserted_id |}, st')
  | _ => (None, st)
  end.

(** A dictionary a JSON response can hold. *)
Definition dict_json_ok (d : dict) : bool :=
  map_forallb (fun _ v => json_ok v) d.

(** A rejection echoes, with each error, the input at fault: the whole
    body for a field that is missing, the value of the field otherwise. *)
Definition echo_ok (body : dict) (e : error) : bool :=
  match e.2 with
  | missing => dict_json_ok body
  | _ =>
      match body !! e.1 with
      | Some v => json_ok v
      | None => true
      end
  end.

(** The route: the body is validated against [CreatePropertyRequest]
    (which is [Property]) before the handler runs.  A body that fails
    validation is rejected with the errors and the inputs at fault; when
    these cannot be written as JSON the rejection fails, and the answer is
    a server error. *)
Definition post_properties (as_float : value -> option Float64.float)
    (body : dict) (st : store) : response Created * store :=
  match Schemas.validate as_float body with
  | inl detail =>
      if forallb (echo_ok body) detail then (Unprocessable detail, st)
      else (ServerError, st)
  | inr payload =>
      match create_property payload st with
      | (Some r, st') => (OK r, st')
      | (None, st') => (ServerError, st')
      end
  end.

(** *** GET /api/properties *)

Record SearchResponse := {
  results : list dict;
  total : nat
}.

(** [{"$regex": q, "$options": "i"}] *)
Definition regex_i (q : string) : dict :=
  <["$regex" := VStr q]> (<["$options" := VStr "i"]> ∅).

(** A range dictionary: [r["$gte"] = float(lo)] and [r["$lte"] =
    float(hi)], each when the bound is not [None]. *)
Definition range (lo hi : option Float64.float) : dict :=
  let r : dict := ∅ in
  let r := match lo with Some x => <["$gte" := VNum x]> r | None => r end in
  let r := match hi with Some x => <["$lte" := VNum x]> r | None => r end in
  r.

Definition price_field (price_currency : option string) : string :=
  match price_currency with
  | Some c => if String.eqb c "EUR" then "price_eur" else "price_bgn"
  | None => "price_bgn"
  end.

Definition build_filter (q region : option string)
    (min_price max_price : option Float64.float)
    (price_currency : option string)
    (min_sqm max_sqm : option Float64.float) : query :=
  let mongo_filter : query := ∅ in
  (* text search across a few fields *)
  let mongo_filter :=
    match q with
    | Some q' =>
        if truthy q then
          <["$or" := FOr [ {["title" := regex_i q']};
                           {["description" := regex_i q']};
                           {["address" := regex_i q']} ]]> mongo_filter
        else mongo_filter
    | None => mongo_filter
    end in
  let mongo_filter :=
    match region with
    | Some r =>
        if truthy region then <["region" := FEq (VStr r)]> mongo_filter
        else mongo_filter
    | None => mongo_filter
    end in
  (* price filter on the normalized fields *)
  let price_range := range min_price max_price in
  let mongo_filter :=
    if bool_decide (price_range = ∅) then mongo_filter
    else <[price_field price_currency := FOps price_range]> mongo_filter in
  (* size filter *)
  let size_range := range min_sqm max_sqm in
  let mongo_filter :=
    if bool_decide (size_range = ∅) then mongo_filter
    else <["size_sqm" := FOps size_range]> mongo_filter in
  mongo_filter.

(** remove _id for cleanliness *)
Definition shape (doc : dict) : dict :=
  filter (fun kv => kv.1 ≠ "_id"%string) doc.

(** [None]: the store did not answer the query. *)
Definition search_properties (q region : option string)
    (min_price max_price : option Float64.float)
    (price_currency : option string)
    (min_sqm max_sqm : option Float64.float) (limit : Z) (st : store)
  : option SearchResponse :=
  let mongo_filter :=
    build_filter q region min_price max_price price_currency
      min_sqm max_sqm in
  match get_documents "property" mongo_filter limit st with
  | Some docs =>
      let results := shape <$> docs in
      Some {| results := results; total := length results |}
  | None => None
  end.

(** The query string, each parameter read at its declared type; [None]
    is a parameter that was not supplied. *)
Module Query.
Record t := {
  q : option string;
  region : option string;
  min_price : option Float64.float;
  max_price : option Float64.float;
  price_currency : option string;
  min_sqm : option Float64.float;
  max_sqm : option Float64.float;
  limit : option Z
}.
End Query.

(** [Query(None, ge=0)] on an [Optional[float]]. *)
Definition check_ge0 (name : string) (o : option Float64.float)
  : list error :=
  match o with
  | Some x =>
      if Float64.leb Float64.zero x then []
      else [(name, greater_than_equal)]
  | None => []
  end.

(** [Query(...)] on an [Optional[Literal[...]]]. *)
Definition check_literal (name : string) (allowed : list string)
    (o : option string) : list error :=
  match o with
  | Some s =>
      if bool_decide (s ∈ allowed) then [] else [(name, literal_error)]
  | None => []
  end.

(** [Query(50, ge=1, le=200)] *)
Definition check_limit (o : option Z) : list error :=
  match o with
  | Some n =>
      if n <? 1 then [("limit"%string, greater_than_equal)]
      else if 200 <? n then [("limit"%string, less_than_equal)]
      else []
  | None => []
  end.

Definition validate_query (p : Query.t) : list error :=
  check_literal "region" Schemas.BULGARIAN_REGIONS (Query.region p)
  ++ check_ge0 "min_price" (Query.min_price p)
  ++ check_ge0 "max_price" (Query.max_price p)
  ++ check_literal "price_currency" ["EUR"; "BGN"]%string
       (Query.price_currency p)
  ++ check_ge0 "min_sqm" (Query.min_sqm p)
  ++ check_ge0 "max_sqm" (Query.max_sqm p)
  ++ check_limit (Query.limit p).

(** The route: parameters are validated and defaults filled in before
    the handler runs, and what the handler returns is written as JSON,
    which fails, with a server error, when a result holds a value JSON
    cannot hold. *)
Definition get_properties (p : Query.t) (st : store)
  : response SearchResponse :=
  match validate_query p with
  | [] =>
      let price_currency :=
        match Query.price_currency p with
        | Some c => Some c
        | None => Some "EUR"%string
        end in
      match search_properties (Query.q p) (Query.region p)
              (Query.min_price p) (Query.max_price p) price_currency
              (Query.min_sqm p) (Query.max_sqm p)
              (default 50 (Query.limit p)) st with
      | Some r =>
          if forallb dict_json_ok (results r) then OK r else ServerError
      | None => ServerError
      end
  | detail => Unprocessable detail
  end.

End Main.

(** *** GET /test

    [test_database] in [main.py].  Of the database handle [db] the handler
    reads the attribute [name] and calls [list_collection_names()]; either
    may raise, and what is raised is an [Exception], of which the handler
    uses the message. *)

Module Diagnostics.
Import Main.

(** What reading [db.name] does: the attribute is missing, it has a value,
    or reading it raises. *)
Inductive attribute :=
| NoAttr
| Attr (v : string)
| AttrRaises (message : string).

(** What the handler uses of the database handle: its [name], and what
    [list_collection_names()] does, the names or the message of the
    exception it raises. *)
Record handle := {
  name : attribute;
  list_collection_names : string + list string
}.

(** A byte of a UTF-8 text that continues a character: [10xxxxxx]. *)
Definition continues (c : ascii) : bool :=
  let n := N_of_ascii c in ((128 <=? n) && (n <? 192))%N.

(** The first [n] characters of a text held as UTF-8 bytes. *)
Fixpoint take_chars (n : nat) (s : string) : string :=
  match s with
  | EmptyString => EmptyString
  | String c s' =>
      if continues c then String c (take_chars n s')
      else
        match n with
        | O => EmptyString
        | S n' => String c (take_chars n' s')
        end
  end.

(** [s[:50]] *)
Definition first_50 (s : string) : string := take_chars 50 s.

(** [None] for [db] is the handle that was never set up; [environ] is the
    process environment. *)
Definition test_database (db : option handle) (environ : gmap string string)
  : dict :=
  let response : dict :=
    <["backend" := VStr "✅ Running"]>
    (<["database" := VStr "❌ Not Available"]>
    (<["database_url" := VNull]>
    (<["database_name" := VNull]>
    (<["connection_status" := VStr "Not Connected"]>
    (<["collections" := VList []]> ∅))))) in
  let response :=
    match db with
    | Some d =>
        let response := <["database" := VStr "✅ Available"]> response in
        let response :=
          <["database_url" := VStr "✅ Configured"]> response in
        match name d with
        | AttrRaises e =>
            <["database" := VStr ("❌ Error: " ++ first_50 e)]> response
        | a =>
            let response :=
              <["database_name" :=
                  VStr match a with Attr v => v | _ => "✅ Connected" end]>
                response in
            let response :=
              <["connection_status" := VStr "Connected"]> response in
            match list_collection_names d with
            | inr collections =>
                let response :=
                  <["collections" := VList (VStr <$> take 10 collections)]>
                    response in
                <["database" := VStr "✅ Connected & Working"]> response
            | inl e =>
                <["database" :=
                    VStr ("⚠️  Connected but Error: " ++ first_50 e)]>
                  response
            end
        end
    | None =>
        <["database" := VStr "⚠️  Available but not initialized"]> response
    end in
  let response :=
    <["database_url" :=
        VStr (if truthy (environ !! "DATABASE_URL") then "✅ Set"
              else "❌ Not Set")]> response in
  <["database_name" :=
      VStr (if truthy (environ !! "DATABASE_NAME") then "✅ Set"
            else "❌ Not Set")]> response.

End Diagnostics.

(** * The vocabulary of the properties *)

(** ** Requests to create a listing *)

Section CreateVocabulary.
Import Schemas Database Main.
Variable as_float : value -> option Float64.float.
Implicit Types (body : dict) (name : string) (payload : Property).

(** What makes a field of a request body unacceptable. *)
Inductive offending body : string -> Prop :=
| off_missing name :
    name ∈ ["title"; "region"; "size_sqm"; "price_value"]%string ->
    body !! name = None ->
    offending body name
| off_title v :
    body !! "title" = Some v -> (forall s, v <> VStr s) ->
    offending body "title"
| off_region v :
    body !! "region" = Some v ->
    (forall s, s ∈ BULGARIAN_REGIONS -> v <> VStr s) ->
    offending body "region"
| off_text name v :
    name ∈ ["address"; "description"]%string ->
    body !! name = Some v -> v <> VNull -> (forall s, v <> VStr s) ->
    offending body name
| off_number name v :
    name ∈ ["size_sqm"; "price_value"]%string ->
    body !! name = Some v -> as_float v = None ->
    offending body name
| off_not_positive name v x :
    name ∈ ["size_sqm"; "price_value"]%string ->
    body !! name = Some v -> as_float v = Some x ->
    Float64.ltb Float64.zero x = false ->
    offending body name
| off_currency v :
    body !! "currency" = Some v -> v <> VStr "EUR" -> v <> VStr "BGN" ->
    offending body "currency"
| off_images v :
    body !! "images" = Some v -> v <> VNull ->
    (forall l, v <> VList (VStr <$> l)) ->
    offending body "images".

(** The two prices, as the specification words them. *)
Definition spec_price_eur (price_value : Float64.float) (currency : string)
  : Float64.float :=
  if String.eqb currency "EUR" then price_value
  else Float64.div price_value EUR_TO_BGN.

Definition spec_price_bgn (price_value : Float64.float) (currency : string)
  : Float64.float :=
  if String.eqb currency "EUR" then Float64.mul price_value EUR_TO_BGN
  else price_value.

(** The document [create_property] hands to the store. *)
Definition stored_data payload : dict :=
  <["price_bgn" :=
      VNum (Float64.round
              (spec_price_bgn (price_value payload) (currency payload)) 2)]>
  (<["price_eur" :=
      VNum (Float64.round
              (spec_price_eur (price_value payload) (currency payload)) 2)]>
   (model_dump payload)).
End CreateVocabulary.

(** ** A concrete scenario

    The example of the specification: a two-bedroom flat in Plovdiv,
    65 square metres, offered at 50000 EUR, sent to an empty store. *)

Module Scenario.
Import Schemas Database Main.

(** JSON numbers read as floats, and nothing else does. *)
Definition number_only (v : value) : option Float64.float :=
  match v with
  | VNum x => Some x
  | _ => None
  end.

(** The float written as the integer literal [n]. *)
Definition of_int (n : positive) : Float64.float :=
  Float64.of_ratio false n 1.

(** An empty store, whose engine reads no pattern that [Regex] does not
    read. *)
Definition empty_store : store :=
  {| collections := ∅; next_id := 0; regex_engine := fun _ _ => None |}.

Definition flat : dict :=
  <["title" := VStr "2-bed apt"]>
  (<["region" := VStr "Plovdiv"]>
  (<["size_sqm" := VNum (of_int 65)]>
  (<["currency" := VStr "EUR"]>
  (<["price_value" := VNum (of_int 50000)]> ∅)))).

Definition flat_payload : Property :=
  {| title := "2-bed apt"; region := "Plovdiv"; address := None;
     description := None; size_sqm := of_int 65; currency := "EUR";
     price_value := of_int 50000; images := None |}.

(** The store after the flat has been created. *)
Definition one_flat : store :=
  snd (post_properties number_only flat empty_store).

End Scenario.

(** The flat of the scenario, with an empty title. *)
Definition untitled_flat : dict := <["title" := VStr ""]> Scenario.flat.




(** ** Searches *)

Section SearchVocabulary.
Import Database Main.
Implicit Types (p : Query.t) (st : store) (doc : dict).

(** The currency the handler sees: the parameter, or its default. *)
Definition effective_currency p : string :=
  default "EUR"%string (Query.price_currency p).

(** The limit the handler sees. *)
Definition effective_limit p : Z := default 50 (Query.limit p).

(** The filter the handler builds for a request. *)
Definition filter_of p : query :=
  build_filter (Query.q p) (Query.region p) (Query.min_price p)
    (Query.max_price p) (Some (effective_currency p)) (Query.min_sqm p)
    (Query.max_sqm p).

(** The documents the store returns for a request. *)
Definition found p st : list dict :=
  take (Z.to_nat (effective_limit p))
    (List.filter (matches st (filter_of p)) (collection "property" st)).

(** The request with its limit spelled out. *)
Definition with_limit p (n : Z) : Query.t :=
  {| Query.q := Query.q p; Query.region := Query.region p;
     Query.min_price := Query.min_price p;
     Query.max_price := Query.max_price p;
     Query.price_currency := Query.price_currency p;
     Query.min_sqm := Query.min_sqm p; Query.max_sqm := Query.max_sqm p;
     Query.limit := Some n |}.

(** The price field a request's bounds apply to. *)
Definition spec_price_field p : string :=
  match Query.price_currency p with
  | None => "price_eur"
  | Some c => if String.eqb c "EUR" then "price_eur" else "price_bgn"
  end.

(** The request that supplies [q] and nothing else. *)
Definition only_q (q : string) : Query.t :=
  {| Query.q := Some q; Query.region := None; Query.min_price := None;
     Query.max_price := None; Query.price_currency := None;
     Query.min_sqm := None; Query.max_sqm := None; Query.limit := None |}.

(** The request without parameters. *)
Definition any_listing : Query.t :=
  {| Query.q := None; Query.region := None; Query.min_price := None;
     Query.max_price := None; Query.price_currency := None;
     Query.min_sqm := None; Query.max_sqm := None; Query.limit := None |}.

(** Listings between 40000 and 60000, in the default currency. *)
Definition mid_priced : Query.t :=
  {| Query.q := None; Query.region := None;
     Query.min_price := Some (Scenario.of_int 40000);
     Query.max_price := Some (Scenario.of_int 60000);
     Query.price_currency := None;
     Query.min_sqm := None; Query.max_sqm := None; Query.limit := None |}.

(** A request with the lower price bound [-1]. *)
Definition negative_min_price : Query.t :=
  {| Query.q := None; Query.region := None;
     Query.min_price := Some (Float64.of_ratio true 1 1);
     Query.max_price := None; Query.price_currency := None;
     Query.min_sqm := None; Query.max_sqm := None; Query.limit := None |}.

(** The flat as a search returns it. *)
Definition shaped_flat : dict :=
  shape (<["_id" := VOid 0]> (stored_data Scenario.flat_payload)).

(** The store that holds the flat, with an engine that reads one more
    pattern: ["a*"], any number of [a], which is found in every text. *)
Definition star_store : store :=
  {| collections := collections Scenario.one_flat;
     next_id := next_id Scenario.one_flat;
     regex_engine := fun pat _ =>
       if String.eqb pat "a*" then Some (fun _ => true) else None |}.

(** The store after the flat has been created three times. *)
Definition three_flats : store :=
  snd (post_properties Scenario.number_only Scenario.flat
         (snd (post_properties Scenario.number_only Scenario.flat
                 Scenario.one_flat))).
End SearchVocabulary.

(** What the specification asks of [q] is put in terms of texts folded to
    lower case. *)
Fixpoint lower_string (s : string) : string :=
  match s with
  | EmptyString => EmptyString
  | String c s' => String (Regex.lower c) (lower_string s')
  end.

(** [q] occurs in [s], letter case apart. *)
Definition ci_substring (q s : string) : Prop :=
  exists pre post,
    lower_string s = String.append pre (String.append (lower_string q) post).

(** [q] occurs in the title, the description or the address of [doc]. *)
Definition q_occurs (q : string) (doc : dict) : Prop :=
  exists name s,
    name ∈ ["title"; "description"; "address"]%string /\
    doc !! name = Some (VStr s) /\ ci_substring q s.

Section PatternVocabulary.
Import Regex.

(** The pattern that matches the characters of [q] and nothing else. *)
Fixpoint literal (q : string) : list atom :=
  match q with
  | EmptyString => []
  | String c q' => Chr c :: literal q'
  end.

(** No character of [q] is special in a pattern. *)
Definition plain (q : string) : Prop :=
  forall c, c ∈ list_ascii_of_string q -> is_meta c = false.
End PatternVocabulary.

(** ** Floats as rationals *)

Section FloatVocabulary.
Local Open Scope Q_scope.
Import Float64.

(** [2 ^ e], for any integer [e]. *)
Definition pow2 (e : Z) : Q := Qpower 2 e.

(** [x] lies at position [l] in the interval that starts at [lo] and is
    [step] long: at its start, below its middle, at it, or above it. *)
Definition loc_spec (x lo step : Q) (l : location) : Prop :=
  match l with
  | loc_Exact => x == lo
  | loc_Inexact Lt => lo < x /\ x < lo + step * (1#2)
  | loc_Inexact Eq => x == lo + step * (1#2)
  | loc_Inexact Gt => lo + step * (1#2) < x /\ x < lo + step
  end.

(** The shifted mantissa [mrs] at exponent [e], with its round and sticky
    bits, says where [x] lies. *)
Definition locates (x : Q) (mrs : shr_record) (e : Z) : Prop :=
  loc_spec x (inject_Z (shr_m mrs) * pow2 e) (pow2 e) (loc_of_shr_record mrs).

(** The magnitude of a float, as a rational. *)
Definition magnitude (f : spec_float) : Q :=
  match f with
  | S754_finite _ m e => inject_Z (Zpos m) * pow2 e
  | _ => 0
  end.

(** Zero, or a positive finite float. *)
Definition is_finite_pos (f : spec_float) : Prop :=
  match f with
  | S754_finite s _ _ | S754_zero s => s = false
  | _ => False
  end.

(** The smallest positive float is [2 ^ -1074]; half of it bounds the error
    of a rounding that underflows. *)
Definition eta : Q := pow2 (-1075).

(** The unit roundoff of binary64, [2 ^ -53]. *)
Definition u53 : Q := 1 # 9007199254740992.

(** The rate as a rational: the double nearest to 1.95583. *)
Definition rate : Q := magnitude Main.EUR_TO_BGN.

(** The reciprocal of the rate. *)
Definition per_rate : Q := 4503599627370496 # 8808275259200037.

(** The two conversions of [create_property]: what it stores as
    [price_bgn] for a price in EUR, and as [price_eur] for a price in
    BGN. *)
Definition to_bgn (x : float) : float := round (mul x Main.EUR_TO_BGN) 2.

Definition to_eur (x : float) : float := round (div x Main.EUR_TO_BGN) 2.
End FloatVocabulary.

(** The price 0.0296. *)
Definition price_0_0296 : Float64.float := Float64.of_ratio false 296 10000.

(** The price 69109089496906.24. *)
Definition price_69e12 : Float64.float :=
  Float64.of_ratio false 6910908949690624 100.

(** ** What a search asks of a listing *)

Section SearchMeaningVocabulary.
Import Database Main.
Implicit Types (p : Query.t) (st : store) (doc : dict).

(** The store finds the pattern [q], letter case apart, in the text under
    [name]. *)
Definition found_in st (q : string) doc (name : string) : bool :=
  match doc !! name, reading st q "i" with
  | Some (VStr s), Some matching => matching s
  | _, _ => false
  end.

(** [q], when supplied and not empty, is found in the title, the
    description or the address. *)
Definition text_ok st (q : option string) doc : bool :=
  match q with
  | Some q' =>
      if String.eqb q' "" then true
      else existsb (found_in st q' doc)
             ["title"; "description"; "address"]%string
  | None => true
  end.

(** [region], when supplied and not empty, is the listing's region. *)
Definition region_ok (region : option string) doc : bool :=
  match region with
  | Some r =>
      if String.eqb r "" then true
      else match doc !! "region" with
           | Some (VStr r') => String.eqb r r'
           | _ => false
           end
  | None => true
  end.

(** The bounds that are supplied hold of the number in [v], inclusively;
    with a bound supplied, [v] has to be a number. *)
Definition in_range (lo hi : option Float64.float) (v : option value) : bool :=
  match lo, hi with
  | None, None => true
  | _, _ =>
      match v with
      | Some (VNum x) =>
          match lo with Some a => Float64.leb a x | None => true end
          && match hi with Some b => Float64.leb x b | None => true end
      | _ => false
      end
  end.

(** A listing satisfies a request when it satisfies each of its clauses. *)
Definition satisfies st p doc : bool :=
  text_ok st (Query.q p) doc
  && region_ok (Query.region p) doc
  && in_range (Query.min_price p) (Query.max_price p)
       (doc !! spec_price_field p)
  && in_range (Query.min_sqm p) (Query.max_sqm p) (doc !! "size_sqm").

(** JSON can hold the documents: every value of every one of them. *)
Definition writable (docs : list dict) : Prop :=
  forall doc k v, doc ∈ docs -> doc !! k = Some v -> json_ok v = true.

(** A request without clauses: no text, no region, no bounds. *)
Definition no_clause p : Prop :=
  Query.q p = None /\ Query.region p = None /\
  Query.min_price p = None /\ Query.max_price p = None /\
  Query.min_sqm p = None /\ Query.max_sqm p = None.

(** The request that supplies [region] and nothing else. *)
Definition by_region (rg : string) : Query.t :=
  {| Query.q := None; Query.region := Some rg; Query.min_price := None;
     Query.max_price := None; Query.price_currency := None;
     Query.min_sqm := None; Query.max_sqm := None; Query.limit := None |}.

(** Listings of at least 60 square metres. *)
Definition roomy : Query.t :=
  {| Query.q := None; Query.region := None; Query.min_price := None;
     Query.max_price := None; Query.price_currency := None;
     Query.min_sqm := Some (Scenario.of_int 60); Query.max_sqm := None;
     Query.limit := None |}.

(** Listings from 60000 down to 40000: the bounds are the wrong way
    round. *)
Definition inverted_price : Query.t :=
  {| Query.q := None; Query.region := None;
     Query.min_price := Some (Scenario.of_int 60000);
     Query.max_price := Some (Scenario.of_int 40000);
     Query.price_currency := None;
     Query.min_sqm := None; Query.max_sqm := None; Query.limit := None |}.
End SearchMeaningVocabulary.

(** ** What is stored for a listing *)

Section StoredVocabulary.
Import Schemas Database Main.
Implicit Types (payload : Property) (st : store).

(** The names [Property] declares. *)
Definition property_fields : list string :=
  ["title"; "region"; "address"; "description"; "size_sqm"; "currency";
   "price_value"; "images"]%string.

(** The stored price field that is in the listing's own currency. *)
Definition native_field (currency : string) : string :=
  if String.eqb currency "EUR" then "price_eur" else "price_bgn".

(** The stored price field that holds the converted price. *)
Definition converted_field (currency : string) : string :=
  if String.eqb currency "EUR" then "price_bgn" else "price_eur".

(** The exact conversion of a price at 1.95583 BGN for 1 EUR. *)
Definition exact_conversion (currency : string) (x : Q) : Q :=
  if String.eqb currency "EUR" then (x * (195583 # 100000))%Q
  else (x * (100000 # 195583))%Q.

(** The document the store holds for a created listing. *)
Definition stored_doc payload st : dict :=
  <["_id" := VOid (next_id st)]> (stored_data payload).

(** Numbers are read as the floats they are. *)
Definition reads_numbers (as_float : value -> option Float64.float) : Prop :=
  forall x, as_float (VNum x) = Some x.

(** [y] is the amount [v] rounded to the cent, to within [slack]: there
    is a whole number [k] of cents within half a cent, and [slack], of
    [v], and [y] is a finite float as near to [k] cents as the spacing of
    the floats there allows. *)
Definition rounded_to_cents (v slack : Q) (y : Float64.float) : Prop :=
  exists k : Z,
    0 <= k /\
    (Qabs (inject_Z k * (1 # 100) - v) <= (1 # 200) + slack)%Q /\
    Float64.is_finite y = true /\
    (Qabs (Float64.to_Q y - inject_Z k * (1 # 100))
     <= inject_Z k * (1 # 100) * u53 + eta)%Q.

(** The flat, offered at 1234.567 EUR. *)
Definition odd_flat : dict :=
  <["price_value" := VNum (Float64.of_ratio false 1234567 1000)]>
    Scenario.flat.

Definition odd_payload : Property :=
  {| title := "2-bed apt"; region := "Plovdiv"; address := None;
     description := None; size_sqm := Scenario.of_int 65; currency := "EUR";
     price_value := Float64.of_ratio false 1234567 1000; images := None |}.

(** The flat, offered at 0.125 BGN: an eighth, half way between twelve
    and thirteen cents. *)
Definition lev_flat : dict :=
  <["currency" := VStr "BGN"]>
    (<["price_value" := VNum (Float64.of_ratio false 125 1000)]>
       Scenario.flat).

Definition lev_payload : Property :=
  {| title := "2-bed apt"; region := "Plovdiv"; address := None;
     description := None; size_sqm := Scenario.of_int 65; currency := "BGN";
     price_value := Float64.of_ratio false 125 1000; images := None |}.

(** The flat, offered at 1e308 EUR: a price whose product by the rate is
    beyond the largest float. *)
Definition dear_flat : dict :=
  <["price_value" := VNum (Float64.of_ratio false (10 ^ 308) 1)]>
    Scenario.flat.

Definition dear_payload : Property :=
  {| title := "2-bed apt"; region := "Plovdiv"; address := None;
     description := None; size_sqm := Scenario.of_int 65; currency := "EUR";
     price_value := Float64.of_ratio false (10 ^ 308) 1; images := None |}.

(** The store after the dear flat has been created. *)
Definition one_dear_flat : store :=
  snd (post_properties Scenario.number_only dear_flat Scenario.empty_store).


(** The flat, offered at 0.004 EUR. *)
Definition cheap_flat : dict :=
  <["price_value" := VNum (Float64.of_ratio false 4 1000)]> Scenario.flat.

Definition cheap_payload : Property :=
  {| title := "2-bed apt"; region := "Plovdiv"; address := None;
     description := None; size_sqm := Scenario.of_int 65; currency := "EUR";
     price_value := Float64.of_ratio false 4 1000; images := None |}.
End StoredVocabulary.

(** ** The diagnostic endpoint *)

Section DiagnosticsVocabulary.
Import Diagnostics.

(** The database answers: the handle is there, its name can be read and
    its collections can be listed. *)
Definition working (db : option handle) (names : list string) : Prop :=
  exists d, db = Some d /\ (forall e, name d <> AttrRaises e) /\
            list_collection_names d = inr names.

End DiagnosticsVocabulary.

(** * Properties *)

(** ** The constants and the rounding, on known values *)

Example regions_count : length Schemas.BULGARIAN_REGIONS = 28%nat.
Proof. reflexivity. Qed.

(** [1.95583] is the double [0x1.f4b1465e89225p+0]. *)
Example EUR_TO_BGN_double :
  Main.EUR_TO_BGN = S754_finite false 0x1f4b1465e89225 (-52).
Proof. reflexivity. Qed.

(** [round(2.675, 2) == 2.67], [round(0.125, 2) == 0.12],
    [round(0.375, 2) == 0.38], [round(-0.001, 2) == -0.0] and
    [round(1e22, 2) == 1e22]. *)
Example round_known_values :
  Float64.round (Float64.of_ratio false 2675 1000) 2
    = Float64.of_ratio false 267 100 /\
  Float64.round (Float64.of_ratio false 125 1000) 2
    = Float64.of_ratio false 12 100 /\
  Float64.round (Float64.of_ratio false 375 1000) 2
    = Float64.of_ratio false 38 100 /\
  Float64.round (Float64.of_ratio true 1 1000) 2 = S754_zero true /\
  Float64.round (Float64.of_ratio false (10 ^ 22) 1) 2
    = Float64.of_ratio false (10 ^ 22) 1.
Proof. repeat split; vm_compute; reflexivity. Qed.

(** ** Dictionaries *)

Section MapForallb.
Context {A : Type}.
Implicit Types (P : string -> A -> bool) (m : gmap string A).

Lemma map_forallb_true P m :
  Database.map_forallb P m = true <->
  forall k a, m !! k = Some a -> P k a = true.
Proof.
  unfold Database.map_forallb. rewrite forallb_forall. split.
  - intros H k a Hk.
    apply (H (k, a)), list_elem_of_In, elem_of_map_to_list, Hk.
  - intros H [k a] Hin.
    apply list_elem_of_In, elem_of_map_to_list in Hin. exact (H k a Hin).
Qed.

Lemma map_forallb_empty P : Database.map_forallb P ∅ = true.
Proof. apply map_forallb_true. intros k a. by rewrite lookup_empty. Qed.

Lemma map_forallb_singleton P k a :
  Database.map_forallb P {[k := a]} = P k a.
Proof.
  unfold Database.map_forallb. rewrite map_to_list_singleton. simpl.
  apply andb_true_r.
Qed.

Lemma map_forallb_lookup P m k a :
  Database.map_forallb P m = true -> m !! k = Some a -> P k a = true.
Proof. intros H. by apply map_forallb_true. Qed.
End MapForallb.

(** ** Validation of a create request *)

Section ValidationFacts.
Variable as_float : value -> option Float64.float.
Implicit Types (body : dict) (name : string).

Import Schemas.


Lemma validate_inr body p :
  validate as_float body = inr p ->
  field_title body = inr (title p) /\
  field_region body = inr (region p) /\
  field_address body = inr (address p) /\
  field_description body = inr (description p) /\
  field_size_sqm as_float body = inr (size_sqm p) /\
  field_currency body = inr (currency p) /\
  field_price_value as_float body = inr (price_value p) /\
  field_images body = inr (images p).
Proof.
  unfold validate.
  repeat (match goal with |- context [match ?r with inl _ => _ | inr _ => _ end] =>
            destruct r end); try discriminate.
  intros [= <-]. simpl. repeat split.
Qed.

Lemma validate_errors body :
  match validate as_float body with
  | inl detail => detail = errors as_float body /\ detail <> []
  | inr _ => errors as_float body = []
  end.
Proof.
  unfold validate, errors.
  destruct (field_title body), (field_region body), (field_address body),
    (field_description body), (field_size_sqm as_float body),
    (field_currency body), (field_price_value as_float body),
    (field_images body); simpl;
    first [reflexivity | split; [reflexivity | discriminate]].
Qed.

Lemma elem_of_report {A} name n (r : err_type + A) :
  n ∈ (report name r).*1 <-> n = name /\ exists e, r = inl e.
Proof.
  destruct r as [e|a]; simpl.
  - rewrite list_elem_of_singleton. split; [intros ->; eauto | by intros [-> _]].
  - rewrite elem_of_nil. split; [done | intros [_ [e He]]; discriminate].
Qed.

Lemma elem_of_errors body n :
  n ∈ (errors as_float body).*1 <->
  (n = "title"%string /\ exists e, field_title body = inl e) \/
  (n = "region"%string /\ exists e, field_region body = inl e) \/
  (n = "address"%string /\ exists e, field_address body = inl e) \/
  (n = "description"%string /\ exists e, field_description body = inl e) \/
  (n = "size_sqm"%string /\
     exists e, field_size_sqm as_float body = inl e) \/
  (n = "currency"%string /\ exists e, field_currency body = inl e) \/
  (n = "price_value"%string /\
     exists e, field_price_value as_float body = inl e) \/
  (n = "images"%string /\ exists e, field_images body = inl e).
Proof.
  unfold errors. rewrite !fmap_app, !elem_of_app, !elem_of_report.
  reflexivity.
Qed.

(** Each field's check fails exactly on the bodies described by
    [offending]. *)
Lemma str_inl v e : str v = inl e -> forall s, v <> VStr s.
Proof. destruct v; simpl; congruence. Qed.

Lemma Literal_inl allowed v e :
  Literal allowed v = inl e -> forall s, s ∈ allowed -> v <> VStr s.
Proof.
  destruct v; simpl; try congruence.
  case_bool_decide as Hs; [discriminate|]. intros _ s' Hin Heq.
  apply Hs. by injection Heq as ->.
Qed.

Lemma Literal_inr allowed v s :
  Literal allowed v = inr s -> v = VStr s /\ s ∈ allowed.
Proof.
  destruct v; simpl; try congruence.
  case_bool_decide; [|discriminate]. intros Heq. injection Heq as <-. done.
Qed.

Lemma Optional_str_inl v e :
  Optional str v = inl e -> v <> VNull /\ forall s, v <> VStr s.
Proof. destruct v; simpl; try discriminate; intros _; split; congruence. Qed.

Lemma strs_inr l ss : strs l = inr ss -> l = VStr <$> ss.
Proof.
  revert ss. induction l as [|v l IH]; intros ss; simpl.
  - by intros [= <-].
  - destruct v; simpl; try (destruct (strs l); discriminate).
    destruct (strs l) as [?|ss']; [discriminate|].
    intros [= <-]. by rewrite (IH ss').
Qed.

Lemma strs_fmap ss : strs (VStr <$> ss) = inr ss.
Proof.
  induction ss as [|s ss IH]; [done|].
  rewrite fmap_cons. cbn [strs str]. by rewrite IH.
Qed.

Lemma Optional_List_str_inl v e :
  Optional List_str v = inl e ->
  v <> VNull /\ forall l, v <> VList (VStr <$> l).
Proof.
  destruct v; simpl; try discriminate; try (intros _; split; congruence).
  destruct (strs l) eqn:E; [|discriminate]. intros _. split; [congruence|].
  intros ss [= Hl]. pose proof (strs_fmap ss) as E'. congruence.
Qed.

Lemma float_gt_inl v e :
  float_gt as_float Float64.zero v = inl e ->
  as_float v = None \/
  exists x, as_float v = Some x /\ Float64.ltb Float64.zero x = false.
Proof.
  unfold float_gt, float. destruct (as_float v) as [x|]; [|by left].
  destruct (Float64.ltb Float64.zero x) eqn:E; [discriminate|].
  right. by exists x.
Qed.

Lemma errors_offending body n :
  n ∈ (errors as_float body).*1 -> offending as_float body n.
Proof.
  rewrite elem_of_errors.
  unfold field_title, field_region, field_address, field_description,
    field_size_sqm, field_currency, field_price_value, field_images,
    required, default_to.
  intros H.
  repeat (destruct H as [[-> [e H]]|H]); [..|destruct H as [-> [e H]]];
    match type of H with
    | context [body !! ?k] => destruct (body !! k) as [v|] eqn:Hk
    end; try discriminate;
    try (apply off_missing; [set_solver | done]).
  - eapply off_title; eauto using str_inl.
  - eapply off_region; eauto using Literal_inl.
  - apply Optional_str_inl in H as [? ?].
    eapply off_text; eauto. set_solver.
  - apply Optional_str_inl in H as [? ?].
    eapply off_text; eauto. set_solver.
  - apply float_gt_inl in H as [?|(x & ? & ?)].
    + eapply off_number; eauto. set_solver.
    + eapply off_not_positive; eauto. set_solver.
  - eapply off_currency; eauto; eapply Literal_inl; eauto; set_solver.
  - apply float_gt_inl in H as [?|(x & ? & ?)].
    + eapply off_number; eauto. set_solver.
    + eapply off_not_positive; eauto. set_solver.
  - apply Optional_List_str_inl in H as [? ?]. eapply off_images; eauto.
Qed.

Lemma str_not_text v : (forall s, v <> VStr s) -> str v = inl string_type.
Proof. destruct v; simpl; try done. intros H. by destruct (H s). Qed.

Lemma Literal_not_listed allowed v :
  (forall s, s ∈ allowed -> v <> VStr s) ->
  Literal allowed v = inl literal_error.
Proof.
  destruct v; simpl; try done. intros H.
  case_bool_decide as Hs; [|done]. by destruct (H s Hs).
Qed.

Lemma Optional_str_not_text v :
  v <> VNull -> (forall s, v <> VStr s) ->
  Optional str v = inl string_type.
Proof. destruct v; simpl; try done. intros _ H. by destruct (H s). Qed.

Lemma Optional_List_str_not_list v :
  v <> VNull -> (forall l, v <> VList (VStr <$> l)) ->
  exists e, Optional List_str v = inl e.
Proof.
  destruct v; simpl; eauto; try done. intros _ H.
  destruct (strs l) as [e|ss] eqn:E; eauto.
  apply strs_inr in E. by destruct (H ss); f_equal.
Qed.

Lemma offending_errors body n :
  offending as_float body n -> n ∈ (errors as_float body).*1.
Proof.
  rewrite elem_of_errors.
  unfold field_title, field_region, field_address, field_description,
    field_size_sqm, field_currency, field_price_value, field_images,
    required, default_to.
  destruct 1 as [name Hn Hk|v Hk Hv|v Hk Hv|name v Hn Hk Hv Hv'
                |name v Hn Hk Hv|name v x Hn Hk Hv Hx|v Hk Hv Hv'
                |v Hk Hv Hv'];
    try (apply list_elem_of_In in Hn; simpl in Hn;
         repeat destruct Hn as [<-|Hn]; try contradiction);
    rewrite ?Hk.
  - left; eauto.
  - right; left; eauto.
  - do 4 right; left; eauto.
  - do 6 right; left; eauto.
  - left; eauto using str_not_text.
  - right; left; eauto using Literal_not_listed.
  - do 2 right; left; eauto using Optional_str_not_text.
  - do 3 right; left; eauto using Optional_str_not_text.
  - do 4 right; left; split; [done|]. unfold float_gt, float. rewrite Hv. eauto.
  - do 6 right; left; split; [done|]. unfold float_gt, float. rewrite Hv. eauto.
  - do 4 right; left; split; [done|].
    unfold float_gt, float. rewrite Hv, Hx. eauto.
  - do 6 right; left; split; [done|].
    unfold float_gt, float. rewrite Hv, Hx. eauto.
  - do 5 right; left; split; [done|]. exists literal_error.
    apply Literal_not_listed. intros s Hs ->.
    apply list_elem_of_In in Hs. simpl in Hs.
    destruct Hs as [<-|[<-|[]]]; [by apply Hv | by apply Hv'].
  - do 7 right; split; [done|]. by apply Optional_List_str_not_list.
Qed.

(** The fields reported by a failed validation are exactly the
    offending ones. *)
Lemma errors_iff_offending body n :
  n ∈ (errors as_float body).*1 <-> offending as_float body n.
Proof. split; [apply errors_offending | apply offending_errors]. Qed.

(** A body is accepted exactly when no field offends. *)
Lemma validate_accepts body :
  (exists p, validate as_float body = inr p) <->
  (forall n, ~ offending as_float body n).
Proof.
  pose proof (validate_errors body) as H.
  destruct (validate as_float body) as [detail|p].
  - destruct H as [-> Hne]. split; [intros [p [=]]|].
    intros Hno. destruct (errors as_float body) as [|[n e] l] eqn:E; [done|].
    destruct (Hno n). apply errors_iff_offending. rewrite E. set_solver.
  - split; [|eauto]. intros _ n Hn%errors_iff_offending.
    rewrite H in Hn. set_solver.
Qed.
End ValidationFacts.

(** ** Creating a listing *)

Section CreateFacts.
Import Schemas Database Main.
Implicit Types (payload : Property) (st : store).

Lemma model_dump_currency payload :
  model_dump payload !! "currency" = Some (VStr (currency payload)).
Proof. unfold model_dump. by simplify_map_eq. Qed.

Lemma model_dump_price_value payload :
  model_dump payload !! "price_value" = Some (VNum (price_value payload)).
Proof. unfold model_dump. by simplify_map_eq. Qed.

Lemma model_dump_title payload :
  model_dump payload !! "title" = Some (VStr (title payload)).
Proof. unfold model_dump. by simplify_map_eq. Qed.

(** The handler never raises: it inserts one document and returns the
    identity the store generated. *)
Lemma create_property_inserts payload st :
  create_property payload st =
  (Some {| id := next_id st |},
   snd (create_document "property" (stored_data payload) st)).
Proof.
  unfold create_property, stored_data, spec_price_eur, spec_price_bgn.
  rewrite model_dump_currency, model_dump_price_value. simpl.
  by destruct (String.eqb (currency payload) "EUR").
Qed.

Lemma collection_create_document name data st :
  collection name (snd (create_document name data st)) =
  collection name st ++ [<["_id" := VOid (next_id st)]> data].
Proof. unfold collection at 1. simpl. by rewrite lookup_insert_eq. Qed.
End CreateFacts.


(** ** The scenario *)

Section ScenarioFacts.
Import Schemas Database Main Scenario.

Lemma flat_valid : validate number_only flat = inr flat_payload.
Proof. vm_compute. reflexivity. Qed.

(** 50000 EUR is stored as 50000.00 EUR and 97791.50 BGN. *)
Example flat_prices :
  match collection "property" one_flat with
  | [doc] =>
      doc !! "price_eur" = Some (VNum (of_int 50000)) /\
      doc !! "price_bgn" = Some (VNum (Float64.of_ratio false 9779150 100))
  | _ => False
  end.
Proof. vm_compute. split; reflexivity. Qed.
End ScenarioFacts.

Section CreateTheorems.
Import Schemas Database Main.
Variable as_float : value -> option Float64.float.
Implicit Types (body : dict) (payload : Property) (st : store).

Lemma post_properties_valid body payload st :
  validate as_float body = inr payload ->
  post_properties as_float body st =
  (OK {| id := next_id st |},
   snd (create_document "property" (stored_data payload) st)).
Proof.
  intros H. unfold post_properties.
  by rewrite H, create_property_inserts.
Qed.

(** What an accepted body says about price and currency. *)
Lemma validate_price body payload :
  validate as_float body = inr payload ->
  (exists v, body !! "price_value" = Some v /\
             as_float v = Some (price_value payload)) /\
  Float64.ltb Float64.zero (price_value payload) = true /\
  (body !! "currency" = None /\ currency payload = "EUR"%string \/
   body !! "currency" = Some (VStr (currency payload)) /\
   (currency payload = "EUR"%string \/ currency payload = "BGN"%string)).
Proof.
  intros H. apply validate_inr in H as (_ & _ & _ & _ & _ & Hc & Hp & _).
  unfold field_price_value, field_currency, required, default_to in *.
  destruct (body !! "price_value") as [v|] eqn:Hv; [|discriminate].
  unfold float_gt, float in Hp.
  destruct (as_float v) as [x|] eqn:Hx; [|discriminate].
  destruct (Float64.ltb Float64.zero x) eqn:Hpos; [|discriminate].
  injection Hp as <-. repeat split; eauto.
  destruct (body !! "currency") as [c|]; [right|left].
  - apply Literal_inr in Hc as [-> Hin]. split; [done|].
    apply list_elem_of_In in Hin. simpl in Hin.
    destruct Hin as [<-|[<-|[]]]; auto.
  - injection Hc as <-. done.
Qed.



(** A size or price that is at most zero is in particular not positive. *)
Lemma leb_zero_not_positive x :
  Float64.leb x Float64.zero = true -> Float64.ltb Float64.zero x = false.
Proof. by destruct x as [[]|[]| |[] m e]. Qed.

(** A string is accepted as a title whatever it is, the empty one
    included: a failed validation never names [title] when the body holds
    a string there. *)
Lemma title_text_accepted body s :
  body !! "title" = Some (VStr s) -> ~ offending as_float body "title".
Proof.
  intros Hk Hoff. apply offending_errors, elem_of_errors in Hoff.
  repeat (destruct Hoff as [[Hn He]|Hoff]; try discriminate Hn);
    [|destruct Hoff as [Hn _]; discriminate Hn].
  destruct He as [e He]. unfold field_title, required in He.
  by rewrite Hk in He.
Qed.

(** C8, as the code has it.  [title] has to be present and to be text; the
    empty string is text.  So a create request whose title is the empty
    string is rejected only if some other field offends, and when none
    does the listing is persisted with its empty title. *)
Theorem C8_empty_title_accepted body st :
  body !! "title" = Some (VStr "") ->
  ~ offending as_float body "title" /\
  ((forall n, n <> "title"%string -> ~ offending as_float body n) ->
   exists doc st',
     post_properties as_float body st = (OK {| id := next_id st |}, st') /\
     collection "property" st' = collection "property" st ++ [doc] /\
     doc !! "title" = Some (VStr "")).
Proof.
  intros Ht. pose proof (title_text_accepted _ _ Ht) as Hok.
  split; [done|]. intros Hothers.
  destruct (proj2 (validate_accepts as_float body)) as [p Hp].
  { intros n. destruct (decide (n = "title"%string)) as [->|Hn]; auto. }
  do 2 eexists. split; [by apply post_properties_valid|].
  split; [apply collection_create_document|].
  apply validate_inr in Hp as (Hp & _).
  unfold field_title, required in Hp. rewrite Ht in Hp. injection Hp as Hp.
  unfold stored_data. rewrite !lookup_insert_ne by done.
  by rewrite model_dump_title, <- Hp.
Qed.
End CreateTheorems.



(** C8 fails as stated: the untitled flat is not rejected, it is stored. *)
Lemma C8_empty_title_counterexample :
  untitled_flat !! "title" = Some (VStr "") /\
  exists st',
    Main.post_properties Scenario.number_only untitled_flat
      Scenario.empty_store = (OK {| Main.id := 0 |}, st') /\
    match Database.collection "property" st' with
    | [doc] => doc !! "title" = Some (VStr "")
    | _ => False
    end.
Proof.
  split; [reflexivity|]. eexists. split; [reflexivity|].
  vm_compute. reflexivity.
Qed.

Lemma C8_empty_title_accepted_witness :
  exists doc st',
    Main.post_properties Scenario.number_only untitled_flat
      Scenario.empty_store = (OK {| Main.id := 0 |}, st') /\
    Database.collection "property" st' = [doc] /\
    doc !! "title" = Some (VStr "").
Proof.
  destruct (C8_empty_title_accepted Scenario.number_only untitled_flat
              Scenario.empty_store eq_refl) as [_ H].
  apply H. intros n Hn Hoff.
  apply offending_errors in Hoff. vm_compute in Hoff.
  by apply elem_of_nil in Hoff.
Defined.

(** ** Searching *)

Section SearchFacts.
Import Database Main.
Implicit Types (p : Query.t) (st : store) (doc : dict).

(** The route, step by step: validation, the store's answer, the writing
    of the results. *)
Lemma get_properties_unfold p st :
  get_properties p st =
  match validate_query p with
  | [] =>
      if filter_ok st (filter_of p)
      then if forallb dict_json_ok (shape <$> found p st)
           then OK {| results := shape <$> found p st;
                      total := length (shape <$> found p st) |}
           else ServerError
      else ServerError
  | detail => Unprocessable detail
  end.
Proof.
  unfold get_properties, search_properties, get_documents, found, filter_of,
    effective_currency, effective_limit.
  destruct (validate_query p); [|done].
  by destruct (Query.price_currency p); simpl; destruct (filter_ok _ _).
Qed.

(** An answered search went through validation, and its body is the
    shaped list of found documents with its length. *)
Lemma get_properties_OK p st r :
  get_properties p st = OK r ->
  validate_query p = [] /\
  get_documents "property" (filter_of p) (effective_limit p) st
    = Some (found p st) /\
  r = {| results := shape <$> found p st;
         total := length (shape <$> found p st) |}.
Proof.
  rewrite get_properties_unfold. unfold get_documents. fold (found p st).
  destruct (validate_query p); [|discriminate].
  destruct (filter_ok st (filter_of p)); [|discriminate].
  destruct (forallb _ _); [|discriminate]. by intros [= <-].
Qed.

(** What an answered search returns can be written as JSON. *)
Lemma get_properties_OK_json p st r :
  get_properties p st = OK r -> forallb dict_json_ok (results r) = true.
Proof.
  rewrite get_properties_unfold.
  destruct (validate_query p); [|discriminate].
  destruct (filter_ok st (filter_of p)); [|discriminate].
  destruct (forallb _ _) eqn:E; [|discriminate]. by intros [= <-].
Qed.

Lemma shape_id doc : shape doc !! "_id" = None.
Proof.
  unfold shape. apply map_lookup_filter_None. right. intros x _ Hne.
  by apply Hne.
Qed.

Lemma shape_other doc k : k <> "_id"%string -> shape doc !! k = doc !! k.
Proof.
  intros Hk. unfold shape. destruct (doc !! k) as [x|] eqn:E.
  - by apply map_lookup_filter_Some.
  - apply map_lookup_filter_None. by left.
Qed.

Lemma in_found p st doc :
  doc ∈ found p st ->
  doc ∈ collection "property" st /\ matches st (filter_of p) doc = true.
Proof.
  unfold found. intros H. apply elem_of_take in H as (i & H & _).
  apply list_elem_of_lookup_2, list_elem_of_In, filter_In in H as [H1 H2].
  split; [by apply list_elem_of_In | done].
Qed.

Lemma length_found p st :
  (Z.of_nat (length (found p st)) <= Z.max 0 (effective_limit p))%Z.
Proof. unfold found. rewrite length_take. lia. Qed.
End SearchFacts.

(** *** A validated search is answered

    The store answers every filter the handler builds, provided the
    pattern it is given is one the store reads. *)

Section SearchAnswers.
Import Database Main.
Implicit Types (p : Query.t) (st : store).

(** The store reads the patterns [Regex] reads. *)
Lemma reading_compiled st q :
  is_Some (Regex.compile q) -> is_Some (reading st q "i").
Proof. intros [re H]. unfold reading. rewrite H. by eexists. Qed.

Lemma map_forallb_insert {A} (P : string -> A -> bool) (m : gmap string A)
    k a :
  P k a = true -> map_forallb P m = true ->
  map_forallb P (<[k := a]> m) = true.
Proof.
  rewrite !map_forallb_true. intros Hk Hm k' a' Hlk.
  apply lookup_insert_Some in Hlk as [[<- <-]|[_ Hlk]]; eauto.
Qed.

Lemma ops_ok_range st lo hi :
  range lo hi <> ∅ -> ops_ok st (range lo hi) = true.
Proof.
  intros Hne. unfold ops_ok. rewrite (bool_decide_eq_false_2 _ Hne).
  destruct lo as [a|], hi as [b|]; reflexivity.
Qed.

Lemma ops_ok_regex_i st q :
  is_Some (reading st q "i") -> ops_ok st (regex_i q) = true.
Proof.
  intros Hq. unfold ops_ok, regex_i.
  rewrite bool_decide_eq_false_2 by (apply insert_non_empty).
  simplify_map_eq. rewrite (bool_decide_eq_true_2 _ Hq).
  rewrite !andb_true_r. cbn [negb andb].
  apply map_forallb_insert; [done|]. apply map_forallb_insert; [done|].
  apply map_forallb_empty.
Qed.

Lemma field_name_ok_price c : field_name_ok (price_field c) = true.
Proof. destruct c as [c|]; [simpl; destruct (String.eqb c "EUR")|]; done. Qed.

Lemma fval_ok_or st q :
  is_Some (reading st q "i") ->
  fval_ok st "$or" (FOr [ {["title"%string := regex_i q]};
                          {["description"%string := regex_i q]};
                          {["address"%string := regex_i q]} ]) = true.
Proof.
  intros Hc. cbn [fval_ok forallb]. rewrite !map_forallb_singleton.
  by rewrite (ops_ok_regex_i _ _ Hc).
Qed.

Lemma filter_ok_build st q region min_price max_price price_currency min_sqm
    max_sqm :
  (forall q', q = Some q' -> q' <> ""%string ->
     is_Some (reading st q' "i")) ->
  filter_ok st (build_filter q region min_price max_price price_currency
                  min_sqm max_sqm) = true.
Proof.
  intros Hq. apply map_forallb_true. intros k f Hk.
  unfold build_filter in Hk.
  case_bool_decide as Hsize; case_bool_decide as Hprice;
    destruct region as [r|]; try destruct (truthy (Some r));
    destruct q as [q'|]; try destruct (truthy (Some q')) eqn:Hq';
    repeat (apply lookup_insert_Some in Hk as [[<- <-]|[_ Hk]]);
    try (by rewrite lookup_empty in Hk);
    first
      [ reflexivity
      | cbn [fval_ok]; rewrite ops_ok_range by done;
        by rewrite ?field_name_ok_price
      | apply fval_ok_or, Hq; [done|]; intros ->; discriminate Hq' ].
Qed.

(** A valid request whose pattern the store reads is answered, unless
    what was found cannot be written as JSON. *)
Lemma get_properties_answers p st :
  validate_query p = [] ->
  (forall q, Query.q p = Some q -> q <> ""%string ->
     is_Some (reading st q "i")) ->
  get_properties p st =
  if forallb dict_json_ok (shape <$> found p st)
  then OK {| results := shape <$> found p st;
             total := length (shape <$> found p st) |}
  else ServerError.
Proof.
  intros Hv Hq. rewrite get_properties_unfold, Hv. unfold filter_of.
  by rewrite filter_ok_build.
Qed.

End SearchAnswers.

Section SearchTheorems.
Import Database Main.
Implicit Types (p : Query.t) (st : store) (doc : dict).

Lemma check_limit_nil o :
  check_limit o = [] <-> forall n, o = Some n -> (1 <= n <= 200)%Z.
Proof.
  unfold check_limit. destruct o as [n|]; [|by split].
  destruct (n <? 1)%Z eqn:E1; [|destruct (200 <? n)%Z eqn:E2].
  - split; [done|]. intros H. specialize (H n eq_refl). lia.
  - split; [done|]. intros H. specialize (H n eq_refl). lia.
  - split; [|done]. intros _ n' [= <-]. lia.
Qed.

(** An answered search ran with a limit between 1 and 200 and returns at
    most that many records. *)
Lemma answered_within_limit p st r :
  get_properties p st = OK r ->
  (1 <= effective_limit p <= 200)%Z /\
  (Z.of_nat (length (results r)) <= effective_limit p)%Z.
Proof.
  intros H. apply get_properties_OK in H as (Hv & _ & ->). simpl.
  assert (1 <= effective_limit p <= 200)%Z as Hlim.
  { unfold validate_query in Hv. repeat apply app_eq_nil in Hv as [_ Hv].
    unfold effective_limit. destruct (Query.limit p) as [n|] eqn:E; simpl.
    - by apply (proj1 (check_limit_nil _) Hv).
    - lia. }
  split; [done|]. rewrite length_fmap.
  pose proof (length_found p st). lia.
Qed.

(** C6.  In the answer to a search, each record is the document the store
    returned without its [_id] and with every other field as stored, and
    [total] is the number of records in the answer: of those the store
    returned under the limit, not of those that match. *)
Theorem C6_shaped_results p st r :
  get_properties p st = OK r ->
  total r = length (results r) /\
  exists docs,
    get_documents "property" (filter_of p) (effective_limit p) st
      = Some docs /\
    length (results r) = length docs /\
    forall i doc, docs !! i = Some doc ->
      exists res, results r !! i = Some res /\
        res !! "_id" = None /\
        forall k, k <> "_id"%string -> res !! k = doc !! k.
Proof.
  intros H. apply get_properties_OK in H as (Hv & Hdocs & ->). simpl.
  split; [done|]. exists (found p st). split; [done|].
  split; [by rewrite length_fmap|].
  intros i doc Hi. exists (shape doc).
  rewrite list_lookup_fmap, Hi. split; [done|].
  split; [apply shape_id | apply shape_other].
Qed.

(** C5.  A search without [limit] is the search with [limit=50]; a limit
    below 1 or above 200 is rejected, the rejection naming [limit]; and an
    answered search ran with a limit between 1 and 200 and returns at most
    that many records. *)
Theorem C5_limit p st :
  (Query.limit p = None -> get_properties p st = get_properties (with_limit p 50) st) /\
  (forall n, Query.limit p = Some n -> (n < 1 \/ 200 < n)%Z ->
     exists detail, get_properties p st = Unprocessable detail /\
                    "limit"%string ∈ detail.*1) /\
  (forall r, get_properties p st = OK r ->
     (1 <= effective_limit p <= 200)%Z /\
     (Z.of_nat (length (results r)) <= effective_limit p)%Z).
Proof.
  split; [|split].
  - intros Hl. unfold get_properties, validate_query, with_limit. simpl.
    by rewrite Hl.
  - intros n Hn Hout. unfold get_properties.
    assert (exists e, check_limit (Query.limit p) = [("limit"%string, e)])
      as [e He].
    { rewrite Hn. unfold check_limit.
      destruct (n <? 1)%Z eqn:E1; [eauto|].
      destruct (200 <? n)%Z eqn:E2; [eauto|]. lia. }
    assert ("limit"%string ∈ (validate_query p).*1) as Hin.
    { unfold validate_query. rewrite He, !fmap_app, !elem_of_app.
      do 6 right. simpl. apply list_elem_of_singleton. done. }
    destruct (validate_query p) as [|d ds] eqn:E.
    + by apply elem_of_nil in Hin.
    + eauto.
  - apply answered_within_limit.
Qed.
(** C9.  An empty [q] builds the filter that an absent [q] builds, so the
    two searches are the same search. *)
Theorem C9_empty_q_is_absent region min_price max_price price_currency
    min_sqm max_sqm (limit : Z) (supplied_limit : option Z) st :
  build_filter (Some ""%string) region min_price max_price price_currency
    min_sqm max_sqm
  = build_filter None region min_price max_price price_currency
      min_sqm max_sqm /\
  search_properties (Some ""%string) region min_price max_price
    price_currency min_sqm max_sqm limit st
  = search_properties None region min_price max_price price_currency
      min_sqm max_sqm limit st /\
  get_properties
    {| Query.q := Some ""%string; Query.region := region;
       Query.min_price := min_price; Query.max_price := max_price;
       Query.price_currency := price_currency; Query.min_sqm := min_sqm;
       Query.max_sqm := max_sqm; Query.limit := supplied_limit |} st
  = get_properties
      {| Query.q := None; Query.region := region;
         Query.min_price := min_price; Query.max_price := max_price;
         Query.price_currency := price_currency; Query.min_sqm := min_sqm;
         Query.max_sqm := max_sqm; Query.limit := supplied_limit |} st.
Proof. done. Qed.

Lemma check_ge0_negative name x :
  Float64.ltb x Float64.zero = true ->
  check_ge0 name (Some x) = [(name, greater_than_equal)].
Proof.
  unfold check_ge0. intros H.
  assert (Float64.leb Float64.zero x = false) as ->; [|done].
  by destruct x as [[]|[]| |[] m e].
Qed.

(** C10.  A search that supplies a strictly negative [min_price],
    [max_price], [min_sqm] or [max_sqm] is rejected, the rejection naming
    that parameter and its [>= 0] constraint. *)
Theorem C10_negative_bound_rejected p st name x :
  (name, Some x) ∈ [ ("min_price"%string, Query.min_price p);
                     ("max_price"%string, Query.max_price p);
                     ("min_sqm"%string, Query.min_sqm p);
                     ("max_sqm"%string, Query.max_sqm p) ] ->
  Float64.ltb x Float64.zero = true ->
  exists detail,
    get_properties p st = Unprocessable detail /\
    (name, greater_than_equal) ∈ detail.
Proof.
  intros Hin Hneg.
  assert ((name, greater_than_equal) ∈ validate_query p) as Hd.
  { unfold validate_query. rewrite !elem_of_app.
    apply list_elem_of_In in Hin. simpl in Hin.
    destruct Hin as [Heq|[Heq|[Heq|[Heq|[]]]]];
      injection Heq as <- Hx;
      rewrite Hx, (check_ge0_negative _ _ Hneg), list_elem_of_singleton;
      auto 8. }
  unfold get_properties. destruct (validate_query p) as [|d ds].
  - by apply elem_of_nil in Hd.
  - eauto.
Qed.

Lemma range_gte lo hi a : lo = Some a -> range lo hi !! "$gte" = Some (VNum a).
Proof. intros ->. unfold range. destruct hi; by simplify_map_eq. Qed.

Lemma range_lte lo hi b : hi = Some b -> range lo hi !! "$lte" = Some (VNum b).
Proof. intros ->. unfold range. destruct lo; by simplify_map_eq. Qed.

Lemma range_nonempty lo hi : is_Some lo \/ is_Some hi -> range lo hi <> ∅.
Proof.
  intros H Hempty.
  assert (is_Some (range lo hi !! "$gte") \/ is_Some (range lo hi !! "$lte"))
    as [[? E]|[? E]].
  { destruct H as [[a ->]|[b ->]].
    - left. by erewrite range_gte.
    - right. by erewrite range_lte. }
  all: by rewrite Hempty, lookup_empty in E.
Qed.

Lemma price_field_not_size c : price_field c <> "size_sqm"%string.
Proof. unfold price_field. destruct c as [c|]; [destruct (String.eqb c "EUR")|]; done. Qed.

(** With a price bound supplied, the filter binds the price field to the
    range of the bounds. *)
Lemma build_filter_price q region min_price max_price price_currency
    min_sqm max_sqm :
  is_Some min_price \/ is_Some max_price ->
  build_filter q region min_price max_price price_currency min_sqm max_sqm
    !! price_field price_currency
  = Some (FOps (range min_price max_price)).
Proof.
  intros H%range_nonempty. unfold build_filter.
  rewrite (bool_decide_eq_false_2 _ H).
  case_bool_decide.
  - by rewrite lookup_insert_eq.
  - rewrite lookup_insert_ne by (apply not_eq_sym, price_field_not_size).
    by rewrite lookup_insert_eq.
Qed.

Lemma eval_ops_gte st ops v a :
  ops !! "$gte" = Some (VNum a) -> eval_ops st ops v = true ->
  exists x, v = Some (VNum x) /\ Float64.leb a x = true.
Proof.
  unfold eval_ops. intros ->. rewrite !andb_true_iff. intros [[H _] _].
  destruct v as [[]|]; try discriminate. eauto.
Qed.

Lemma eval_ops_lte st ops v b :
  ops !! "$lte" = Some (VNum b) -> eval_ops st ops v = true ->
  exists x, v = Some (VNum x) /\ Float64.leb x b = true.
Proof.
  unfold eval_ops. intros ->. rewrite !andb_true_iff. intros [[_ H] _].
  destruct v as [[]|]; try discriminate. eauto.
Qed.

(** C4.  In an answered search every record satisfies the price bounds
    that were supplied: its price in the selected currency ([price_eur]
    for EUR, which is also the default, [price_bgn] otherwise) is at least
    [min_price] and at most [max_price]. *)
Theorem C4_price_bounds p st r :
  get_properties p st = OK r ->
  forall res, res ∈ results r ->
    (forall a, Query.min_price p = Some a ->
       exists x, res !! spec_price_field p = Some (VNum x) /\
                 Float64.leb a x = true) /\
    (forall b, Query.max_price p = Some b ->
       exists x, res !! spec_price_field p = Some (VNum x) /\
                 Float64.leb x b = true).
Proof.
  intros H res Hres. apply get_properties_OK in H as (_ & _ & ->).
  simpl in Hres. apply list_elem_of_fmap in Hres as (doc & -> & Hdoc).
  apply in_found in Hdoc as [_ Hm].
  assert (spec_price_field p = price_field (Some (effective_currency p)))
    as ->.
  { unfold spec_price_field, effective_currency, price_field.
    by destruct (Query.price_currency p). }
  assert (price_field (Some (effective_currency p)) <> "_id"%string) as Hid.
  { simpl. by destruct (String.eqb _ _). }
  rewrite (shape_other _ _ Hid).
  assert (is_Some (Query.min_price p) \/ is_Some (Query.max_price p) ->
          eval_ops st (range (Query.min_price p) (Query.max_price p))
            (doc !! price_field (Some (effective_currency p))) = true) as Hev.
  { intros Hsome.
    pose proof (build_filter_price (Query.q p) (Query.region p) _ _
                  (Some (effective_currency p)) (Query.min_sqm p)
                  (Query.max_sqm p) Hsome) as Hlk.
    exact (map_forallb_lookup _ _ _ _ Hm Hlk). }
  split.
  - intros a Ha. eapply eval_ops_gte; [by apply range_gte|].
    apply Hev. left. by rewrite Ha.
  - intros b Hb. eapply eval_ops_lte; [by apply range_lte|].
    apply Hev. right. by rewrite Hb.
Qed.
End SearchTheorems.

(** ** Free-text search *)

Section RegexFacts.
Import Regex.

Lemma compile_plain q : plain q -> compile q = Some (literal q).
Proof.
  induction q as [|c q IH]; [done|]. intros Hq. simpl.
  rewrite IH by (intros c' Hc'; apply Hq; simpl; by right).
  assert (is_meta c = false) as Hc by (apply Hq; simpl; by left).
  unfold compile_char. rewrite Hc.
  destruct (Ascii.eqb c ".") eqn:E; [|done].
  apply Ascii.eqb_eq in E as ->. discriminate Hc.
Qed.

Lemma match_here_literal q s :
  match_here true (literal q) s = true <->
  exists post, lower_string s = String.append (lower_string q) post.
Proof.
  revert s. induction q as [|c q IH]; intros s; simpl.
  - split; [eauto|done].
  - destruct s as [|d s]; simpl.
    + split; [done|]. intros [post [=]].
    + rewrite andb_true_iff, Ascii.eqb_eq, IH. split.
      * intros [-> [post ->]]. eauto.
      * intros [post [= -> ->]]. eauto.
Qed.

Lemma search_literal q s :
  search true (literal q) s = true <-> ci_substring q s.
Proof.
  unfold ci_substring. induction s as [|d s IH]; simpl.
  - rewrite orb_false_r, match_here_literal. simpl. split.
    + intros [post H]. by exists EmptyString, post.
    + intros ([|? ?] & post & H); [eauto|discriminate].
  - rewrite orb_true_iff, match_here_literal, IH. simpl. split.
    + intros [[post H]|(pre & post & H)].
      * by exists EmptyString, post.
      * exists (String (lower d) pre), post. simpl. by rewrite H.
    + intros ([|c pre] & post & H); simpl in H; [eauto|].
      right. injection H as _ H. eauto.
Qed.

End RegexFacts.

Section FreeTextSearch.
Import Database Main.
Implicit Types (st : store).

(** The store reads a pattern without special characters as [Regex]
    does: by [search_literal], as a case-insensitive substring test. *)
Lemma reading_plain st q :
  plain q ->
  reading st q "i" = Some (Regex.search true (literal q)).
Proof. intros Hq. unfold reading. by rewrite (compile_plain _ Hq). Qed.

Lemma eval_ops_regex_i st q v :
  eval_ops st (regex_i q) v =
  match v with
  | Some (VStr s) =>
      match reading st q "i" with
      | Some matching => matching s
      | None => false
      end
  | _ => false
  end.
Proof. unfold eval_ops, regex_i. by simplify_map_eq. Qed.

(** The filter of a search that supplies only [q]. *)
Lemma build_filter_only_q q price_currency :
  q <> ""%string ->
  build_filter (Some q) None None None price_currency None None =
  {[ "$or"%string := FOr [ {["title"%string := regex_i q]};
                           {["description"%string := regex_i q]};
                           {["address"%string := regex_i q]} ] ]}.
Proof.
  intros Hq. unfold build_filter, truthy.
  by rewrite (proj2 (String.eqb_neq q "") Hq).
Qed.

Lemma matches_only_q st q price_currency doc :
  q <> ""%string ->
  matches st
    (build_filter (Some q) None None None price_currency None None) doc
  = eval_ops st (regex_i q) (doc !! "title")
    || eval_ops st (regex_i q) (doc !! "description")
    || eval_ops st (regex_i q) (doc !! "address").
Proof.
  intros Hq. rewrite (build_filter_only_q _ _ Hq). unfold matches.
  rewrite map_forallb_singleton. simpl.
  rewrite !map_forallb_singleton. by rewrite orb_false_r, orb_assoc.
Qed.

(** For a [q] without special characters the filter selects exactly the
    listings in which [q] occurs, letter case apart, in the title, the
    description or the address. *)
Lemma plain_q_matches st q price_currency doc :
  q <> ""%string -> plain q ->
  matches st
    (build_filter (Some q) None None None price_currency None None) doc
    = true
  <-> q_occurs q doc.
Proof.
  intros Hq Hplain. rewrite (matches_only_q _ _ _ _ Hq), !eval_ops_regex_i.
  rewrite (reading_plain _ _ Hplain).
  assert (forall name,
            match doc !! name with
            | Some (VStr s) => Regex.search true (literal q) s
            | _ => false
            end = true <->
            exists s, doc !! name = Some (VStr s) /\ ci_substring q s) as Hone.
  { intros name. destruct (doc !! name) as [[]|];
      try (split; [done | by intros (? & [=] & _)]).
    rewrite search_literal. split; [eauto|]. by intros (? & [= <-] & ?). }
  rewrite !orb_true_iff, !Hone. unfold q_occurs. split.
  - intros [[(s & ? & ?)|(s & ? & ?)]|(s & ? & ?)];
      eexists _, s; (split; [|done]); apply list_elem_of_In; simpl; auto.
  - intros (name & s & Hn & ? & ?).
    apply list_elem_of_In in Hn. simpl in Hn.
    destruct Hn as [<-|[<-|[<-|[]]]]; eauto.
Qed.

(** C3, at [q = "."].  The store holds one listing, the flat of the
    scenario, and a full stop occurs neither in its title nor in its
    description nor in its address; yet the search for ["."] returns it:
    [q] reaches the store as a pattern, in which a full stop stands for
    any character. *)
Theorem C3_full_stop_matches_any_text :
  (forall doc, doc ∈ collection "property" Scenario.one_flat ->
     ~ q_occurs "." doc) /\
  exists res,
    get_properties (only_q ".") Scenario.one_flat
      = OK {| results := [res]; total := 1 |} /\
    res !! "title" = Some (VStr "2-bed apt").
Proof.
  split.
  - intros doc Hdoc (name & s & Hn & Hs & Hsub).
    apply search_literal in Hsub.
    assert (collection "property" Scenario.one_flat
            = [<["_id" := VOid 0]> (stored_data Scenario.flat_payload)])
      as Hcoll by reflexivity.
    rewrite Hcoll in Hdoc. apply list_elem_of_singleton in Hdoc as ->.
    apply list_elem_of_In in Hn. simpl in Hn.
    destruct Hn as [<-|[<-|[<-|[]]]]; vm_compute in Hs;
      try discriminate Hs.
    injection Hs as <-. vm_compute in Hsub. discriminate Hsub.
  - exists (shape (<["_id" := VOid 0]> (stored_data Scenario.flat_payload))).
    split; reflexivity.
Qed.
End FreeTextSearch.

(** ** The scenario, searched *)

Section ScenarioSearches.
Import Database Main.

Lemma any_listing_answer :
  get_properties any_listing Scenario.one_flat
  = OK {| results := [shaped_flat]; total := 1 |}.
Proof. reflexivity. Qed.

Lemma mid_priced_answer :
  get_properties mid_priced Scenario.one_flat
  = OK {| results := [shaped_flat]; total := 1 |}.
Proof. reflexivity. Qed.

(** A search for a pattern beyond [Regex] is answered as the store's
    engine reads the pattern, and fails where the engine refuses it. *)
Example other_patterns :
  get_properties (only_q "a*") star_store
  = OK {| results := [shaped_flat]; total := 1 |} /\
  get_properties (only_q "(") star_store = ServerError.
Proof. split; reflexivity. Qed.

(** [total] counts what is returned, not what matches: of three matching
    listings a search with [limit=2] returns two, and says two. *)
Example total_is_after_limit :
  length (List.filter
            (matches three_flats (filter_of (with_limit any_listing 2)))
            (collection "property" three_flats)) = 3%nat /\
  get_properties (with_limit any_listing 2) three_flats
  = OK {| results := [shaped_flat; shaped_flat]; total := 2 |}.
Proof. split; reflexivity. Qed.
End ScenarioSearches.

Lemma C6_shaped_results_witness :
  exists docs,
    Database.get_documents "property" (filter_of any_listing)
      (effective_limit any_listing) Scenario.one_flat = Some docs /\
    forall i doc, docs !! i = Some doc ->
      exists res, [shaped_flat] !! i = Some res /\
        res !! "_id" = None /\
        forall k, k <> "_id"%string -> res !! k = doc !! k.
Proof.
  destruct (C6_shaped_results any_listing Scenario.one_flat _
              any_listing_answer) as (_ & docs & Hdocs & _ & Hshape).
  exists docs. split; [exact Hdocs | exact Hshape].
Defined.

Lemma C5_limit_witness :
  (exists detail,
     Main.get_properties (with_limit any_listing 0) Scenario.one_flat
       = Unprocessable detail /\ "limit"%string ∈ detail.*1) /\
  (exists detail,
     Main.get_properties (with_limit any_listing 201) Scenario.one_flat
       = Unprocessable detail /\ "limit"%string ∈ detail.*1) /\
  Main.get_properties any_listing Scenario.one_flat
    = Main.get_properties (with_limit any_listing 50) Scenario.one_flat /\
  (Z.of_nat (length [shaped_flat]) <= 50)%Z.
Proof.
  split; [|split; [|split]].
  - apply (proj1 (proj2 (C5_limit (with_limit any_listing 0)
                           Scenario.one_flat)) 0%Z eq_refl). lia.
  - apply (proj1 (proj2 (C5_limit (with_limit any_listing 201)
                           Scenario.one_flat)) 201%Z eq_refl). lia.
  - apply (proj1 (C5_limit any_listing Scenario.one_flat) eq_refl).
  - apply (proj2 (proj2 (C5_limit any_listing Scenario.one_flat)) _
             any_listing_answer).
Defined.

Lemma C4_price_bounds_witness :
  exists x,
    shaped_flat !! "price_eur" = Some (VNum x) /\
    Float64.leb (Scenario.of_int 40000) x = true /\
    Float64.leb x (Scenario.of_int 60000) = true.
Proof.
  destruct (C4_price_bounds mid_priced Scenario.one_flat _ mid_priced_answer
              shaped_flat) as [Hlo Hhi].
  - apply list_elem_of_singleton. reflexivity.
  - destruct (Hlo _ eq_refl) as (x & Hx & Hle).
    destruct (Hhi _ eq_refl) as (y & Hy & Hge).
    exists x. split; [exact Hx|]. split; [exact Hle|].
    rewrite Hx in Hy. injection Hy as <-. exact Hge.
Defined.

Lemma C10_negative_bound_rejected_witness :
  exists detail,
    Main.get_properties negative_min_price Scenario.one_flat
      = Unprocessable detail /\
    ("min_price"%string, greater_than_equal) ∈ detail.
Proof.
  apply (C10_negative_bound_rejected negative_min_price Scenario.one_flat
           "min_price" (Float64.of_ratio true 1 1)).
  - apply list_elem_of_In. simpl. left. reflexivity.
  - reflexivity.
Defined.

(** ** Floating-point arithmetic

    The error of one rounding, then of the operations of
    [create_property], then of a conversion there and back. *)

Section Pow2.
Local Open Scope Q_scope.

Lemma pow2_pos e : 0 < pow2 e.
Proof. apply Qpower_0_lt. reflexivity. Qed.

Lemma pow2_add a b : pow2 (a + b) == pow2 a * pow2 b.
Proof. apply Qpower_plus. discriminate. Qed.

Lemma pow2_succ e : pow2 (e + 1) == 2 * pow2 e.
Proof. rewrite pow2_add. unfold pow2. simpl. lra. Qed.

Lemma pow2_Z n : (0 <= n)%Z -> pow2 n == inject_Z (2 ^ n).
Proof.
  intros Hn. unfold pow2. rewrite Zpower_Qpower by assumption. reflexivity.
Qed.

Lemma pow2_le a b : (a <= b)%Z -> pow2 a <= pow2 b.
Proof.
  intros H. replace b with (a + (b - a))%Z by lia. rewrite pow2_add.
  rewrite (pow2_Z (b - a)) by lia.
  assert (1 <= inject_Z (2 ^ (b - a))).
  { change 1 with (inject_Z 1). rewrite <- Zle_Qle.
    pose proof (Z.pow_pos_nonneg 2 (b - a)). lia. }
  pose proof (pow2_pos a). nra.
Qed.
End Pow2.

Section Located.
Local Open Scope Q_scope.

Lemma loc_of_record_of_loc m l :
  loc_of_shr_record (shr_record_of_loc m l) = l /\
  shr_m (shr_record_of_loc m l) = m.
Proof. destruct l as [|[]]; split; reflexivity. Qed.

Lemma shr_1_spec mrs :
  (0 <= shr_m mrs)%Z ->
  shr_1 mrs = {| shr_m := Z.div2 (shr_m mrs);
                 shr_r := Z.odd (shr_m mrs);
                 shr_s := shr_r mrs || shr_s mrs |}.
Proof.
  destruct mrs as [m r s]. simpl. intros Hm.
  destruct m as [|[p|p|]|p]; try reflexivity. lia.
Qed.

Lemma shr_1_locates x mrs e :
  (0 <= shr_m mrs)%Z -> locates x mrs e -> locates x (shr_1 mrs) (e + 1).
Proof.
  intros Hm. rewrite (shr_1_spec _ Hm). unfold locates. simpl.
  pose proof (Z.div2_odd (shr_m mrs)) as Hdiv.
  assert (inject_Z (shr_m mrs) ==
          2 * inject_Z (Z.div2 (shr_m mrs))
          + inject_Z (Z.b2z (Z.odd (shr_m mrs)))) as HQ.
  { rewrite Hdiv at 1. rewrite inject_Z_plus, inject_Z_mult. reflexivity. }
  pose proof (pow2_succ e) as Hs. pose proof (pow2_pos e) as Hp.
  revert HQ. generalize (inject_Z (Z.div2 (shr_m mrs))) as h.
  generalize (inject_Z (shr_m mrs)) as m. intros m h HQ.
  revert Hs. generalize (pow2 (e + 1)) as p1. generalize dependent (pow2 e).
  intros p Hp p1 Hs.
  destruct mrs as [m0 r s]. simpl in *.
  destruct (Z.odd m0), r, s; simpl in *; intros H;
    change (inject_Z 1) with 1 in HQ; change (inject_Z 0) with 0 in HQ;
    try nra.
Qed.

Lemma iter_pos_invariant {A} (f : A -> A) (P : Z -> A -> Prop) :
  (forall k a, P k a -> P (k + 1)%Z (f a)) ->
  forall p k a, P k a -> P (k + Zpos p)%Z (SpecFloat.iter_pos f p a).
Proof.
  intros Hstep. induction p as [p IH|p IH|]; intros k a Ha; simpl.
  - replace (k + Zpos p~1)%Z with (k + 1 + Zpos p + Zpos p)%Z by lia.
    apply IH, IH, Hstep, Ha.
  - replace (k + Zpos p~0)%Z with (k + Zpos p + Zpos p)%Z by lia.
    apply IH, IH, Ha.
  - apply Hstep, Ha.
Qed.

(** Shifting [n] bits out of [m] keeps track of where [x] lies. *)
Lemma shr_locates x m l e n :
  (0 <= m)%Z -> (0 <= n)%Z ->
  loc_spec x (inject_Z m * pow2 e) (pow2 e) l ->
  exists mrs,
    shr (shr_record_of_loc m l) e n = (mrs, (e + n)%Z) /\
    locates x mrs (e + n) /\ shr_m mrs = (m / 2 ^ n)%Z.
Proof.
  intros Hm Hn Hloc. destruct (loc_of_record_of_loc m l) as [Hl Hm'].
  destruct n as [|p|p]; [| |lia].
  - exists (shr_record_of_loc m l). simpl. rewrite Z.add_0_r.
    split; [reflexivity|]. unfold locates. rewrite Hl, Hm'.
    split; [assumption|]. rewrite Z.div_1_r. reflexivity.
  - pose (P := fun (k : Z) (mrs : shr_record) =>
                 (0 <= k)%Z /\ (0 <= shr_m mrs)%Z /\ locates x mrs (e + k) /\
                 shr_m mrs = (m / 2 ^ k)%Z).
    assert (P (0 + Zpos p)%Z (SpecFloat.iter_pos shr_1 p (shr_record_of_loc m l)))
      as (_ & _ & Hloc' & Hm'').
    { apply (iter_pos_invariant shr_1 P).
      - intros k a (Hk & Ha & Hla & Hma). split; [lia|].
        rewrite (shr_1_spec _ Ha). simpl.
        split; [apply Z.div2_nonneg, Ha|]. split.
        + rewrite <- (shr_1_spec _ Ha), Z.add_assoc.
          apply shr_1_locates; assumption.
        + rewrite Z.div2_div, Hma, Z.pow_add_r, Z.pow_1_r by lia.
          rewrite Z.div_div by (try apply Z.pow_pos_nonneg; lia).
          reflexivity.
      - unfold P. rewrite Z.add_0_r, Hm', Z.div_1_r. unfold locates.
        rewrite Hl, Hm'. repeat split; try assumption; lia. }
    exists (SpecFloat.iter_pos shr_1 p (shr_record_of_loc m l)). simpl.
    split; [reflexivity|]. split; assumption.
Qed.
End Located.

Section Digits.

Lemma digits2_size p : digits2_pos p = Pos.size p.
Proof. induction p as [p IH|p IH|]; simpl; congruence. Qed.

Lemma Zdigits2_log2 m : 0 < m -> Zdigits2 m = Z.log2 m + 1.
Proof.
  destruct m as [|p|p]; try lia. intros _. simpl.
  destruct p; simpl; rewrite ?digits2_size; lia.
Qed.

Lemma Zdigits2_bounds m :
  0 < m -> 2 ^ (Zdigits2 m - 1) <= m < 2 ^ Zdigits2 m.
Proof.
  intros Hm. rewrite (Zdigits2_log2 _ Hm).
  replace (Z.log2 m + 1 - 1) with (Z.log2 m) by lia.
  apply Z.log2_spec, Hm.
Qed.

Lemma Zdigits2_le m d : 0 < m -> m < 2 ^ d -> Zdigits2 m <= d.
Proof.
  intros Hm Hd. pose proof (Zdigits2_bounds m Hm) as [Hlo _].
  destruct (Z_lt_le_dec d (Zdigits2 m)) as [Hlt|]; [|assumption].
  assert (2 ^ d <= 2 ^ (Zdigits2 m - 1)) by (apply Z.pow_le_mono_r; lia).
  lia.
Qed.

Lemma Zdigits2_ge m d : 0 < m -> 2 ^ d <= m -> d + 1 <= Zdigits2 m.
Proof.
  intros Hm Hd. pose proof (Zdigits2_bounds m Hm) as [_ Hhi].
  destruct (Z_lt_le_dec (Zdigits2 m) (d + 1)) as [Hlt|]; [|assumption].
  assert (2 ^ Zdigits2 m <= 2 ^ d) by (apply Z.pow_le_mono_r; lia).
  lia.
Qed.
End Digits.

Section Rounding.
Local Open Scope Q_scope.

Lemma round_nearest_even_spec x mrs e :
  locates x mrs e ->
  let m' := round_nearest_even (shr_m mrs) (loc_of_shr_record mrs) in
  (shr_m mrs <= m' <= shr_m mrs + 1)%Z /\
  - (pow2 e * (1#2)) <= inject_Z m' * pow2 e - x <= pow2 e * (1#2).
Proof.
  unfold locates. generalize (loc_of_shr_record mrs) as l.
  generalize (shr_m mrs) as m. intros m l Hloc.
  pose proof (pow2_pos e) as Hp. unfold round_nearest_even.
  destruct l as [|[]]; simpl in Hloc.
  - split; [lia|]. lra.
  - destruct (Z.even m).
    + split; [lia|]. lra.
    + split; [lia|]. rewrite inject_Z_plus. change (inject_Z 1) with 1. lra.
  - split; [lia|]. lra.
  - split; [lia|]. rewrite inject_Z_plus. change (inject_Z 1) with 1. lra.
Qed.

(** One rounding: [binary_round_aux] returns a float within half a unit in
    the last place of the number that [(m, e, l)] locates. *)
Lemma binary_round_aux_spec x m e l :
  (0 <= m)%Z ->
  loc_spec x (inject_Z m * pow2 e) (pow2 e) l ->
  let E := fexp 53 1024 (Zdigits2 m + e) in
  (e <= E)%Z -> (E < 971)%Z ->
  let f := binary_round_aux 53 1024 false m e l in
  is_finite_pos f /\
  - (pow2 E * (1#2)) <= magnitude f - x <= pow2 E * (1#2).
Proof.
  intros Hm Hloc E HeE HE f.
  destruct (shr_locates x m l e (E - e) ltac:(lia) ltac:(lia) Hloc)
    as (mrs & Hshr & Hlocs & Hmrs).
  replace (e + (E - e))%Z with E in * by lia.
  pose proof (round_nearest_even_spec x mrs E Hlocs) as [Hm' Herr].
  set (m' := round_nearest_even (shr_m mrs) (loc_of_shr_record mrs)) in *.
  assert (0 <= shr_m mrs < 2 ^ 53)%Z as Hmrs_bound.
  { rewrite Hmrs.
    assert (0 < 2 ^ (E - e))%Z by (apply Z.pow_pos_nonneg; lia).
    split; [apply Z.div_pos; lia|].
    destruct (Z.eq_dec m 0) as [->|Hne]; [by rewrite Z.div_0_l by lia|].
    pose proof (Zdigits2_bounds m ltac:(lia)) as [_ Hhi].
    apply Z.div_lt_upper_bound; [assumption|].
    rewrite <- Z.pow_add_r by lia.
    eapply Z.lt_le_trans; [exact Hhi|].
    apply Z.pow_le_mono_r; [lia|]. unfold E, fexp. lia. }
  assert (-1074 <= E)%Z as Hemin by (unfold E, fexp, emin; lia).
  assert (f = match m' with
              | Z0 => S754_zero false
              | Zpos p =>
                  if (m' <? 2 ^ 53)%Z then S754_finite false p E
                  else S754_finite false (2 ^ 52)%positive (E + 1)
              | Zneg _ => S754_nan
              end) as Hf.
  { unfold f, binary_round_aux, shr_fexp. fold E. rewrite Hshr. fold m'.
    destruct (Z_lt_le_dec m' (2 ^ 53)) as [Hlt|Hge].
    - assert (fexp 53 1024 (Zdigits2 m' + E) - E <= 0)%Z as Hk.
      { destruct (Z.eq_dec m' 0) as [->|Hne].
        - simpl. unfold fexp, emin. lia.
        - pose proof (Zdigits2_le m' 53 ltac:(lia) Hlt).
          unfold fexp, emin. lia. }
      assert (shr (shr_record_of_loc m' loc_Exact) E
                (fexp 53 1024 (Zdigits2 m' + E) - E)
              = (shr_record_of_loc m' loc_Exact, E)) as ->.
      { unfold shr. destruct (fexp 53 1024 (Zdigits2 m' + E) - E)%Z;
          try reflexivity. lia. }
      simpl. destruct m' as [|p|p]; try reflexivity.
      rewrite (proj2 (Z.ltb_lt _ _) Hlt).
      rewrite (proj2 (Z.leb_le E (1024 - 53)) ltac:(lia)). reflexivity.
    - assert (m' = 2 ^ 53)%Z as -> by lia.
      assert (fexp 53 1024 (Zdigits2 (2 ^ 53) + E) - E = 1)%Z as ->.
      { change (Zdigits2 (2 ^ 53)) with 54%Z. unfold fexp, emin. lia. }
      simpl. rewrite (proj2 (Z.leb_le (E + 1) (1024 - 53)) ltac:(lia)).
      reflexivity. }
  rewrite Hf. clear Hf f.
  destruct m' as [|p|p] eqn:Ep; [| |lia].
  - split; [reflexivity|]. cbn [magnitude].
    change (inject_Z 0) with 0 in Herr. lra.
  - destruct (Z.ltb_spec (Zpos p) (2 ^ 53)) as [Hlt|Hge].
    + split; [reflexivity|]. cbn [magnitude]. exact Herr.
    + assert (Zpos p = 2 ^ 53)%Z as Hp by lia.
      split; [reflexivity|]. cbn [magnitude]. rewrite Hp in Herr.
      rewrite pow2_succ.
      change (inject_Z (Zpos (2 ^ 52))) with (inject_Z (2 ^ 52)).
      assert (inject_Z (2 ^ 53) == 2 * inject_Z (2 ^ 52)) as H53
        by reflexivity.
      rewrite H53 in Herr. lra.
Qed.
End Rounding.

Section Nearest.
Local Open Scope Q_scope.

Lemma pow2_lt_inv a b : pow2 a < pow2 b -> (a < b)%Z.
Proof.
  intros H. destruct (Z_lt_le_dec a b) as [|Hle]; [assumption|].
  pose proof (pow2_le b a Hle). lra.
Qed.

Lemma loc_spec_lower x lo step l :
  0 < step -> loc_spec x lo step l -> lo <= x /\ x < lo + step.
Proof. intros Hs. destruct l as [|[]]; simpl; lra. Qed.

Lemma inject_Z_pow2_le m d :
  (0 <= d)%Z -> (2 ^ d <= m)%Z -> pow2 d <= inject_Z m.
Proof. intros Hd H. rewrite pow2_Z by assumption. by rewrite <- Zle_Qle. Qed.

Lemma inject_Z_pow2_lt m d :
  (0 <= d)%Z -> (m < 2 ^ d)%Z -> inject_Z m < pow2 d.
Proof. intros Hd H. rewrite pow2_Z by assumption. by rewrite <- Zlt_Qlt. Qed.

(** Rounding to nearest: for [x] below [2 ^ 1023], located by [(m, e, l)]
    with [m] of at least 53 bits or [e] small, the float returned is within
    [x * 2^-53 + eta] of [x]. *)
Lemma round_to_nearest x m e l :
  (0 <= m)%Z ->
  loc_spec x (inject_Z m * pow2 e) (pow2 e) l ->
  (e <= fexp 53 1024 (Zdigits2 m + e))%Z ->
  x < pow2 1023 ->
  let f := binary_round_aux 53 1024 false m e l in
  is_finite_pos f /\
  - (x * u53 + eta) <= magnitude f - x <= x * u53 + eta.
Proof.
  intros Hm Hloc HeE Hx f.
  pose proof (loc_spec_lower _ _ _ _ (pow2_pos e) Hloc) as [Hlo _].
  pose proof (pow2_pos (-1075)) as Heta. fold eta in Heta.
  destruct (Z.eq_dec m 0) as [->|Hne].
  { (* nothing but the position is left: the result is zero or the
       smallest float *)
    assert (fexp 53 1024 (Zdigits2 0 + e) = -1074)%Z as HE.
    { revert HeE. cbn [Zdigits2]. unfold fexp, SpecFloat.emin. lia. }
    destruct (binary_round_aux_spec x 0 e l Hm Hloc HeE) as [Hfin Herr].
    { rewrite HE. lia. }
    split; [exact Hfin|]. rewrite HE in Herr.
    assert (pow2 (-1074) == 2 * eta) as H1074
      by (apply (pow2_succ (-1075))).
    rewrite H1074 in Herr. change (inject_Z 0) with 0 in Hlo.
    unfold u53. fold f in Herr. nra. }
  assert (0 < m)%Z as Hm' by lia.
  pose proof (Zdigits2_bounds m Hm') as [Hd _].
  set (d := Zdigits2 m) in *.
  assert (1 <= d)%Z as Hd1.
  { unfold d. destruct m; try lia. simpl. lia. }
  assert (pow2 (d - 1 + e) <= x) as Hmag.
  { rewrite pow2_add. pose proof (inject_Z_pow2_le m (d - 1) ltac:(lia) Hd).
    pose proof (pow2_pos e). nra. }
  assert (d + e <= 1023)%Z as Hde.
  { assert (d - 1 + e < 1023)%Z; [|lia]. apply pow2_lt_inv. lra. }
  set (E := fexp 53 1024 (d + e)) in *.
  assert (E < 971)%Z as HE by (unfold E, fexp, SpecFloat.emin; lia).
  destruct (binary_round_aux_spec x m e l Hm Hloc HeE HE) as [Hfin Herr].
  fold d E f in Herr, Hfin. split; [exact Hfin|].
  assert (pow2 E * (1#2) <= x * u53 + eta) as Hulp; [|lra].
  assert (0 < x) as Hxpos by (pose proof (pow2_pos (d - 1 + e)); lra).
  destruct (Z_lt_le_dec (d + e - 53) (-1074)) as [Hsub|Hnorm].
  - assert (E = -1074)%Z as -> by (unfold E, fexp, SpecFloat.emin; lia).
    assert (pow2 (-1074) == 2 * eta) as -> by (apply (pow2_succ (-1075))).
    unfold u53. nra.
  - assert (E = d - 1 + e - 52)%Z as HEeq
      by (unfold E, fexp, SpecFloat.emin; lia).
    assert (pow2 (d - 1 + e) == pow2 E * pow2 52) as Hsplit.
    { rewrite <- pow2_add. replace (E + 52)%Z with (d - 1 + e)%Z by lia.
      reflexivity. }
    assert (pow2 52 == 4503599627370496) as H52 by reflexivity.
    rewrite Hsplit, H52 in Hmag. unfold u53.
    pose proof (pow2_pos E). nra.
Qed.
End Nearest.

Section Division.
Local Open Scope Q_scope.

(** Where the remainder [r] of a division by [d] puts the quotient. *)
Lemma new_location_spec d r :
  (0 < d)%Z -> (0 <= r < d)%Z ->
  match new_location d r with
  | loc_Exact => r = 0%Z
  | loc_Inexact Lt => (0 < r)%Z /\ (2 * r < d)%Z
  | loc_Inexact Eq => (2 * r = d)%Z
  | loc_Inexact Gt => (d < 2 * r)%Z
  end.
Proof.
  intros Hd Hr. unfold new_location, new_location_even, new_location_odd.
  destruct (Z.even d) eqn:Heven.
  - destruct (Z.eqb_spec r 0) as [->|Hne]; [reflexivity|].
    destruct (Z.compare_spec (2 * r) d); lia.
  - destruct (Z.eqb_spec r 0) as [->|Hne]; [reflexivity|].
    assert (Z.odd d = true) as Hodd by (by rewrite <- Z.negb_even, Heven).
    apply Z.odd_spec in Hodd as [h Hh].
    destruct (Z.compare_spec (2 * r + 1) d); lia.
Qed.

(** The core of a division yields a quotient, of at least 53 bits unless
    the exact quotient is in the subnormal range, and the position of the
    exact quotient next to it. *)
Lemma div_core_located x m1 e1 m2 e2 :
  (0 < m1)%Z -> (0 < m2)%Z ->
  x * (inject_Z m2 * pow2 e2) == inject_Z m1 * pow2 e1 ->
  exists q e' l,
    SFdiv_core_binary 53 1024 m1 e1 m2 e2 = (q, e', l) /\
    (0 <= q)%Z /\ (e' <= fexp 53 1024 (Zdigits2 q + e'))%Z /\
    loc_spec x (inject_Z q * pow2 e') (pow2 e') l.
Proof.
  intros Hm1 Hm2 Hx. unfold SFdiv_core_binary.
  pose proof (Zdigits2_bounds m1 Hm1) as [Hd1 _].
  pose proof (Zdigits2_bounds m2 Hm2) as [_ Hd2].
  set (d1 := Zdigits2 m1) in *. set (d2 := Zdigits2 m2) in *.
  assert (1 <= d1)%Z as Hd1pos by (unfold d1; destruct m1; simpl; lia).
  assert (1 <= d2)%Z as Hd2pos by (unfold d2; destruct m2; simpl; lia).
  set (e' := Z.min (fexp 53 1024 (d1 + e1 - (d2 + e2))) (e1 - e2)).
  assert (e' <= e1 - e2)%Z as He'2 by (unfold e'; lia).
  set (s := (e1 - e2 - e')%Z) in *.
  assert (match s with
          | Zpos _ => Z.shiftl m1 s
          | Z0 => m1
          | Zneg _ => 0%Z
          end = (m1 * 2 ^ s)%Z) as ->.
  { destruct s as [|p|p] eqn:Es; [lia| |lia].
    apply Z.shiftl_mul_pow2. lia. }
  pose proof (Z_div_mod (m1 * 2 ^ s) m2 ltac:(lia)) as Hdiv.
  destruct (Z.div_eucl (m1 * 2 ^ s) m2) as [q r]. destruct Hdiv as [Hqr Hr].
  exists q, e', (new_location m2 r). split; [reflexivity|].
  assert (0 < 2 ^ s)%Z as Hs by (apply Z.pow_pos_nonneg; lia).
  assert (0 <= q)%Z as Hq0 by nia.
  split; [exact Hq0|]. split.
  { destruct (Z_lt_le_dec (d1 + e1 - (d2 + e2) - 53) (-1074)) as [Hsub|Hnorm].
    - assert (e' <= -1074)%Z by (unfold e', fexp, SpecFloat.emin; lia).
      unfold fexp, SpecFloat.emin. lia.
    - assert (e' <= d1 + e1 - (d2 + e2) - 53)%Z as He'1
        by (unfold e', fexp, SpecFloat.emin; lia).
      assert (2 ^ 52 <= q)%Z as Hq.
      { assert (2 ^ 52 * m2 <= m1 * 2 ^ s)%Z as Hlow.
        { assert (2 ^ (d1 - 1) * 2 ^ s <= m1 * 2 ^ s)%Z by nia.
          assert (2 ^ 52 * 2 ^ d2 <= 2 ^ (d1 - 1) * 2 ^ s)%Z.
          { rewrite <- !Z.pow_add_r by lia. apply Z.pow_le_mono_r; lia. }
          nia. }
        nia. }
      assert (53 <= Zdigits2 q)%Z by (apply (Zdigits2_ge _ 52); lia).
      unfold fexp, SpecFloat.emin. lia. }
  (* x * m2 = (m2 * q + r) * 2^e' *)
  assert (x * inject_Z m2 == (inject_Z m2 * inject_Z q + inject_Z r) * pow2 e')
    as Hxq.
  { assert (pow2 e1 == pow2 e2 * (inject_Z (2 ^ s) * pow2 e')) as He1.
    { rewrite <- (pow2_Z s) by lia. rewrite <- !pow2_add.
      replace (e2 + (s + e'))%Z with e1 by lia. reflexivity. }
    assert (inject_Z m2 * inject_Z q + inject_Z r
            == inject_Z m1 * inject_Z (2 ^ s)) as Hdiv.
    { rewrite <- !inject_Z_mult, <- inject_Z_plus, <- Hqr. reflexivity. }
    rewrite Hdiv. rewrite He1 in Hx. pose proof (pow2_pos e2) as Hp2.
    apply (Qmult_inj_r _ _ (pow2 e2)); [lra|]. lra. }
  pose proof (new_location_spec m2 r Hm2 Hr) as Hloc.
  pose proof (pow2_pos e') as Hp.
  assert (0 < inject_Z m2) as HM2
    by (change 0 with (inject_Z 0); by rewrite <- Zlt_Qlt).
  assert (0 <= inject_Z r) as HR
    by (change 0 with (inject_Z 0); rewrite <- Zle_Qle; lia).
  revert Hxq HM2 HR Hloc Hp. generalize (pow2 e'). generalize (inject_Z q).
  intros Qq P Hxq HM2 HR Hloc HP.
  destruct (new_location m2 r) as [|[]]; simpl.
  - subst r. change (inject_Z 0) with 0 in Hxq.
    apply (Qmult_inj_r _ _ (inject_Z m2)); [lra|]. lra.
  - assert (2 * inject_Z r == inject_Z m2) as Hloc'.
    { rewrite <- Hloc, inject_Z_mult. reflexivity. }
    apply (Qmult_inj_r _ _ (inject_Z m2)); [lra|]. nra.
  - destruct Hloc as [Hr0 Hr2].
    rewrite Zlt_Qlt in Hr0, Hr2. rewrite inject_Z_mult in Hr2.
    change (inject_Z 2) with 2 in Hr2. change (inject_Z 0) with 0 in Hr0.
    split.
    + apply (Qmult_lt_r _ _ (inject_Z m2)); [exact HM2|]. nra.
    + apply (Qmult_lt_r _ _ (inject_Z m2)); [exact HM2|]. nra.
  - assert (inject_Z r < inject_Z m2) as Hrm by (rewrite <- Zlt_Qlt; lia).
    rewrite Zlt_Qlt in Hloc. rewrite inject_Z_mult in Hloc.
    change (inject_Z 2) with 2 in Hloc.
    split.
    + apply (Qmult_lt_r _ _ (inject_Z m2)); [exact HM2|]. nra.
    + apply (Qmult_lt_r _ _ (inject_Z m2)); [exact HM2|]. nra.
Qed.
End Division.

Section Operations.
Local Open Scope Q_scope.
Import Float64.

Lemma EUR_TO_BGN_bits :
  Main.EUR_TO_BGN = S754_finite false 8808275259200037 (-52).
Proof. reflexivity. Qed.

Lemma rate_value : rate == 8808275259200037 # 4503599627370496.
Proof. reflexivity. Qed.

Lemma mul_rate m e :
  let x := S754_finite false m e in
  magnitude x * rate < pow2 1023 ->
  is_finite_pos (mul x Main.EUR_TO_BGN) /\
  - (magnitude x * rate * u53 + eta)
    <= magnitude (mul x Main.EUR_TO_BGN) - magnitude x * rate
    <= magnitude x * rate * u53 + eta.
Proof.
  intros x Hx. unfold mul, prec, emax. rewrite EUR_TO_BGN_bits.
  unfold rate in *. rewrite EUR_TO_BGN_bits in *. subst x.
  cbn [SFmul xorb magnitude] in *.
  apply round_to_nearest; [lia| | |exact Hx].
  - cbn [loc_spec]. rewrite Pos2Z.inj_mul, inject_Z_mult, pow2_add. ring.
  - assert (53 <= Zdigits2 (Zpos (m * 8808275259200037)))%Z.
    { apply (Zdigits2_ge _ 52); lia. }
    unfold fexp, SpecFloat.emin. lia.
Qed.

Lemma magnitude_lt_digits m e :
  inject_Z (Zpos m) * pow2 e < pow2 (Zdigits2 (Zpos m) + e).
Proof.
  pose proof (Zdigits2_bounds (Zpos m) ltac:(lia)) as [_ H].
  assert (1 <= Zdigits2 (Zpos m))%Z by (cbn [Zdigits2]; lia).
  rewrite pow2_add.
  pose proof (inject_Z_pow2_lt (Zpos m) (Zdigits2 (Zpos m)) ltac:(lia) H).
  pose proof (pow2_pos e). nra.
Qed.

Lemma div_rate m e q :
  let x := S754_finite false m e in
  q * rate == magnitude x -> q < pow2 1023 ->
  is_finite_pos (div x Main.EUR_TO_BGN) /\
  - (q * u53 + eta)
    <= magnitude (div x Main.EUR_TO_BGN) - q <= q * u53 + eta.
Proof.
  intros x Hq Hhigh. unfold div, prec, emax.
  rewrite EUR_TO_BGN_bits. unfold rate in *. rewrite EUR_TO_BGN_bits in *.
  subst x. cbn [SFdiv xorb magnitude] in *.
  destruct (div_core_located q (Zpos m) e 8808275259200037 (-52))
    as (qz & e' & l & -> & Hqz & He' & Hloc); [lia|lia|exact Hq|].
  by apply round_to_nearest.
Qed.

Lemma round_half_even_spec n d :
  (0 <= n)%Z ->
  let k := round_half_even n d in
  (0 <= k)%Z /\ (2 * Z.abs (k * Zpos d - n) <= Zpos d)%Z.
Proof.
  intros Hn. unfold round_half_even.
  pose proof (Z.div_mod n (Zpos d) ltac:(lia)) as Hdm.
  pose proof (Z.mod_pos_bound n (Zpos d) ltac:(lia)) as Hr.
  assert (0 <= n / Zpos d)%Z as Hq by (apply Z.div_pos; lia).
  destruct (Z.compare_spec (2 * (n mod Zpos d)) (Zpos d)); [|nia|nia].
  destruct (Z.even (n / Zpos d)); nia.
Qed.

(** [of_ratio] is within a relative [2^-53] of the ratio. *)
Lemma of_ratio_spec k d :
  (Zpos d < 2 ^ 1000)%Z -> (Zpos k < 2 ^ 1000)%Z ->
  let x := inject_Z (Zpos k) / inject_Z (Zpos d) in
  is_finite_pos (of_ratio false k d) /\
  - (x * u53 + eta) <= magnitude (of_ratio false k d) - x <= x * u53 + eta.
Proof.
  intros Hd Hk x. unfold of_ratio, prec, emax.
  assert (0 < inject_Z (Zpos d)) as HD by reflexivity.
  assert (pow2 0 == 1) as H0 by reflexivity.
  assert (x * inject_Z (Zpos d) == inject_Z (Zpos k)) as Hx.
  { unfold x. field. lra. }
  destruct (div_core_located x (Zpos k) 0 (Zpos d) 0)
    as (qz & e' & l & -> & Hqz & He' & Hloc); [lia|lia| |].
  - rewrite H0. lra.
  - apply round_to_nearest; [exact Hqz|exact Hloc|exact He'|].
    + assert (inject_Z (Zpos k) < pow2 1000)
        by (by apply inject_Z_pow2_lt).
      assert (1 <= inject_Z (Zpos d))
        by (change 1 with (inject_Z 1); rewrite <- Zle_Qle; lia).
      assert (pow2 1000 <= pow2 1023) by (apply pow2_le; lia).
      assert (0 < x) by (unfold x; apply Qlt_shift_div_l; [lra|]; 
                         rewrite Qmult_0_l; reflexivity).
      nra.
Qed.
End Operations.

Section RoundTrip.
Local Open Scope Q_scope.
Import Float64.

Lemma eta_small : 0 < eta /\ eta <= 1 # 1048576.
Proof.
  split; [apply pow2_pos|]. unfold eta.
  assert (pow2 (-20) == 1 # 1048576) as <- by reflexivity.
  apply pow2_le. lia.
Qed.

(** [round(x, 2)] picks the whole number of hundredths nearest to [x] and
    returns the float nearest to that many hundredths. *)
Lemma round2_spec m e :
  let x := S754_finite false m e in
  magnitude x < pow2 990 ->
  exists k : Z,
    (0 <= k)%Z /\
    - (1#2) <= inject_Z k - 100 * magnitude x <= 1#2 /\
    round x 2 = match k with
                | Zpos p => of_ratio false p 100
                | _ => S754_zero false
                end.
Proof.
  intros x Hx. cbn [magnitude x] in *. unfold round.
  change (pow10 2) with 100%positive.
  destruct e as [|p|p].
  - exists (Zpos (m * 100) * 2 ^ 0)%Z. split; [lia|]. split; [|reflexivity].
    assert (pow2 0 == 1) as -> by reflexivity.
    rewrite Z.pow_0_r, Z.mul_1_r, Pos2Z.inj_mul, inject_Z_mult.
    change (inject_Z 100) with 100. lra.
  - exists (Zpos (m * 100) * 2 ^ Zpos p)%Z.
    assert (0 < 2 ^ Zpos p)%Z by (apply Z.pow_pos_nonneg; lia).
    split; [lia|]. split; [|reflexivity].
    rewrite (pow2_Z (Zpos p)) by lia.
    rewrite !inject_Z_mult, Pos2Z.inj_mul, inject_Z_mult.
    change (inject_Z 100) with 100. lra.
  - pose proof (round_half_even_spec (Zpos (m * 100)) (2 ^ p) ltac:(lia))
      as [Hk0 Hk].
    set (k := round_half_even (Zpos (m * 100)) (2 ^ p)) in *.
    exists k. split; [exact Hk0|]. split; [|reflexivity].
    assert (pow2 (Zneg p) * inject_Z (Zpos (2 ^ p)) == 1) as Hinv.
    { rewrite Pos2Z.inj_pow, <- pow2_Z by lia. rewrite <- pow2_add.
      replace (Z.neg p + Z.pos p)%Z with 0%Z by lia. reflexivity. }
    assert (0 < inject_Z (Zpos (2 ^ p))) as HD by reflexivity.
    pose proof (pow2_pos (Zneg p)) as HP.
    assert (- inject_Z (Zpos (2 ^ p))
            <= 2 * (inject_Z k * inject_Z (Zpos (2 ^ p))
                    - 100 * inject_Z (Zpos m))
            <= inject_Z (Zpos (2 ^ p))) as HkQ.
    { assert (- Zpos (2 ^ p)
              <= 2 * (k * Zpos (2 ^ p) + - (100 * Zpos m))
              <= Zpos (2 ^ p))%Z as [Hlo Hhi] by lia.
      rewrite Zle_Qle in Hlo, Hhi.
      repeat (rewrite inject_Z_mult in Hlo || rewrite inject_Z_plus in Hlo
              || rewrite inject_Z_opp in Hlo).
      repeat (rewrite inject_Z_mult in Hhi || rewrite inject_Z_plus in Hhi
              || rewrite inject_Z_opp in Hhi).
      change (inject_Z 2) with 2 in *. change (inject_Z 100) with 100 in *.
      lra. }
    revert Hinv HD HP HkQ. generalize (pow2 (Zneg p)) as P.
    generalize (inject_Z (Zpos (2 ^ p))) as D.
    generalize (inject_Z k) as K. generalize (inject_Z (Zpos m)) as M.
    intros M K D P Hinv HD HP HkQ.
    assert (K * D * P == K) as HK.
    { transitivity (K * (P * D)); [ring|]. rewrite Hinv. ring. }
    destruct HkQ as [Hlo Hhi]. split.
    + assert (0 <= P) as HP0 by lra.
      pose proof (Qmult_le_compat_r _ _ P Hlo HP0). nra.
    + assert (0 <= P) as HP0 by lra.
      pose proof (Qmult_le_compat_r _ _ P Hhi HP0). nra.
Qed.

Lemma is_finite_pos_cases f :
  is_finite_pos f ->
  f = S754_zero false \/ exists m e, f = S754_finite false m e.
Proof.
  destruct f as [s|s| |s m e]; simpl; try contradiction; intros ->; eauto.
Qed.

Lemma magnitude_pos m e : 0 < magnitude (S754_finite false m e).
Proof.
  cbn [magnitude]. pose proof (pow2_pos e).
  assert (0 < inject_Z (Zpos m)) by reflexivity. nra.
Qed.

(** [round(f, 2)] for a float that is zero or positive. *)
Lemma round2_error f :
  is_finite_pos f -> magnitude f < pow2 990 ->
  exists k : Q,
    - (1#2) <= k - 100 * magnitude f <= 1#2 /\
    is_finite_pos (round f 2) /\
    (k == 0 /\ magnitude (round f 2) == 0 \/
     1 <= k /\
     - (k * (1#100) * u53 + eta)
       <= magnitude (round f 2) - k * (1#100)
       <= k * (1#100) * u53 + eta).
Proof.
  intros Hf Hmag. destruct (is_finite_pos_cases f Hf) as [->|(m & e & ->)].
  - exists 0. cbn [round magnitude is_finite_pos].
    split; [lra|]. split; [reflexivity|]. left. split; reflexivity.
  - destruct (round2_spec m e Hmag) as (k & Hk0 & Hk & ->).
    exists (inject_Z k). split; [exact Hk|].
    destruct k as [|p|p]; [| |lia].
    + split; [reflexivity|]. left. split; reflexivity.
    + assert (Zpos p < 2 ^ 1000)%Z as Hp.
      { rewrite Zlt_Qlt, <- pow2_Z by lia.
        assert (pow2 1000 == 1024 * pow2 990) as ->.
        { replace 1000%Z with (10 + 990)%Z by lia. rewrite pow2_add.
          reflexivity. }
        pose proof (pow2_pos 990).
        assert (1 <= pow2 990).
        { assert (pow2 0 == 1) as <- by reflexivity. apply pow2_le. lia. }
        lra. }
      destruct (of_ratio_spec p 100 ltac:(lia) Hp) as [Hfin Herr].
      split; [exact Hfin|]. right.
      assert (1 <= inject_Z (Zpos p)) as H1.
      { change 1 with (inject_Z 1). rewrite <- Zle_Qle. lia. }
      split; [exact H1|].
      assert (inject_Z (Zpos p) / inject_Z 100
              == inject_Z (Zpos p) * (1#100)) as Hdiv by (field).
      rewrite Hdiv in Herr. exact Herr.
Qed.

Lemma div_zero : div (S754_zero false) Main.EUR_TO_BGN = S754_zero false.
Proof. reflexivity. Qed.

Lemma mul_error m e :
  let x := S754_finite false m e in
  magnitude x <= 1000000000000 ->
  is_finite_pos (mul x Main.EUR_TO_BGN) /\
  - (magnitude x * (8808275259200037 # 4503599627370496) * u53 + eta)
    <= magnitude (mul x Main.EUR_TO_BGN)
       - magnitude x * (8808275259200037 # 4503599627370496)
    <= magnitude x * (8808275259200037 # 4503599627370496) * u53 + eta.
Proof.
  intros x Hx. pose proof (magnitude_pos m e) as Hpos. fold x in Hpos.
  assert (magnitude x * rate < pow2 1023) as Hlt.
  { rewrite rate_value.
    assert (pow2 50 <= pow2 1023) by (apply pow2_le; lia).
    assert (pow2 50 == 1125899906842624) as H50 by reflexivity.
    rewrite H50 in *. lra. }
  destruct (mul_rate m e Hlt) as [Hfin Herr]. fold x in Hfin, Herr.
  split; [exact Hfin|]. rewrite rate_value in Herr. exact Herr.
Qed.

Lemma div_error f :
  is_finite_pos f -> magnitude f < pow2 1023 ->
  is_finite_pos (div f Main.EUR_TO_BGN) /\
  - (magnitude f * per_rate * u53 + eta)
    <= magnitude (div f Main.EUR_TO_BGN) - magnitude f * per_rate
    <= magnitude f * per_rate * u53 + eta.
Proof.
  intros Hf Hhigh. pose proof eta_small as [Heta _].
  destruct (is_finite_pos_cases f Hf) as [->|(m & e & ->)].
  { rewrite div_zero. split; [reflexivity|]. cbn [magnitude]. lra. }
  apply (div_rate m e).
  - rewrite rate_value. unfold per_rate. field.
  - unfold per_rate. pose proof (magnitude_pos m e). lra.
Qed.

Lemma to_eur_zero : to_eur (S754_zero false) = S754_zero false.
Proof. reflexivity. Qed.

Lemma eur_round_trip m e :
  let x := S754_finite false m e in
  magnitude x <= 1000000000000 ->
  is_finite_pos (to_eur (to_bgn x)) /\
  - (1#100) <= magnitude (to_eur (to_bgn x)) - magnitude x <= 1#100.
Proof.
  intros x Hx. pose proof (magnitude_pos m e) as Hpos. fold x in Hpos.
  pose proof eta_small as [Heta0 Heta].
  assert (pow2 50 == 1125899906842624) as H50 by reflexivity.
  assert (pow2 50 <= pow2 990) as H990 by (apply pow2_le; lia).
  assert (pow2 990 <= pow2 1023) as H1023 by (apply pow2_le; lia).
  rewrite H50 in H990.
  destruct (mul_error m e Hx) as [Hf1 He1]. fold x in Hf1, He1.
  unfold to_bgn. set (y1 := mul x Main.EUR_TO_BGN) in *.
  destruct (round2_error y1 Hf1) as (k1 & Hk1 & Hf2 & Hr1).
  { unfold u53 in He1. lra. }
  set (y2 := round y1 2) in *.
  destruct Hr1 as [[Hk10 Hy2]|[Hk11 He2]].
  - (* the price in BGN rounds to zero *)
    assert (y2 = S754_zero false) as ->.
    { destruct (is_finite_pos_cases y2 Hf2) as [->|(m2 & e2 & E)]; [done|].
      rewrite E in Hy2. pose proof (magnitude_pos m2 e2). lra. }
    rewrite to_eur_zero. split; [reflexivity|]. cbn [magnitude].
    unfold u53 in *. lra.
  - unfold to_eur.
    destruct (div_error y2 Hf2) as [Hf3 He3].
    { unfold u53 in *. lra. }
    set (y3 := div y2 Main.EUR_TO_BGN) in *.
    destruct (round2_error y3 Hf3) as (k2 & Hk2 & Hf4 & Hr2).
    { unfold u53, per_rate in *. lra. }
    split; [exact Hf4|].
    destruct Hr2 as [[Hk20 Hy4]|[Hk21 He4]];
      unfold u53, per_rate in *; lra.
Qed.

Lemma mul_zero : mul (S754_zero false) Main.EUR_TO_BGN = S754_zero false.
Proof. reflexivity. Qed.

Lemma mul_error_pos f :
  is_finite_pos f -> magnitude f <= 1000000000000 ->
  is_finite_pos (mul f Main.EUR_TO_BGN) /\
  - (magnitude f * (8808275259200037 # 4503599627370496) * u53 + eta)
    <= magnitude (mul f Main.EUR_TO_BGN)
       - magnitude f * (8808275259200037 # 4503599627370496)
    <= magnitude f * (8808275259200037 # 4503599627370496) * u53 + eta.
Proof.
  intros Hf Hmag. pose proof eta_small as [Heta _].
  destruct (is_finite_pos_cases f Hf) as [->|(m & e & ->)].
  - rewrite mul_zero. split; [reflexivity|]. cbn [magnitude]. lra.
  - by apply mul_error.
Qed.

Lemma bgn_round_trip m e :
  let x := S754_finite false m e in
  magnitude x <= 100000000000 ->
  is_finite_pos (to_bgn (to_eur x)) /\
  - (3#200) <= magnitude (to_bgn (to_eur x)) - magnitude x <= 3#200.
Proof.
  intros x Hx. pose proof (magnitude_pos m e) as Hpos. fold x in Hpos.
  pose proof eta_small as [Heta0 Heta].
  assert (pow2 50 == 1125899906842624) as H50 by reflexivity.
  assert (pow2 50 <= pow2 990) as H990 by (apply pow2_le; lia).
  assert (pow2 990 <= pow2 1023) as H1023 by (apply pow2_le; lia).
  rewrite H50 in H990.
  destruct (div_error x eq_refl) as [Hf1 He1]; [lra|].
  unfold to_eur. set (y1 := div x Main.EUR_TO_BGN) in *.
  destruct (round2_error y1 Hf1) as (k1 & Hk1 & Hf2 & Hr1).
  { unfold u53, per_rate in *. lra. }
  set (y2 := round y1 2) in *. unfold to_bgn.
  destruct (mul_error_pos y2 Hf2) as [Hf3 He3].
  { destruct Hr1 as [[Hk10 Hy2]|[Hk11 He2]]; unfold u53, per_rate in *; lra. }
  set (y3 := mul y2 Main.EUR_TO_BGN) in *.
  destruct (round2_error y3 Hf3) as (k2 & Hk2 & Hf4 & Hr2).
  { destruct Hr1 as [[Hk10 Hy2]|[Hk11 He2]]; unfold u53, per_rate in *; lra. }
  split; [exact Hf4|].
  destruct Hr1 as [[Hk10 Hy2]|[Hk11 He2]],
           Hr2 as [[Hk20 Hy4]|[Hk21 He4]];
    unfold u53, per_rate in *; lra.
Qed.
End RoundTrip.

(** ** Converting a price there and back *)

Section ThereAndBack.
Local Open Scope Q_scope.
Import Float64.

(** [to_bgn] and [to_eur] are what [create_property] stores. *)
Lemma stored_conversions payload :
  (Schemas.currency payload = "EUR"%string ->
   stored_data payload !! "price_bgn"
   = Some (VNum (to_bgn (Schemas.price_value payload)))) /\
  (Schemas.currency payload = "BGN"%string ->
   stored_data payload !! "price_eur"
   = Some (VNum (to_eur (Schemas.price_value payload)))).
Proof.
  unfold stored_data, spec_price_bgn, spec_price_eur, to_bgn, to_eur.
  split; intros ->; cbn [String.eqb Ascii.eqb Bool.eqb].
  - by rewrite lookup_insert_eq.
  - rewrite lookup_insert_ne by done. by rewrite lookup_insert_eq.
Qed.

Lemma positive_finite x :
  is_finite x = true -> ltb zero x = true ->
  exists m e, x = S754_finite false m e.
Proof. destruct x as [[]|[]| |[] m e]; try discriminate; eauto. Qed.

Lemma to_Q_magnitude f :
  is_finite_pos f -> is_finite f = true /\ to_Q f == magnitude f.
Proof.
  intros Hf. destruct (is_finite_pos_cases f Hf) as [->|(m & e & ->)].
  - split; reflexivity.
  - split; [reflexivity|]. cbn [to_Q magnitude]. unfold pow2. ring.
Qed.

Lemma within_intro tol x y :
  is_finite_pos x -> is_finite_pos y ->
  - tol <= magnitude x - magnitude y <= tol ->
  within tol x y = true.
Proof.
  intros Hx Hy Hd. destruct (to_Q_magnitude x Hx) as [Fx Ex].
  destruct (to_Q_magnitude y Hy) as [Fy Ey]. unfold within.
  rewrite Fx, Fy. cbn [andb].
  apply Qle_bool_iff, Qabs_Qle_condition. rewrite Ex, Ey. exact Hd.
Qed.

(** C7, as the code has it.  A price in EUR of at most 10^12, converted to
    BGN and back as [create_property] converts (times or divided by
    1.95583, rounded to 2 decimal places each time), comes back within
    0.01 of itself.  A price in BGN of at most 10^11, converted to EUR and
    back, comes back within 0.015 of itself. *)
Theorem C7_there_and_back x :
  is_finite x = true -> ltb zero x = true ->
  (to_Q x <= 1000000000000 ->
   within (1#100) (to_eur (to_bgn x)) x = true) /\
  (to_Q x <= 100000000000 ->
   within (3#200) (to_bgn (to_eur x)) x = true).
Proof.
  intros Hfin Hpos. destruct (positive_finite x Hfin Hpos) as (m & e & ->).
  destruct (to_Q_magnitude (S754_finite false m e) eq_refl) as [_ Eq].
  split; intros Hle; rewrite Eq in Hle.
  - destruct (eur_round_trip m e Hle) as [Hf Hd].
    by apply within_intro.
  - destruct (bgn_round_trip m e Hle) as [Hf Hd].
    by apply within_intro.
Qed.
End ThereAndBack.

(** The price 50000 comes back within the tolerance, from either
    currency. *)
Lemma C7_there_and_back_witness :
  Float64.within (1#100)
    (to_eur (to_bgn (Scenario.of_int 50000))) (Scenario.of_int 50000)
  = true /\
  Float64.within (3#200)
    (to_bgn (to_eur (Scenario.of_int 50000))) (Scenario.of_int 50000)
  = true.
Proof.
  destruct (C7_there_and_back (Scenario.of_int 50000) eq_refl eq_refl)
    as [Heur Hbgn].
  split; [apply Heur | apply Hbgn]; vm_compute; discriminate.
Defined.

(** C7 fails as stated, in both directions: 0.0296 BGN is 0.02 EUR, which
    is 0.04 BGN, 0.0104 away; and the float 69109089496906.24 EUR comes
    back as a float more than 0.01 away from it. *)
Lemma C7_there_and_back_counterexample :
  Float64.ltb Float64.zero price_0_0296 = true /\
  to_eur price_0_0296 = Float64.of_ratio false 2 100 /\
  to_bgn (to_eur price_0_0296) = Float64.of_ratio false 4 100 /\
  Float64.within (1#100) (to_bgn (to_eur price_0_0296)) price_0_0296
    = false /\
  Float64.ltb Float64.zero price_69e12 = true /\
  Float64.is_finite (to_eur (to_bgn price_69e12)) = true /\
  Float64.within (1#100) (to_eur (to_bgn price_69e12)) price_69e12 = false.
Proof. repeat split; vm_compute; reflexivity. Qed.

(** * Further properties *)

(** ** What a search asks of a listing *)

Section SearchMeaning.
Import Database Main.
Implicit Types (p : Query.t) (st : store) (doc : dict).

Lemma eval_ops_range st lo hi v :
  range lo hi <> ∅ -> eval_ops st (range lo hi) v = in_range lo hi v.
Proof.
  intros Hne. unfold eval_ops, range, in_range.
  destruct lo as [a|], hi as [b|]; simplify_map_eq;
    try (by destruct v as [[]|]; rewrite ?andb_true_r);
    by destruct Hne.
Qed.

Lemma in_range_none v : in_range None None v = true.
Proof. reflexivity. Qed.

Lemma range_empty lo hi : range lo hi = ∅ <-> lo = None /\ hi = None.
Proof.
  split.
  - intros H. destruct lo as [a|], hi as [b|]; try done;
      exfalso; revert H; apply range_nonempty; eauto.
  - by intros [-> ->].
Qed.

Lemma map_forallb_insert_fresh {A} (P : string -> A -> bool)
    (m : gmap string A) k a :
  m !! k = None ->
  map_forallb P (<[k := a]> m) = P k a && map_forallb P m.
Proof.
  intros Hk. apply Bool.eq_iff_eq_true.
  rewrite andb_true_iff, !map_forallb_true. split.
  - intros H. split.
    + apply H. by rewrite lookup_insert_eq.
    + intros k' a' Hk'. apply H. rewrite lookup_insert_ne; [done|].
      intros <-. congruence.
  - intros [Hka Hm] k' a' Hk'.
    apply lookup_insert_Some in Hk' as [[<- <-]|[_ Hk']]; eauto.
Qed.

Lemma eval_or_text st q doc :
  q <> ""%string ->
  eval_fval st doc "$or"
    (FOr [ {["title"%string := regex_i q]};
           {["description"%string := regex_i q]};
           {["address"%string := regex_i q]} ])
  = text_ok st (Some q) doc.
Proof.
  intros Hq. unfold text_ok, found_in.
  rewrite (proj2 (String.eqb_neq q "") Hq).
  cbn [eval_fval existsb]. rewrite !map_forallb_singleton.
  rewrite !eval_ops_regex_i.
  by destruct (doc !! "title") as [[]|], (doc !! "description") as [[]|],
    (doc !! "address") as [[]|].
Qed.

(** The filter the handler builds selects the listings that satisfy the
    request. *)
Lemma matches_filter_of st p doc :
  matches st (filter_of p) doc = satisfies st p doc.
Proof.
  unfold filter_of, build_filter, satisfies, matches.
  assert (spec_price_field p = price_field (Some (effective_currency p)))
    as Hpf.
  { unfold spec_price_field, effective_currency, price_field.
    by destruct (Query.price_currency p). }
  rewrite Hpf.
  set (pf := price_field (Some (effective_currency p))).
  assert (pf = "price_eur"%string \/ pf = "price_bgn"%string) as Hpf'.
  { unfold pf. simpl. destruct (String.eqb _ _); auto. }
  destruct (Query.q p) as [q|]; [destruct (String.eqb_spec q "") as [->|Hq]|];
  (destruct (Query.region p) as [r|];
     [destruct (String.eqb_spec r "") as [->|Hr]|]);
  repeat case_bool_decide;
  repeat match goal with
  | H : range _ _ = ∅ |- _ => apply range_empty in H as [-> ->]
  end;
  cbn [truthy negb String.eqb];
  rewrite ?(proj2 (String.eqb_neq _ _) Hq), ?(proj2 (String.eqb_neq _ _) Hr);
  cbn [negb];
  repeat (rewrite map_forallb_insert_fresh
            by (destruct Hpf' as [-> | ->]; by simplify_map_eq));
  rewrite ?map_forallb_empty, ?eval_or_text by done;
  cbn [eval_fval region_ok String.eqb];
  rewrite ?(proj2 (String.eqb_neq _ _) Hr), ?eval_ops_range by done;
  rewrite ?in_range_none; cbn [text_ok String.eqb];
  btauto.
Qed.
End SearchMeaning.

Section SearchClauses.
Import Database Main.
Implicit Types (p : Query.t) (st : store) (doc : dict).

Lemma found_satisfies p st :
  found p st =
  take (Z.to_nat (effective_limit p))
    (List.filter (satisfies st p) (collection "property" st)).
Proof.
  unfold found. f_equal. apply filter_ext. intros doc.
  apply matches_filter_of.
Qed.

(** X1.  How the clauses of a search combine.  When a search is answered,
    its results are the listings of the collection that satisfy every
    clause the request supplies: [q], when not empty, is found by the
    store, as a pattern and letter case apart, in the title or in the
    description or in the address; the region is the one asked for; the
    price in the chosen currency and the size lie within the bounds.  They
    come in the order of the collection, cut after [limit] and shaped, and
    [total] is the number of results. *)
Theorem X1_search_meaning p st r :
  get_properties p st = OK r ->
  results r =
    shape <$> take (Z.to_nat (effective_limit p))
                (List.filter (satisfies st p) (collection "property" st)) /\
  total r = length (results r).
Proof.
  intros H. apply get_properties_OK in H as (_ & _ & ->). simpl.
  by rewrite found_satisfies.
Qed.

Lemma in_results p st r res :
  get_properties p st = OK r -> res ∈ results r ->
  exists doc, res = shape doc /\ doc ∈ collection "property" st /\
              satisfies st p doc = true.
Proof.
  intros H Hres. apply get_properties_OK in H as (_ & _ & ->).
  simpl in Hres. apply list_elem_of_fmap in Hres as (doc & -> & Hdoc).
  apply in_found in Hdoc as [Hin Hm]. rewrite matches_filter_of in Hm.
  eauto.
Qed.

Lemma validate_query_parts p :
  validate_query p = [] ->
  check_literal "region" Schemas.BULGARIAN_REGIONS (Query.region p) = [] /\
  check_ge0 "min_price" (Query.min_price p) = [] /\
  check_ge0 "max_price" (Query.max_price p) = [] /\
  check_literal "price_currency" ["EUR"; "BGN"]%string
    (Query.price_currency p) = [] /\
  check_ge0 "min_sqm" (Query.min_sqm p) = [] /\
  check_ge0 "max_sqm" (Query.max_sqm p) = [] /\
  check_limit (Query.limit p) = [].
Proof.
  unfold validate_query. intros H.
  repeat (apply app_eq_nil in H as [? H]). auto 10.
Qed.

Lemma check_literal_nil name allowed o :
  check_literal name allowed o = [] <-> forall s, o = Some s -> s ∈ allowed.
Proof.
  unfold check_literal. destruct o as [s|]; [|by split].
  case_bool_decide; split; try done.
  - by intros _ s' [= <-].
  - intros H'. by destruct H; apply H'.
Qed.

Lemma region_not_empty rg : rg ∈ Schemas.BULGARIAN_REGIONS -> rg <> ""%string.
Proof.
  intros H ->. apply list_elem_of_In in H. simpl in H.
  repeat (destruct H as [H|H]; [discriminate H|]). exact H.
Qed.

(** X2.  A search by region is answered only for one of the 28 regions,
    and every result is then a listing of exactly that region. *)
Theorem X2_region_exact p st r rg :
  get_properties p st = OK r -> Query.region p = Some rg ->
  rg ∈ Schemas.BULGARIAN_REGIONS /\
  forall res, res ∈ results r -> res !! "region" = Some (VStr rg).
Proof.
  intros H Hrg.
  assert (rg ∈ Schemas.BULGARIAN_REGIONS) as Hin.
  { pose proof H as Hv. apply get_properties_OK in Hv as (Hv & _).
    apply validate_query_parts in Hv as (Hv & _).
    by apply (proj1 (check_literal_nil _ _ _) Hv). }
  split; [exact Hin|]. intros res Hres.
  destruct (in_results _ _ _ _ H Hres) as (doc & -> & _ & Hsat).
  rewrite shape_other by done.
  unfold satisfies in Hsat. rewrite !andb_true_iff in Hsat.
  destruct Hsat as [[[_ Hr] _] _]. unfold region_ok in Hr. rewrite Hrg in Hr.
  rewrite (proj2 (String.eqb_neq _ _) (region_not_empty _ Hin)) in Hr.
  destruct (doc !! "region") as [[]|]; try discriminate.
  by apply String.eqb_eq in Hr as ->.
Qed.

Lemma in_range_lo lo hi v a :
  in_range lo hi v = true -> lo = Some a ->
  exists x, v = Some (VNum x) /\ Float64.leb a x = true.
Proof.
  intros H ->. unfold in_range in H.
  destruct hi, v as [[]|]; try discriminate;
    apply andb_true_iff in H as [? _]; eauto.
Qed.

Lemma in_range_hi lo hi v b :
  in_range lo hi v = true -> hi = Some b ->
  exists x, v = Some (VNum x) /\ Float64.leb x b = true.
Proof.
  intros H ->. unfold in_range in H.
  destruct lo, v as [[]|]; try discriminate;
    apply andb_true_iff in H as [_ ?]; eauto.
Qed.

(** X3.  Every result of a search lies within the size bounds the request
    supplies: its [size_sqm] is a number, at least [min_sqm] and at most
    [max_sqm]. *)
Theorem X3_size_bounds p st r :
  get_properties p st = OK r ->
  forall res, res ∈ results r ->
    (forall a, Query.min_sqm p = Some a ->
       exists x, res !! "size_sqm" = Some (VNum x) /\
                 Float64.leb a x = true) /\
    (forall b, Query.max_sqm p = Some b ->
       exists x, res !! "size_sqm" = Some (VNum x) /\
                 Float64.leb x b = true).
Proof.
  intros H res Hres.
  destruct (in_results _ _ _ _ H Hres) as (doc & -> & _ & Hsat).
  rewrite shape_other by done.
  unfold satisfies in Hsat. rewrite !andb_true_iff in Hsat.
  destruct Hsat as [_ Hsize]. split; intros c Hc.
  - by apply (in_range_lo _ _ _ _ Hsize).
  - by apply (in_range_hi _ _ _ _ Hsize).
Qed.
End SearchClauses.

Section SearchEdges.
Import Database Main.
Implicit Types (p : Query.t) (st : store) (doc : dict).

Lemma check_ge0_none name : check_ge0 name None = [].
Proof. reflexivity. Qed.

Lemma filter_all {A} (f : A -> bool) (l : list A) :
  (forall x, f x = true) -> List.filter f l = l.
Proof.
  intros H. induction l as [|x l IH]; simpl; [done|]. by rewrite H, IH.
Qed.

Lemma forallb_dict_json_ok docs :
  forallb dict_json_ok docs = true <-> writable docs.
Proof.
  rewrite forallb_forall. unfold writable, dict_json_ok. split.
  - intros H doc k v Hdoc Hk.
    apply list_elem_of_In, H in Hdoc.
    exact (proj1 (map_forallb_true _ _) Hdoc k v Hk).
  - intros H doc Hdoc. apply map_forallb_true. intros k v Hk.
    apply (H doc k v); [by apply list_elem_of_In | done].
Qed.

(** X4.  A search without text, region and bounds, whose currency and
    limit are valid when supplied, finds the first [limit] listings of
    the collection (50 by default).  When JSON can hold them, it is
    answered with them, shaped, and [total] is the smaller of the limit
    and the size of the collection; when one of them holds a number that
    is not finite, the answer is a server error. *)
Theorem X4_no_clause_lists_all p st :
  no_clause p ->
  (forall c, Query.price_currency p = Some c ->
     c ∈ ["EUR"; "BGN"]%string) ->
  (forall n, Query.limit p = Some n -> 1 <= n <= 200) ->
  let listed :=
    shape <$> take (Z.to_nat (effective_limit p))
                (collection "property" st) in
  (writable listed ->
   get_properties p st
   = OK {| results := listed;
           total := Nat.min (Z.to_nat (effective_limit p))
                      (length (collection "property" st)) |}) /\
  (~ writable listed -> get_properties p st = ServerError).
Proof.
  intros (Hq & Hr & Hlo & Hhi & Hslo & Hshi) Hcur Hlim listed.
  assert (validate_query p = []) as Hv.
  { unfold validate_query. rewrite Hr, Hlo, Hhi, Hslo, Hshi.
    rewrite (proj2 (check_literal_nil _ _ _) Hcur).
    by rewrite (proj2 (check_limit_nil _) Hlim). }
  rewrite (get_properties_answers p st Hv) by (intros q Hq'; congruence).
  assert (shape <$> found p st = listed) as ->.
  { unfold listed. rewrite found_satisfies, filter_all; [done|].
    intros doc. unfold satisfies. by rewrite Hq, Hr, Hlo, Hhi, Hslo, Hshi. }
  destruct (forallb dict_json_ok listed) eqn:E.
  - split; [|by intros []; apply forallb_dict_json_ok].
    intros _. unfold listed at 2. by rewrite length_fmap, length_take.
  - split; [|done]. intros H%forallb_dict_json_ok. congruence.
Qed.

(** X5.  A search whose [region] is not one of the 28 regions, or whose
    [price_currency] is neither EUR nor BGN, is rejected, and the rejection
    names the parameter. *)
Theorem X5_unknown_region_or_currency_rejected p st :
  (forall rg, Query.region p = Some rg -> rg ∉ Schemas.BULGARIAN_REGIONS ->
     exists detail, get_properties p st = Unprocessable detail /\
                    ("region"%string, literal_error) ∈ detail) /\
  (forall c, Query.price_currency p = Some c ->
     c <> "EUR"%string -> c <> "BGN"%string ->
     exists detail, get_properties p st = Unprocessable detail /\
                    ("price_currency"%string, literal_error) ∈ detail).
Proof.
  assert (forall e, e ∈ validate_query p ->
            exists detail, get_properties p st = Unprocessable detail /\
                           e ∈ detail) as Hrej.
  { intros e He. unfold get_properties.
    destruct (validate_query p) as [|d ds]; [by apply elem_of_nil in He|].
    eauto. }
  split.
  - intros rg Hrg Hnot. apply Hrej. unfold validate_query.
    rewrite Hrg. unfold check_literal at 1.
    rewrite (bool_decide_eq_false_2 _ Hnot). set_solver.
  - intros c Hc Hne1 Hne2. apply Hrej. unfold validate_query.
    rewrite Hc, !elem_of_app. do 3 right. left.
    unfold check_literal. rewrite bool_decide_eq_false_2; [set_solver|].
    intros Hin. apply list_elem_of_In in Hin. simpl in Hin.
    destruct Hin as [<-|[<-|[]]]; done.
Qed.

(** X6.  When [q] is not empty and holds no character that is special in
    a pattern, every result holds [q], letter case apart, in its title, its
    description or its address. *)
Theorem X6_plain_text_found p st r q :
  get_properties p st = OK r ->
  Query.q p = Some q -> q <> ""%string -> plain q ->
  forall res, res ∈ results r -> q_occurs q res.
Proof.
  intros H Hq Hne Hplain res Hres.
  destruct (in_results _ _ _ _ H Hres) as (doc & -> & _ & Hsat).
  unfold satisfies in Hsat. rewrite !andb_true_iff in Hsat.
  destruct Hsat as [[[Htext _] _] _]. unfold text_ok in Htext.
  rewrite Hq, (proj2 (String.eqb_neq _ _) Hne) in Htext.
  apply existsb_exists in Htext as (name & Hname & Hm).
  unfold found_in in Hm. rewrite (reading_plain _ _ Hplain) in Hm.
  destruct (doc !! name) as [[| | |s| |]|] eqn:Hdoc; try discriminate.
  exists name, s.
  split; [by apply list_elem_of_In|]. split; [|by apply search_literal].
  rewrite shape_other; [done|]. intros ->.
  simpl in Hname. destruct Hname as [?|[?|[?|[]]]]; discriminate.
Qed.
End SearchEdges.

(** ** Creating, then searching *)

Section CreateThenSearch.
Import Schemas Database Main.
Variable as_float : value -> option Float64.float.
Implicit Types (body : dict) (payload : Property) (st : store).

Lemma model_dump_region payload :
  model_dump payload !! "region" = Some (VStr (region payload)).
Proof. unfold model_dump. by simplify_map_eq. Qed.

Lemma stored_doc_region payload st :
  stored_doc payload st !! "region" = Some (VStr (region payload)).
Proof.
  unfold stored_doc, stored_data. rewrite !lookup_insert_ne by done.
  apply model_dump_region.
Qed.

Lemma validate_region body payload :
  validate as_float body = inr payload ->
  region payload ∈ BULGARIAN_REGIONS.
Proof.
  intros H. apply validate_inr in H as (_ & Hr & _).
  unfold field_region, required in Hr.
  destruct (body !! "region") as [v|]; [|discriminate].
  by apply Literal_inr in Hr as [_ ?].
Qed.

Lemma satisfies_by_region st rg doc :
  rg <> ""%string ->
  satisfies st (by_region rg) doc =
  match doc !! "region" with
  | Some (VStr r') => String.eqb rg r'
  | _ => false
  end.
Proof.
  intros Hrg. unfold satisfies, by_region, region_ok, text_ok, in_range.
  cbn [Query.q Query.region Query.min_price Query.max_price Query.min_sqm
       Query.max_sqm andb].
  rewrite (proj2 (String.eqb_neq _ _) Hrg).
  by rewrite !andb_true_r.
Qed.

Lemma by_region_answers rg st :
  rg ∈ BULGARIAN_REGIONS ->
  get_properties (by_region rg) st =
  if forallb dict_json_ok (shape <$> found (by_region rg) st)
  then OK {| results := shape <$> found (by_region rg) st;
             total := length (shape <$> found (by_region rg) st) |}
  else ServerError.
Proof.
  intros Hrg. apply get_properties_answers; [|by intros q [=]].
  unfold validate_query, by_region. simpl.
  by rewrite bool_decide_eq_true_2.
Qed.

(** After a create, the search by region finds the new listing last, or
    what it found before. *)
Lemma found_after_create body payload st rg :
  validate as_float body = inr payload ->
  rg ∈ BULGARIAN_REGIONS ->
  found (by_region rg) (snd (post_properties as_float body st))
  = take 50 (List.filter (satisfies st (by_region rg))
               (collection "property" st)
             ++ if String.eqb rg (region payload)
                then [stored_doc payload st] else []).
Proof.
  intros Hv Hrg. rewrite found_satisfies.
  change (Z.to_nat (effective_limit (by_region rg))) with 50%nat.
  f_equal.
  assert (collection "property" (snd (post_properties as_float body st))
          = collection "property" st ++ [stored_doc payload st]) as ->.
  { rewrite (post_properties_valid as_float _ _ _ Hv). simpl.
    unfold collection at 1. simpl. by rewrite lookup_insert_eq. }
  pose proof (region_not_empty _ Hrg) as Hne.
  rewrite List.filter_app.
  rewrite (filter_ext _ (satisfies st (by_region rg)))
    by (intros doc; by rewrite !(satisfies_by_region _ _ _ Hne)).
  cbn [List.filter].
  by rewrite (satisfies_by_region _ _ _ Hne), stored_doc_region.
Qed.

Lemma created_collection body payload st :
  validate as_float body = inr payload ->
  collection "property" (snd (post_properties as_float body st))
  = collection "property" st ++ [stored_doc payload st].
Proof.
  intros H. rewrite (post_properties_valid as_float _ _ _ H). simpl.
  unfold collection at 1. simpl. by rewrite lookup_insert_eq.
Qed.

End CreateThenSearch.

(** ** Bounds and limits *)

Section FloatOrder.
Import Float64.

Lemma leb_trans a x b :
  leb a x = true -> leb x b = true -> leb a b = true.
Proof.
  unfold leb, SFleb.
  destruct a as [[]|[]| |[] ma ea], x as [[]|[]| |[] mx ex],
    b as [[]|[]| |[] mb eb]; simpl; try done;
  change (PosDef.Pos.compare_cont Eq) with Pos.compare;
  destruct (Z.compare_spec ea ex), (Z.compare_spec ex eb),
    (Z.compare_spec ea eb); subst; try lia; try done;
  destruct (Pos.compare_spec ma mx), (Pos.compare_spec mx mb),
    (Pos.compare_spec ma mb); subst; simpl; try lia; try done.
Qed.
End FloatOrder.

Section SearchBounds.
Import Database Main.
Implicit Types (p : Query.t) (st : store) (doc : dict).

Lemma in_range_ordered a b v :
  in_range (Some a) (Some b) v = true -> Float64.leb a b = true.
Proof.
  unfold in_range. destruct v as [[]|]; try done.
  intros [? ?]%andb_true_iff. by eapply leb_trans.
Qed.

Lemma filter_none {A} (f : A -> bool) l :
  (forall a, a ∈ l -> f a = false) -> List.filter f l = [].
Proof.
  induction l as [|a l IH]; [done|]. intros H. simpl.
  rewrite (H a) by left. apply IH. intros ??. apply H. by right.
Qed.

(** X9.  An answered search whose lower price bound exceeds its upper
    price bound, or whose lower size bound exceeds its upper size bound,
    finds nothing: no results, and a [total] of 0. *)
Theorem X9_inverted_bounds_find_nothing p st r :
  get_properties p st = OK r ->
  (exists a b, Query.min_price p = Some a /\ Query.max_price p = Some b /\
               Float64.leb a b = false) \/
  (exists a b, Query.min_sqm p = Some a /\ Query.max_sqm p = Some b /\
               Float64.leb a b = false) ->
  results r = [] /\ total r = 0%nat.
Proof.
  intros (_ & _ & ->)%get_properties_OK Hinv. simpl.
  assert (found p st = []) as ->; [|done].
  rewrite found_satisfies.
  rewrite filter_none; [by rewrite take_nil|].
  intros doc _. unfold satisfies.
  destruct Hinv as [(a & b & -> & -> & Hab)|(a & b & -> & -> & Hab)].
  - destruct (in_range _ _ (doc !! spec_price_field p)) eqn:E.
    + apply in_range_ordered in E. congruence.
    + by rewrite andb_false_r.
  - destruct (in_range _ _ (doc !! "size_sqm")) eqn:E.
    + apply in_range_ordered in E. congruence.
    + by rewrite andb_false_r.
Qed.

Lemma get_properties_filter_ok p st r :
  get_properties p st = OK r -> filter_ok st (filter_of p) = true.
Proof.
  intros (_ & H & _)%get_properties_OK. unfold get_documents in H.
  by destruct (filter_ok st (filter_of p)).
Qed.

Lemma forallb_take {A} (f : A -> bool) n l :
  forallb f l = true -> forallb f (take n l) = true.
Proof.
  rewrite !forallb_forall. intros H x Hx. apply H.
  apply list_elem_of_In in Hx. apply list_elem_of_In.
  by apply elem_of_take in Hx as (i & ?%list_elem_of_lookup_2 & _).
Qed.

Lemma check_limit_range n : check_limit (Some n) = [] <-> 1 <= n <= 200.
Proof.
  unfold check_limit. destruct (Z.ltb_spec n 1); [split; [done|lia]|].
  destruct (Z.ltb_spec 200 n); split; try done; lia.
Qed.

(** X8.  Lowering the limit of an answered search, to no less than 1,
    gives a search that is answered too, with the first [n] results of the
    former: the limit cuts the same sequence shorter. *)
Theorem X8_smaller_limit_is_a_prefix p st n n' r' :
  get_properties (with_limit p n') st = OK r' ->
  1 <= n <= n' ->
  exists r,
    get_properties (with_limit p n) st = OK r /\
    results r = take (Z.to_nat n) (results r').
Proof.
  intros H Hn. pose proof (get_properties_filter_ok _ _ _ H) as Hok.
  pose proof (get_properties_OK_json _ _ _ H) as Hjson.
  pose proof H as (Hv & _ & ->)%get_properties_OK.
  apply validate_query_parts in Hv as (Hr & Ha & Hb & Hc & Hd & He & Hl).
  apply check_limit_range in Hl.
  rewrite get_properties_unfold.
  change (filter_of (with_limit p n)) with (filter_of (with_limit p n')).
  rewrite Hok. unfold validate_query.
  cbn [Query.region Query.min_price Query.max_price Query.price_currency
       Query.min_sqm Query.max_sqm Query.limit with_limit results] in *.
  rewrite Hr, Ha, Hb, Hc, Hd, He.
  rewrite (proj2 (check_limit_range n)) by lia.
  assert (shape <$> found (with_limit p n) st
          = take (Z.to_nat n) (shape <$> found (with_limit p n') st)) as ->.
  { unfold found. rewrite <- fmap_take, take_take. do 2 f_equal.
    change (effective_limit (with_limit p n')) with n'.
    change (effective_limit (with_limit p n)) with n. lia. }
  simpl. rewrite (forallb_take _ _ _ Hjson). by eexists.
Qed.
End SearchBounds.

(** ** What is stored for a listing *)



Section UndeclaredFields.
Import Schemas Database Main.
Variable as_float : value -> option Float64.float.
Implicit Types (body : dict) (payload : Property) (st : store).

Lemma validate_agree body body' :
  (forall name, name ∈ property_fields -> body !! name = body' !! name) ->
  validate as_float body = validate as_float body'.
Proof.
  intros H. unfold validate, errors, field_title, field_region,
    field_address, field_description, field_size_sqm, field_currency,
    field_price_value, field_images, required, default_to.
  assert (forall name, In name property_fields ->
            body !! name = body' !! name) as H'
    by (intros ? ?%list_elem_of_In; auto).
  rewrite (H' "title"%string), (H' "region"%string), (H' "address"%string),
    (H' "description"%string), (H' "size_sqm"%string),
    (H' "currency"%string), (H' "price_value"%string),
    (H' "images"%string) by (simpl; tauto).
  reflexivity.
Qed.





(** What validation guarantees about an accepted listing. *)
Lemma validate_well_formed body payload :
  validate as_float body = inr payload ->
  region payload ∈ BULGARIAN_REGIONS /\
  Float64.ltb Float64.zero (size_sqm payload) = true /\
  currency payload ∈ ["EUR"; "BGN"]%string /\
  Float64.ltb Float64.zero (price_value payload) = true.
Proof.
  intros H. pose proof (validate_price as_float _ _ H) as (_ & Hp & Hc).
  apply validate_inr in H as (_ & Hr & _ & _ & Hs & _).
  unfold field_region, field_size_sqm, required in *.
  destruct (body !! "region") as [v|]; [|discriminate].
  apply Literal_inr in Hr as [_ Hr].
  destruct (body !! "size_sqm") as [v'|]; [|discriminate].
  unfold float_gt, float in Hs. destruct (as_float v') as [x|]; [|discriminate].
  destruct (Float64.ltb Float64.zero x) eqn:E; [|discriminate].
  injection Hs as <-. repeat split; try done.
  destruct Hc as [[_ E']|[_ [E'|E']]]; rewrite E';
    apply list_elem_of_In; simpl; auto.
Qed.

(** Validating what [model_dump] wrote gives the listing back. *)
Lemma validate_model_dump body payload :
  (forall x, as_float (VNum x) = Some x) ->
  validate as_float body = inr payload ->
  validate as_float (model_dump payload) = inr payload.
Proof.
  intros Hnum (Hr & Hs & Hc & Hp)%validate_well_formed.
  unfold validate, field_title, field_region, field_address,
    field_description, field_size_sqm, field_currency, field_price_value,
    field_images, required, default_to, model_dump.
  rewrite lookup_insert_eq.
  do 1 (rewrite lookup_insert_ne by done). rewrite lookup_insert_eq.
  do 2 (rewrite lookup_insert_ne by done). rewrite lookup_insert_eq.
  do 3 (rewrite lookup_insert_ne by done). rewrite lookup_insert_eq.
  do 4 (rewrite lookup_insert_ne by done). rewrite lookup_insert_eq.
  do 5 (rewrite lookup_insert_ne by done). rewrite lookup_insert_eq.
  do 6 (rewrite lookup_insert_ne by done). rewrite lookup_insert_eq.
  do 7 (rewrite lookup_insert_ne by done). rewrite lookup_insert_eq.
  unfold float_gt, float, Literal. rewrite !Hnum, Hs, Hp.
  rewrite !bool_decide_eq_true_2 by done.
  destruct payload as [t r [a|] [d|] s c p [i|]]; simpl;
    rewrite ?strs_fmap; reflexivity.
Qed.
End UndeclaredFields.

(** *** The stored prices *)

Section StoredPrices.
Local Open Scope Q_scope.
Import Float64.

Lemma pow2_50 : pow2 50 == 1125899906842624.
Proof. reflexivity. Qed.

Lemma below_pow2_990 x : x <= 1125899906842624 -> x < pow2 990.
Proof.
  intros H. assert (pow2 50 < pow2 990).
  { assert (pow2 51 <= pow2 990) by (apply pow2_le; lia).
    assert (pow2 51 == 2 * pow2 50) as E by (apply (pow2_succ 50)).
    pose proof (pow2_pos 50). lra. }
  rewrite pow2_50 in *. lra.
Qed.

(** A price below half a cent rounds to zero. *)
Lemma round2_zero f :
  is_finite_pos f -> magnitude f < 1 # 200 -> round f 2 = S754_zero false.
Proof.
  intros Hf Hmag. destruct (is_finite_pos_cases f Hf) as [->|(m & e & ->)].
  { reflexivity. }
  destruct (round2_spec m e) as (k & Hk0 & Hk & ->).
  { apply below_pow2_990. lra. }
  assert (k < 1)%Z as Hk1.
  { rewrite Zlt_Qlt. change (inject_Z 1) with 1. lra. }
  by destruct k; try lia.
Qed.

(** A price above half a cent does not. *)
Lemma round2_positive f :
  is_finite_pos f -> 1 # 200 < magnitude f -> magnitude f < pow2 990 ->
  exists m e, round f 2 = S754_finite false m e.
Proof.
  intros Hf Hlo Hhi. pose proof eta_small as [Heta0 Heta].
  destruct (round2_error f Hf Hhi) as (k & Hk & Hfin & [[Hk0 _]|[Hk1 He]]).
  { lra. }
  destruct (is_finite_pos_cases _ Hfin) as [E|?]; [|done].
  rewrite E in He. cbn [magnitude] in He. unfold u53 in He. lra.
Qed.

(** A price of a whole number of cents is rounded to itself. *)
Lemma round2_cents c :
  (Zpos c <= 10 ^ 15)%Z ->
  round (of_ratio false c 100) 2 = of_ratio false c 100.
Proof.
  intros Hc. pose proof eta_small as [Heta0 Heta].
  assert (1 <= inject_Z (Zpos c) <= 1000000000000000) as [Hc1 Hc2].
  { change 1 with (inject_Z 1).
    change 1000000000000000 with (inject_Z (10 ^ 15)).
    rewrite <- !Zle_Qle. lia. }
  destruct (of_ratio_spec c 100) as [Hfin Herr]; [lia| |].
  { assert (10 ^ 15 < 2 ^ 1000)%Z by (apply Z.ltb_lt; reflexivity). lia. }
  assert (inject_Z (Zpos c) / inject_Z 100 == inject_Z (Zpos c) * (1#100))
    as Hdiv by field.
  rewrite Hdiv in Herr. unfold u53 in Herr.
  destruct (is_finite_pos_cases _ Hfin) as [E|(m & e & E)].
  { rewrite E in Herr. cbn [magnitude] in Herr. lra. }
  rewrite E in *.
  destruct (round2_spec m e) as (k & Hk0 & Hk & ->).
  { apply below_pow2_990. lra. }
  assert (k = Zpos c) as ->; [|done].
  assert (k < Zpos c + 1)%Z.
  { rewrite Zlt_Qlt, inject_Z_plus. change (inject_Z 1) with 1. lra. }
  assert (Zpos c < k + 1)%Z.
  { rewrite Zlt_Qlt, inject_Z_plus. change (inject_Z 1) with 1. lra. }
  lia.
Qed.

(** The price in BGN stored for a price in EUR, against the exact
    product. *)
Lemma to_bgn_accuracy f :
  is_finite_pos f -> magnitude f <= 1000000000000 ->
  is_finite_pos (to_bgn f) /\
  - (6#1000) <= magnitude (to_bgn f) - magnitude f * (195583 # 100000)
             <= 6#1000.
Proof.
  intros Hf Hx. pose proof eta_small as [Heta0 Heta].
  assert (0 <= magnitude f) as Hpos.
  { destruct (is_finite_pos_cases f Hf) as [->|(m & e & ->)].
    - cbn [magnitude]. lra.
    - pose proof (magnitude_pos m e). lra. }
  destruct (mul_error_pos f Hf Hx) as [Hf1 He1].
  unfold to_bgn. set (y1 := mul f Main.EUR_TO_BGN) in *.
  destruct (round2_error y1 Hf1) as (k1 & Hk1 & Hf2 & Hr1).
  { apply below_pow2_990. unfold u53 in He1. lra. }
  split; [exact Hf2|].
  destruct Hr1 as [[Hk10 Hy2]|[Hk11 He2]]; unfold u53 in *; lra.
Qed.

(** The price in EUR stored for a price in BGN, against the exact
    quotient. *)
Lemma to_eur_accuracy f :
  is_finite_pos f -> magnitude f <= 1000000000000 ->
  is_finite_pos (to_eur f) /\
  - (6#1000) <= magnitude (to_eur f) - magnitude f * (100000 # 195583)
             <= 6#1000.
Proof.
  intros Hf Hx. pose proof eta_small as [Heta0 Heta].
  assert (0 <= magnitude f) as Hpos.
  { destruct (is_finite_pos_cases f Hf) as [->|(m & e & ->)].
    - cbn [magnitude]. lra.
    - pose proof (magnitude_pos m e). lra. }
  assert (pow2 50 <= pow2 1023) as H1023 by (apply pow2_le; lia).
  rewrite pow2_50 in H1023.
  destruct (div_error f Hf) as [Hf1 He1]; [lra|].
  unfold to_eur. set (y1 := div f Main.EUR_TO_BGN) in *.
  destruct (round2_error y1 Hf1) as (k1 & Hk1 & Hf2 & Hr1).
  { apply below_pow2_990. unfold u53, per_rate in He1. lra. }
  split; [exact Hf2|].
  destruct Hr1 as [[Hk10 Hy2]|[Hk11 He2]]; unfold u53, per_rate in *; lra.
Qed.

(** From one cent up, both conversions store a positive price. *)
Lemma conversions_positive f :
  is_finite_pos f -> 1 # 100 <= magnitude f -> magnitude f <= 1000000000000 ->
  (exists m e, round f 2 = S754_finite false m e) /\
  (exists m e, to_bgn f = S754_finite false m e) /\
  (exists m e, to_eur f = S754_finite false m e).
Proof.
  intros Hf Hlo Hhi. pose proof eta_small as [Heta0 Heta].
  assert (pow2 50 <= pow2 1023) as H1023 by (apply pow2_le; lia).
  rewrite pow2_50 in H1023.
  destruct (mul_error_pos f Hf Hhi) as [Hf1 He1].
  destruct (div_error f Hf) as [Hf2 He2]; [lra|].
  unfold u53, per_rate in *.
  split; [|split].
  - apply round2_positive; [done|lra|apply below_pow2_990; lra].
  - apply round2_positive; [done|lra|apply below_pow2_990; lra].
  - apply round2_positive; [done|lra|apply below_pow2_990; lra].
Qed.
End StoredPrices.

(** *** The stored document *)

Section StoredListings.
Import Schemas Database Main.
Variable as_float : value -> option Float64.float.
Implicit Types (body : dict) (payload : Property) (st : store).

Lemma stored_doc_field payload st name :
  name ∈ property_fields ->
  stored_doc payload st !! name = model_dump payload !! name.
Proof.
  intros Hn%list_elem_of_In. unfold stored_doc, stored_data.
  rewrite !lookup_insert_ne; [done|..]; intros <-; simpl in Hn;
    repeat (destruct Hn as [Hn|Hn]; [discriminate Hn|]); done.
Qed.

Lemma stored_doc_native payload st :
  stored_doc payload st !! native_field (currency payload)
  = Some (VNum (Float64.round (price_value payload) 2)).
Proof.
  unfold stored_doc, stored_data, native_field, spec_price_eur,
    spec_price_bgn.
  destruct (String.eqb (currency payload) "EUR"); by simplify_map_eq.
Qed.

Lemma stored_doc_converted payload st :
  stored_doc payload st !! converted_field (currency payload)
  = Some (VNum (if String.eqb (currency payload) "EUR"
                then to_bgn (price_value payload)
                else to_eur (price_value payload))).
Proof.
  unfold stored_doc, stored_data, converted_field, spec_price_eur,
    spec_price_bgn, to_bgn, to_eur.
  destruct (String.eqb (currency payload) "EUR"); by simplify_map_eq.
Qed.

Lemma validate_stored_doc body payload st :
  reads_numbers as_float ->
  validate as_float body = inr payload ->
  validate as_float (stored_doc payload st) = inr payload.
Proof.
  intros Hnum H. rewrite <- (validate_model_dump as_float body) by done.
  apply validate_agree. intros name Hn. by apply stored_doc_field.
Qed.

Lemma positive_price body payload :
  validate as_float body = inr payload ->
  Float64.is_finite (price_value payload) = true ->
  is_finite_pos (price_value payload) /\
  (Float64.to_Q (price_value payload)
   == magnitude (price_value payload))%Q.
Proof.
  intros (_ & _ & _ & Hp)%validate_well_formed Hfin.
  destruct (positive_finite _ Hfin Hp) as (m & e & ->).
  split; [reflexivity|]. by apply to_Q_magnitude.
Qed.

Lemma stored_price_field payload st name x :
  reads_numbers as_float ->
  stored_doc payload st !! name = Some (VNum x) ->
  required (float_gt as_float Float64.zero) name (stored_doc payload st)
  = if Float64.ltb Float64.zero x then inr x else inl greater_than.
Proof.
  intros Hnum H. unfold required, float_gt, float. by rewrite H, Hnum.
Qed.

Lemma stored_validate_rejects doc e :
  PropertyStored.field_price_eur as_float doc = inl e \/
  PropertyStored.field_price_bgn as_float doc = inl e ->
  PropertyStored.validate as_float doc
  = inl (PropertyStored.errors as_float doc).
Proof.
  unfold PropertyStored.validate.
  intros [H|H]; rewrite H; destruct (validate as_float doc); try done.
  by destruct (PropertyStored.field_price_eur as_float doc).
Qed.

(** X11.  Validating the [model_dump()] of an accepted listing accepts it
    and gives the same listing back. *)
Theorem X11_dump_validates_to_itself body payload :
  reads_numbers as_float ->
  validate as_float body = inr payload ->
  validate as_float (model_dump payload) = inr payload.
Proof. apply validate_model_dump. Qed.

(** X12.  A price of a whole number of cents, up to 10^13, is stored
    unchanged in the field of its own currency: rounding to two decimals
    leaves it as it is. *)
Theorem X12_whole_cents_stored_unchanged body payload st c :
  validate as_float body = inr payload ->
  price_value payload = Float64.of_ratio false c 100 ->
  (Zpos c <= 10 ^ 15)%Z ->
  exists doc,
    collection "property" (snd (post_properties as_float body st))
    = collection "property" st ++ [doc] /\
    doc !! native_field (currency payload)
    = Some (VNum (price_value payload)).
Proof.
  intros Hv Hp Hc. exists (stored_doc payload st).
  split; [by apply created_collection|].
  rewrite stored_doc_native, Hp. by rewrite round2_cents.
Qed.

(** X13.  For a price up to 10^12, the price stored for the other
    currency is a finite number within 0.006 of the exact conversion at
    1.95583 BGN for 1 EUR. *)
Theorem X13_converted_price_accurate body payload st :
  validate as_float body = inr payload ->
  Float64.is_finite (price_value payload) = true ->
  (Float64.to_Q (price_value payload) <= 1000000000000)%Q ->
  exists doc y,
    collection "property" (snd (post_properties as_float body st))
    = collection "property" st ++ [doc] /\
    doc !! converted_field (currency payload) = Some (VNum y) /\
    Float64.is_finite y = true /\
    (Qabs (Float64.to_Q y
           - exact_conversion (currency payload)
               (Float64.to_Q (price_value payload))) <= 6 # 1000)%Q.
Proof.
  intros Hv Hfin Hmax.
  destruct (positive_price _ _ Hv Hfin) as [Hpos HQ].
  rewrite HQ in Hmax.
  exists (stored_doc payload st). eexists.
  split; [by apply created_collection|].
  split; [apply stored_doc_converted|].
  unfold exact_conversion.
  destruct (String.eqb (currency payload) "EUR").
  - destruct (to_bgn_accuracy _ Hpos Hmax) as [Hf He].
    destruct (to_Q_magnitude _ Hf) as [-> ->]. split; [done|].
    rewrite HQ. apply Qabs_Qle_condition. exact He.
  - destruct (to_eur_accuracy _ Hpos Hmax) as [Hf He].
    destruct (to_Q_magnitude _ Hf) as [-> ->]. split; [done|].
    rewrite HQ. apply Qabs_Qle_condition. exact He.
Qed.

(** X14.  An accepted listing whose price is below half a cent is stored
    with 0.0 as the price in its own currency: the document in the store
    does not validate as [PropertyStored], which wants that price
    positive. *)
Theorem X14_price_below_half_a_cent_stored_as_zero body payload st :
  reads_numbers as_float ->
  validate as_float body = inr payload ->
  Float64.is_finite (price_value payload) = true ->
  (Float64.to_Q (price_value payload) < 1 # 200)%Q ->
  exists doc detail,
    post_properties as_float body st
    = (OK {| id := next_id st |},
       snd (post_properties as_float body st)) /\
    collection "property" (snd (post_properties as_float body st))
    = collection "property" st ++ [doc] /\
    doc !! native_field (currency payload) = Some (VNum Float64.zero) /\
    PropertyStored.validate as_float doc = inl detail /\
    (native_field (currency payload), greater_than) ∈ detail.
Proof.
  intros Hnum Hv Hfin Hsmall.
  destruct (positive_price _ _ Hv Hfin) as [Hpos HQ].
  rewrite HQ in Hsmall.
  pose proof (round2_zero _ Hpos Hsmall) as Hzero.
  pose proof (stored_doc_native payload st) as Hnat.
  rewrite Hzero in Hnat.
  exists (stored_doc payload st). eexists.
  split; [by rewrite (post_properties_valid as_float _ _ _ Hv)|].
  split; [by apply created_collection|].
  split; [exact Hnat|].
  assert (required (float_gt as_float Float64.zero)
            (native_field (currency payload)) (stored_doc payload st)
          = inl greater_than) as Hrej
    by (by rewrite (stored_price_field _ _ _ _ Hnum Hnat)).
  unfold native_field in *.
  destruct (String.eqb (currency payload) "EUR").
  - split; [apply (stored_validate_rejects _ greater_than); by left|].
    unfold PropertyStored.errors, PropertyStored.field_price_eur.
    rewrite Hrej. rewrite !elem_of_app. right. left. by left.
  - split; [apply (stored_validate_rejects _ greater_than); by right|].
    unfold PropertyStored.errors, PropertyStored.field_price_bgn.
    rewrite Hrej. rewrite !elem_of_app. right. right. by left.
Qed.

(** X15.  For a price from 0.01 to 10^12, the document in the store
    validates as [PropertyStored]: its [Property] part is the accepted
    listing and its two prices are the positive [price_eur] and
    [price_bgn] of the document. *)
Theorem X15_stored_listing_conforms body payload st :
  reads_numbers as_float ->
  validate as_float body = inr payload ->
  Float64.is_finite (price_value payload) = true ->
  (1 # 100 <= Float64.to_Q (price_value payload))%Q ->
  (Float64.to_Q (price_value payload) <= 1000000000000)%Q ->
  exists doc stored,
    collection "property" (snd (post_properties as_float body st))
    = collection "property" st ++ [doc] /\
    PropertyStored.validate as_float doc = inr stored /\
    PropertyStored.base stored = payload /\
    doc !! "price_eur" = Some (VNum (PropertyStored.price_eur stored)) /\
    doc !! "price_bgn" = Some (VNum (PropertyStored.price_bgn stored)).
Proof.
  intros Hnum Hv Hfin Hlo Hhi.
  destruct (positive_price _ _ Hv Hfin) as [Hpos HQ].
  rewrite HQ in Hlo, Hhi.
  destruct (conversions_positive _ Hpos Hlo Hhi)
    as ((m1 & e1 & H1) & (m2 & e2 & H2) & (m3 & e3 & H3)).
  pose proof (stored_doc_native payload st) as Hnat.
  pose proof (stored_doc_converted payload st) as Hconv.
  assert (exists e b,
            stored_doc payload st !! "price_eur" = Some (VNum e) /\
            stored_doc payload st !! "price_bgn" = Some (VNum b) /\
            Float64.ltb Float64.zero e = true /\
            Float64.ltb Float64.zero b = true) as (e & b & He & Hb & Pe & Pb).
  { unfold native_field, converted_field in *.
    destruct (String.eqb (currency payload) "EUR"); do 2 eexists;
      (split; [eassumption|]); (split; [eassumption|]);
      rewrite H1, ?H2, ?H3; done. }
  exists (stored_doc payload st),
    {| PropertyStored.base := payload; PropertyStored.price_eur := e;
       PropertyStored.price_bgn := b |}.
  split; [by apply created_collection|]. split; [|done].
  unfold PropertyStored.validate, PropertyStored.field_price_eur,
    PropertyStored.field_price_bgn.
  rewrite (validate_stored_doc _ _ _ Hnum Hv).
  by rewrite (stored_price_field _ _ _ _ Hnum He),
    (stored_price_field _ _ _ _ Hnum Hb), Pe, Pb.
Qed.

Lemma model_dump_optional payload :
  model_dump payload !! "address" = Some (opt_value VStr (address payload))
  /\ model_dump payload !! "description"
     = Some (opt_value VStr (description payload))
  /\ model_dump payload !! "images"
     = Some (opt_value (fun l => VList (VStr <$> l)) (images payload)).
Proof. unfold model_dump. by simplify_map_eq. Qed.

(** X16.  What is stored for an accepted body: the texts it sends for
    [title], [region], [address], [description] and [currency] and the
    list it sends for [images], as they are; EUR for a [currency] it
    leaves out; null for an [address], [description] or [images] it leaves
    out or sends as null; and no key besides the eight fields of
    [Property], the two prices and the identity. *)
Theorem X16_fields_stored_as_sent body payload st :
  validate as_float body = inr payload ->
  exists doc,
    collection "property" (snd (post_properties as_float body st))
    = collection "property" st ++ [doc] /\
    (forall name s,
       name ∈ ["title"; "region"; "address"; "description";
               "currency"]%string ->
       body !! name = Some (VStr s) -> doc !! name = Some (VStr s)) /\
    (forall l, body !! "images" = Some (VList (VStr <$> l)) ->
               doc !! "images" = Some (VList (VStr <$> l))) /\
    (body !! "currency" = None -> doc !! "currency" = Some (VStr "EUR")) /\
    (forall name,
       name ∈ ["address"; "description"; "images"]%string ->
       body !! name = None \/ body !! name = Some VNull ->
       doc !! name = Some VNull) /\
    (forall k, is_Some (doc !! k) <->
               k ∈ (["_id"; "price_eur"; "price_bgn"]%string
                    ++ property_fields)).
Proof.
  intros Hv. exists (stored_doc payload st).
  split; [by apply created_collection|].
  apply validate_inr in Hv as (Ht & Hr & Ha & Hd & _ & Hc & _ & Hi).
  unfold field_title, field_region, field_address, field_description,
    field_currency, field_images, required, default_to in *.
  pose proof (model_dump_optional payload) as (Da & Dd & Di).
  pose proof (model_dump_title payload) as Dt.
  pose proof (model_dump_region payload) as Dr.
  pose proof (model_dump_currency payload) as Dc.
  split_and?.
  - intros name s Hn%list_elem_of_In Hb. simpl in Hn.
    rewrite stored_doc_field
      by (apply list_elem_of_In; simpl; tauto).
    destruct Hn as [<-|[<-|[<-|[<-|[<-|[]]]]]]; rewrite Hb in *.
    + simpl in Ht; injection Ht as E. by rewrite Dt, <- E.
    + apply Literal_inr in Hr as [[= ->] _]. exact Dr.
    + simpl in Ha; injection Ha as E. by rewrite Da, <- E.
    + simpl in Hd; injection Hd as E. by rewrite Dd, <- E.
    + apply Literal_inr in Hc as [[= ->] _]. exact Dc.
  - intros l Hb. rewrite stored_doc_field
      by (apply list_elem_of_In; simpl; tauto).
    rewrite Hb in Hi. simpl in Hi. rewrite strs_fmap in Hi.
    simpl in Hi; injection Hi as E. by rewrite Di, <- E.
  - intros Hb. rewrite stored_doc_field
      by (apply list_elem_of_In; simpl; tauto).
    rewrite Hb in Hc. injection Hc as E. by rewrite E.
  - intros name Hn%list_elem_of_In Hb. simpl in Hn.
    rewrite stored_doc_field
      by (apply list_elem_of_In; simpl; tauto).
    destruct Hn as [<-|[<-|[<-|[]]]];
      destruct Hb as [Hb|Hb]; rewrite Hb in *.
    + simpl in Ha; injection Ha as E. by rewrite Da, <- E.
    + simpl in Ha; injection Ha as E. by rewrite Da, <- E.
    + simpl in Hd; injection Hd as E. by rewrite Dd, <- E.
    + simpl in Hd; injection Hd as E. by rewrite Dd, <- E.
    + simpl in Hi; injection Hi as E. by rewrite Di, <- E.
    + simpl in Hi; injection Hi as E. by rewrite Di, <- E.
  - intros k. unfold stored_doc, stored_data, model_dump, property_fields.
    rewrite !lookup_insert_is_Some', lookup_empty, is_Some_alt.
    cbn [app]. rewrite !elem_of_cons, elem_of_nil.
    intuition congruence.
Qed.
End StoredListings.

(** *** The sign of the stored prices, and the price in its own currency *)

Section Signs.
Import Float64.

Lemma shr_nonneg mrs e n :
  0 <= shr_m mrs -> 0 <= shr_m (fst (shr mrs e n)).
Proof.
  intros H. unfold shr. destruct n as [|p|p]; [done| |done].
  cbn [fst].
  apply (iter_pos_invariant shr_1 (fun _ a => 0 <= shr_m a)) with (k := 0);
    [|done].
  intros _ a Ha. rewrite shr_1_spec by done. cbn [shr_m].
  by apply Z.div2_nonneg.
Qed.

Lemma shr_fexp_nonneg m e l :
  0 <= m -> 0 <= shr_m (fst (shr_fexp 53 1024 m e l)).
Proof.
  intros H. unfold shr_fexp. apply shr_nonneg.
  by rewrite (proj2 (loc_of_record_of_loc m l)).
Qed.

Lemma round_nearest_even_nonneg m l :
  0 <= m -> 0 <= round_nearest_even m l.
Proof.
  intros H. unfold round_nearest_even.
  destruct l as [|[]]; try done; [|lia].
  destruct (Z.even m); lia.
Qed.

(** Rounding a magnitude to a float gives no NaN and nothing negative. *)
Lemma binary_round_aux_nonneg m e l :
  0 <= m -> leb zero (binary_round_aux 53 1024 false m e l) = true.
Proof.
  intros H. unfold binary_round_aux.
  pose proof (shr_fexp_nonneg m e l H) as H1.
  destruct (shr_fexp 53 1024 m e l) as [mrs' e']. cbn [fst] in H1.
  pose proof (shr_fexp_nonneg _ e' loc_Exact
                (round_nearest_even_nonneg _ (loc_of_shr_record mrs') H1))
    as H2.
  destruct (shr_fexp 53 1024 _ e' loc_Exact) as [mrs'' e'']. cbn [fst] in H2.
  destruct (shr_m mrs'') as [|p|p]; [done| |lia].
  by destruct (e'' <=? 1024 - 53).
Qed.

Lemma div_core_nonneg m1 e1 m2 e2 :
  0 < m1 -> 0 < m2 ->
  0 <= fst (fst (SFdiv_core_binary 53 1024 m1 e1 m2 e2)).
Proof.
  intros H1 H2.
  pose proof (pow2_pos e2) as Hp.
  assert (0 < inject_Z m2)%Q as Hm
    by (change 0%Q with (inject_Z 0); by rewrite <- Zlt_Qlt).
  destruct (div_core_located
              (inject_Z m1 * pow2 e1 / (inject_Z m2 * pow2 e2))%Q
              m1 e1 m2 e2 H1 H2) as (q & e' & l & -> & Hq & _).
  - field. split; lra.
  - exact Hq.
Qed.

Lemma of_ratio_nonneg n d : leb zero (of_ratio false n d) = true.
Proof.
  unfold of_ratio, prec, emax.
  pose proof (div_core_nonneg (Zpos n) 0 (Zpos d) 0 eq_refl eq_refl) as H.
  destruct (SFdiv_core_binary 53 1024 (Zpos n) 0 (Zpos d) 0) as [[q e] l].
  by apply binary_round_aux_nonneg.
Qed.

(** [round(x, 2)] of a float that is not negative is not negative. *)
Lemma round_nonneg x : leb zero x = true -> leb zero (round x 2) = true.
Proof.
  destruct x as [s|s| |s m e]; try done. intros H.
  assert (s = false) as -> by (by destruct s).
  unfold round.
  by destruct e as [|p|p];
    match goal with |- context [match ?k with _ => _ end] =>
      destruct k; try apply of_ratio_nonneg end.
Qed.

Lemma mul_nonneg x :
  ltb zero x = true -> leb zero (mul x Main.EUR_TO_BGN) = true.
Proof.
  rewrite EUR_TO_BGN_bits. destruct x as [s|s| |s m e]; try done.
  - by destruct s.
  - intros H. assert (s = false) as -> by (by destruct s).
    unfold mul, SFmul, prec, emax. cbn [xorb].
    by apply binary_round_aux_nonneg.
Qed.

Lemma div_nonneg x :
  ltb zero x = true -> leb zero (div x Main.EUR_TO_BGN) = true.
Proof.
  rewrite EUR_TO_BGN_bits. destruct x as [s|s| |s m e]; try done.
  - by destruct s.
  - intros H. assert (s = false) as -> by (by destruct s).
    unfold div, SFdiv, prec, emax. cbn [xorb].
    pose proof (div_core_nonneg (Zpos m) e 8808275259200037 (-52)
                  eq_refl eq_refl) as Hq.
    destruct (SFdiv_core_binary 53 1024 (Zpos m) e 8808275259200037 (-52))
      as [[q e'] l].
    by apply binary_round_aux_nonneg.
Qed.

Lemma ltb_leb x : ltb zero x = true -> leb zero x = true.
Proof. by destruct x as [[]|[]| |[] m e]. Qed.
End Signs.

Section StoredSigns.
Import Schemas Database Main.
Variable as_float : value -> option Float64.float.
Implicit Types (body : dict) (payload : Property) (st : store).

(** X19.  Whatever price an accepted listing has, however large, neither
    stored price is negative and neither is NaN: [0 <= price_eur] and
    [0 <= price_bgn] hold of the document in the store. *)
Theorem X19_stored_prices_not_negative body payload st :
  validate as_float body = inr payload ->
  exists doc e b,
    collection "property" (snd (post_properties as_float body st))
    = collection "property" st ++ [doc] /\
    doc !! "price_eur" = Some (VNum e) /\
    doc !! "price_bgn" = Some (VNum b) /\
    Float64.leb Float64.zero e = true /\
    Float64.leb Float64.zero b = true.
Proof.
  intros Hv.
  pose proof (validate_well_formed as_float _ _ Hv) as (_ & _ & _ & Hp).
  exists (stored_doc payload st). do 2 eexists.
  split; [by apply created_collection|].
  unfold stored_doc, stored_data, spec_price_eur, spec_price_bgn.
  split; [by simplify_map_eq|]. split; [by simplify_map_eq|].
  destruct (String.eqb (currency payload) "EUR"); split;
    apply round_nonneg;
    auto using ltb_leb, mul_nonneg, div_nonneg.
Qed.
End StoredSigns.

Section OwnPrice.
Local Open Scope Q_scope.
Import Float64.

(** [round(x, 2)] against [x]. *)
Lemma round2_accuracy f :
  is_finite_pos f -> magnitude f <= 1000000000000 ->
  is_finite_pos (round f 2) /\
  - (52#10000) <= magnitude (round f 2) - magnitude f <= 52#10000.
Proof.
  intros Hf Hx. pose proof eta_small as [Heta0 Heta].
  assert (0 <= magnitude f) as Hpos.
  { destruct (is_finite_pos_cases f Hf) as [->|(m & e & ->)].
    - cbn [magnitude]. lra.
    - pose proof (magnitude_pos m e). lra. }
  destruct (round2_error f Hf) as (k & Hk & Hfin & Hr).
  { apply below_pow2_990. lra. }
  split; [exact Hfin|].
  destruct Hr as [[Hk0 Hy]|[Hk1 He]]; unfold u53 in *; lra.
Qed.
End OwnPrice.

Section StoredOwnPrice.
Import Schemas Database Main.
Variable as_float : value -> option Float64.float.
Implicit Types (body : dict) (payload : Property) (st : store).

(** X20.  For a price up to 10^12, the price stored in the field of the
    listing's own currency is a finite number within 0.0052 of the price
    sent: the price rounded to the cent. *)
Theorem X20_own_price_rounded_to_the_cent body payload st :
  validate as_float body = inr payload ->
  Float64.is_finite (price_value payload) = true ->
  (Float64.to_Q (price_value payload) <= 1000000000000)%Q ->
  exists doc y,
    collection "property" (snd (post_properties as_float body st))
    = collection "property" st ++ [doc] /\
    doc !! native_field (currency payload) = Some (VNum y) /\
    Float64.is_finite y = true /\
    (Qabs (Float64.to_Q y - Float64.to_Q (price_value payload))
     <= 52 # 10000)%Q.
Proof.
  intros Hv Hfin Hmax.
  destruct (positive_price as_float _ _ Hv Hfin) as [Hpos HQ].
  rewrite HQ in Hmax.
  exists (stored_doc payload st). eexists.
  split; [by apply created_collection|].
  split; [apply stored_doc_native|].
  destruct (round2_accuracy _ Hpos Hmax) as [Hf He].
  destruct (to_Q_magnitude _ Hf) as [-> ->]. split; [done|].
  rewrite HQ. apply Qabs_Qle_condition. exact He.
Qed.
End StoredOwnPrice.

(** *** The two prices of a stored listing *)

Section WholeCents.
Local Open Scope Q_scope.
Import Float64.

(** [round(f, 2)] is next to a whole number of cents, the one nearest to
    [f]. *)
Lemma round2_whole f :
  is_finite_pos f -> magnitude f <= 1125899906842624 ->
  exists k : Z,
    (0 <= k)%Z /\
    - (1#2) <= inject_Z k - 100 * magnitude f <= 1#2 /\
    is_finite_pos (round f 2) /\
    - (inject_Z k * (1#100) * u53 + eta)
      <= magnitude (round f 2) - inject_Z k * (1#100)
      <= inject_Z k * (1#100) * u53 + eta.
Proof.
  intros Hf Hmag. pose proof eta_small as [Heta0 Heta].
  destruct (is_finite_pos_cases f Hf) as [->|(m & e & ->)].
  { exists 0%Z. cbn [round magnitude is_finite_pos].
    change (inject_Z 0) with 0. unfold u53.
    split; [lia|]. split; [lra|]. split; [reflexivity|]. lra. }
  destruct (round2_spec m e (below_pow2_990 _ Hmag)) as (k & Hk0 & Hk & ->).
  exists k. split; [exact Hk0|]. split; [exact Hk|].
  destruct k as [|p|p]; [| |lia].
  - cbn [magnitude is_finite_pos]. change (inject_Z 0) with 0. unfold u53.
    split; [reflexivity|]. lra.
  - assert (Zpos p < 2 ^ 1000)%Z as Hp.
    { assert (inject_Z (Zpos p) < inject_Z (2 ^ 60)) as Hlt.
      { change (inject_Z (2 ^ 60)) with 1152921504606846976. lra. }
      rewrite <- Zlt_Qlt in Hlt.
      assert (2 ^ 60 < 2 ^ 1000)%Z by (apply Z.ltb_lt; reflexivity). lia. }
    destruct (of_ratio_spec p 100 ltac:(lia) Hp) as [Hfin Herr].
    split; [exact Hfin|].
    assert (inject_Z (Zpos p) / inject_Z 100
            == inject_Z (Zpos p) * (1#100)) as Hdiv by field.
    rewrite Hdiv in Herr. exact Herr.
Qed.

Lemma rounded_to_cents_intro v slack f :
  is_finite_pos f -> magnitude f <= 1125899906842624 ->
  - slack <= magnitude f - v <= slack ->
  rounded_to_cents v slack (round f 2).
Proof.
  intros Hf Hmag Hv.
  destruct (round2_whole f Hf Hmag) as (k & Hk0 & Hk & Hfin & Herr).
  exists k. split; [exact Hk0|].
  destruct (to_Q_magnitude _ Hfin) as [-> ->].
  split; [|split; [reflexivity|]]; apply Qabs_Qle_condition; lra.
Qed.

(** The two conversions, before rounding, against the exact product and
    the exact quotient. *)
Lemma mul_accuracy f :
  is_finite_pos f -> magnitude f <= 1000000000000 ->
  is_finite_pos (mul f Main.EUR_TO_BGN) /\
  magnitude (mul f Main.EUR_TO_BGN) <= 1125899906842624 /\
  - (1#2000) <= magnitude (mul f Main.EUR_TO_BGN)
                - magnitude f * (195583 # 100000) <= 1#2000.
Proof.
  intros Hf Hx. pose proof eta_small as [Heta0 Heta].
  assert (0 <= magnitude f) as Hpos.
  { destruct (is_finite_pos_cases f Hf) as [->|(m & e & ->)].
    - cbn [magnitude]. lra.
    - pose proof (magnitude_pos m e). lra. }
  destruct (mul_error_pos f Hf Hx) as [Hf1 He1]. unfold u53 in He1.
  split; [exact Hf1|]. split; lra.
Qed.

Lemma div_accuracy f :
  is_finite_pos f -> magnitude f <= 1000000000000 ->
  is_finite_pos (div f Main.EUR_TO_BGN) /\
  magnitude (div f Main.EUR_TO_BGN) <= 1125899906842624 /\
  - (1#2000) <= magnitude (div f Main.EUR_TO_BGN)
                - magnitude f * (100000 # 195583) <= 1#2000.
Proof.
  intros Hf Hx. pose proof eta_small as [Heta0 Heta].
  assert (0 <= magnitude f) as Hpos.
  { destruct (is_finite_pos_cases f Hf) as [->|(m & e & ->)].
    - cbn [magnitude]. lra.
    - pose proof (magnitude_pos m e). lra. }
  assert (pow2 50 <= pow2 1023) as H1023 by (apply pow2_le; lia).
  rewrite pow2_50 in H1023.
  destruct (div_error f Hf) as [Hf1 He1]; [lra|].
  unfold u53, per_rate in He1.
  split; [exact Hf1|]. split; lra.
Qed.
End WholeCents.

Section DerivedPrices.
Import Schemas Database Main.
Variable as_float : value -> option Float64.float.
Implicit Types (body : dict) (payload : Property) (st : store).

(** C1.  A create request that passes validation stores one document
    with the two prices [price_eur] and [price_bgn], derived from the
    validated [price_value] and [currency]: for EUR, [price_eur] is
    [round(price_value, 2)] and [price_bgn] is
    [round(price_value * EUR_TO_BGN, 2)]; otherwise the currency is BGN,
    [price_bgn] is [round(price_value, 2)] and [price_eur] is
    [round(price_value / EUR_TO_BGN, 2)].  What this comes to, for a
    price up to 10^12: the price stored in the listing's own currency is
    the price rounded to the cent, and the other one is, to within a
    twentieth of a cent, the exact product by 1.95583, respectively the
    exact quotient, rounded to the cent. *)
Theorem C1_derived_prices body payload st :
  validate as_float body = inr payload ->
  exists doc st' e b,
    post_properties as_float body st = (OK {| id := next_id st |}, st') /\
    collection "property" st' = collection "property" st ++ [doc] /\
    doc !! "price_eur" = Some (VNum e) /\
    doc !! "price_bgn" = Some (VNum b) /\
    (currency payload = "EUR"%string ->
     e = Float64.round (price_value payload) 2 /\
     b = Float64.round (Float64.mul (price_value payload) EUR_TO_BGN) 2) /\
    (currency payload <> "EUR"%string ->
     currency payload = "BGN"%string /\
     b = Float64.round (price_value payload) 2 /\
     e = Float64.round (Float64.div (price_value payload) EUR_TO_BGN) 2) /\
    (Float64.is_finite (price_value payload) = true ->
     (Float64.to_Q (price_value payload) <= 1000000000000)%Q ->
     (currency payload = "EUR"%string ->
      rounded_to_cents (Float64.to_Q (price_value payload)) 0 e /\
      rounded_to_cents
        (Float64.to_Q (price_value payload) * (195583 # 100000))
        (1 # 2000) b) /\
     (currency payload <> "EUR"%string ->
      rounded_to_cents (Float64.to_Q (price_value payload)) 0 b /\
      rounded_to_cents
        (Float64.to_Q (price_value payload) * (100000 # 195583))
        (1 # 2000) e)).
Proof.
  intros H. pose proof (validate_price _ _ _ H) as (_ & _ & Hcur).
  exists (stored_doc payload st). eexists. do 2 eexists.
  split; [by apply post_properties_valid|].
  split; [apply collection_create_document|].
  unfold stored_doc, stored_data.
  split; [by simplify_map_eq|]. split; [by simplify_map_eq|].
  unfold spec_price_eur, spec_price_bgn.
  assert (forall f slack v,
            is_finite_pos f ->
            (magnitude f <= 1125899906842624)%Q ->
            (- slack <= magnitude f - v <= slack)%Q ->
            rounded_to_cents v slack (Float64.round f 2)) as Hround
    by (intros; by apply rounded_to_cents_intro).
  split; [|split].
  - intros ->. done.
  - intros Hne. assert (currency payload = "BGN"%string) as ->
      by (destruct Hcur as [[_ ?]|[_ [?|?]]]; done).
    done.
  - intros Hfin Hmax.
    destruct (positive_price as_float _ _ H Hfin) as [Hpos HQ].
    assert (magnitude (price_value payload) <= 1000000000000)%Q as Hmag
      by (by rewrite <- HQ).
    destruct (mul_accuracy _ Hpos Hmag) as (Hm1 & Hm2 & Hm3).
    destruct (div_accuracy _ Hpos Hmag) as (Hd1 & Hd2 & Hd3).
    split.
    + intros ->. cbn [String.eqb Ascii.eqb Bool.eqb]. split.
      * apply Hround; [done| |]; rewrite ?HQ; lra.
      * apply Hround; [done|done|]. by rewrite HQ.
    + intros Hne. assert (currency payload = "BGN"%string) as ->
        by (destruct Hcur as [[_ ?]|[_ [?|?]]]; done).
      cbn [String.eqb Ascii.eqb Bool.eqb]. split.
      * apply Hround; [done| |]; rewrite ?HQ; lra.
      * apply Hround; [done|done|]. by rewrite HQ.
Qed.

Lemma json_ok_strings l : json_ok (VList (VStr <$> l)) = true.
Proof. simpl. by induction l. Qed.

(** A listing of finite size and of a finite price up to 10^12 is stored
    as a document JSON can hold, its identity apart. *)
Lemma stored_doc_writable body payload st :
  validate as_float body = inr payload ->
  Float64.is_finite (size_sqm payload) = true ->
  Float64.is_finite (price_value payload) = true ->
  (Float64.to_Q (price_value payload) <= 1000000000000)%Q ->
  writable [shape (stored_doc payload st)].
Proof.
  intros Hv Hsize Hfin Hmax.
  destruct (positive_price as_float _ _ Hv Hfin) as [Hpos HQ].
  assert (magnitude (price_value payload) <= 1000000000000)%Q as Hmag
    by (by rewrite <- HQ).
  destruct (round2_accuracy _ Hpos Hmag) as [Hr _].
  destruct (to_bgn_accuracy _ Hpos Hmag) as [Hb _].
  destruct (to_eur_accuracy _ Hpos Hmag) as [He _].
  apply to_Q_magnitude in Hr as [Hr _], Hb as [Hb _], He as [He _].
  intros doc k v ->%list_elem_of_singleton Hk.
  destruct (decide (k = "_id"%string)) as [->|Hid];
    [by rewrite shape_id in Hk|].
  rewrite (shape_other _ _ Hid) in Hk.
  unfold stored_doc, stored_data, model_dump, spec_price_eur,
    spec_price_bgn in Hk. fold (to_bgn (price_value payload)) in Hk.
  fold (to_eur (price_value payload)) in Hk.
  repeat (apply lookup_insert_Some in Hk as [[<- <-]|[_ Hk]]);
    try (by rewrite lookup_empty in Hk); try done.
  - by destruct (String.eqb (currency payload) "EUR").
  - by destruct (String.eqb (currency payload) "EUR").
  - by destruct (address payload).
  - by destruct (description payload).
  - destruct (images payload) as [l|]; [apply json_ok_strings|done].
Qed.

(** X7.  Creating, then searching.  After a listing is created, a search
    for its region finds what it found before, followed by the new
    listing as the store holds it (provided fewer than 50 listings were
    returned before): it is answered with the former results and the new
    listing, shaped, when JSON can hold the new listing, and with a
    server error when it cannot.  JSON can hold it when its size is
    finite and its price is finite and at most 10^12.  A search for any
    other region returns what it returned before. *)
Theorem X7_created_listing_is_found body payload st :
  validate as_float body = inr payload ->
  let st' := snd (post_properties as_float body st) in
  let new := shape (stored_doc payload st) in
  (forall r,
     get_properties (by_region (region payload)) st = OK r ->
     (total r < 50)%nat ->
     (writable [new] ->
      get_properties (by_region (region payload)) st'
      = OK {| results := results r ++ [new]; total := S (total r) |}) /\
     (~ writable [new] ->
      get_properties (by_region (region payload)) st' = ServerError)) /\
  (Float64.is_finite (size_sqm payload) = true ->
   Float64.is_finite (price_value payload) = true ->
   (Float64.to_Q (price_value payload) <= 1000000000000)%Q ->
   writable [new]) /\
  (forall rg, rg <> region payload ->
     get_properties (by_region rg) st' = get_properties (by_region rg) st).
Proof.
  intros Hv st' new. pose proof (validate_region as_float _ _ Hv) as Hin.
  split; [|split].
  - intros r Hr Htot.
    pose proof (get_properties_OK_json _ _ _ Hr) as Hjson.
    apply get_properties_OK in Hr as (_ & _ & ->).
    cbn [results total] in *. rewrite length_fmap in Htot.
    rewrite (by_region_answers _ st' Hin). unfold st'.
    rewrite (found_after_create as_float _ _ _ _ Hv Hin), String.eqb_refl.
    rewrite found_satisfies in *.
    change (Z.to_nat (effective_limit (by_region (region payload))))
      with 50%nat in *.
    rewrite length_take in Htot.
    rewrite (take_ge (List.filter _ _)) in * by lia.
    rewrite take_ge by (rewrite length_app; simpl; lia).
    rewrite fmap_app, forallb_app, Hjson. cbn [fmap list_fmap forallb].
    fold new. rewrite andb_true_r, andb_true_l.
    assert (dict_json_ok new = true <-> writable [new]) as Hw.
    { rewrite <- forallb_dict_json_ok. simpl. by rewrite andb_true_r. }
    destruct (dict_json_ok new) eqn:E.
    + split; [|by intros []; apply Hw]. intros _.
      rewrite length_app, length_fmap. simpl. do 2 f_equal. lia.
    + split; [|done]. intros H%Hw. congruence.
  - apply (stored_doc_writable _ _ st Hv).
  - intros rg Hne. rewrite !get_properties_unfold.
    destruct (validate_query (by_region rg)) eqn:Hvq; [|done].
    apply validate_query_parts in Hvq as (Hrg & _).
    assert (rg ∈ BULGARIAN_REGIONS) as Hrg'
      by (by apply (proj1 (check_literal_nil _ _ _) Hrg)).
    assert (found (by_region rg) st' = found (by_region rg) st) as ->.
    { unfold st'. rewrite (found_after_create as_float _ _ _ _ Hv Hrg').
      rewrite (proj2 (String.eqb_neq _ _) Hne), app_nil_r.
      by rewrite found_satisfies. }
    assert (filter_ok st' (filter_of (by_region rg))
            = filter_ok st (filter_of (by_region rg))) as ->; [|done].
    unfold filter_of.
    by rewrite !filter_ok_build by (by intros q [=]).
Qed.
End DerivedPrices.

(** ** The diagnostic endpoint *)



Section DiagnosticsFacts.
Import Main Diagnostics.
Implicit Types (db : option handle) (environ : gmap string string).

(** X17.  The [database_url] and [database_name] of the diagnostic
    response say whether the environment variables DATABASE_URL and
    DATABASE_NAME are set to something, and nothing else: whatever the
    database handle is, they are the same, and the name of the database is
    never reported. *)
Theorem X17_diagnostic_reports_environment_only db environ :
  test_database db environ !! "database_url"
  = Some (VStr (if truthy (environ !! "DATABASE_URL") then "✅ Set"
                else "❌ Not Set")) /\
  test_database db environ !! "database_name"
  = Some (VStr (if truthy (environ !! "DATABASE_NAME") then "✅ Set"
                else "❌ Not Set")) /\
  forall db' k, k ∈ ["database_url"; "database_name"]%string ->
    test_database db environ !! k = test_database db' environ !! k.
Proof.
  assert (forall db,
    test_database db environ !! "database_url"
    = Some (VStr (if truthy (environ !! "DATABASE_URL") then "✅ Set"
                  else "❌ Not Set")) /\
    test_database db environ !! "database_name"
    = Some (VStr (if truthy (environ !! "DATABASE_NAME") then "✅ Set"
                  else "❌ Not Set"))) as H.
  { intros db0. unfold test_database. split.
    - rewrite lookup_insert_ne by done. apply lookup_insert_eq.
    - apply lookup_insert_eq. }
  split; [apply H|]. split; [apply H|].
  intros db' k Hk%list_elem_of_In. simpl in Hk.
  destruct Hk as [<-|[<-|[]]].
  - by rewrite (proj1 (H db)), (proj1 (H db')).
  - by rewrite (proj2 (H db)), (proj2 (H db')).
Qed.

(** X18.  The [collections] of the diagnostic response are the first ten
    names the database lists, at most, and none unless the handle is
    there, its name can be read and the listing succeeds; that is also
    exactly when [database] reads "Connected & Working". *)
Theorem X18_diagnostic_samples_collections db environ :
  exists sample,
    test_database db environ !! "collections"
    = Some (VList (VStr <$> sample)) /\
    (length sample <= 10)%nat /\
    (forall names, working db names -> sample = take 10 names) /\
    ((forall names, ~ working db names) -> sample = []) /\
    (test_database db environ !! "database"
     = Some (VStr "✅ Connected & Working")
     <-> exists names, working db names).
Proof.
  unfold test_database, working.
  destruct db as [[a [e|names]]|].
  - exists []. rewrite !lookup_insert_ne by done.
    split_and?.
    + by destruct a; simplify_map_eq.
    + simpl; lia.
    + intros names (d & [= <-] & _ & [=]).
    + done.
    + split.
      * destruct a; simplify_map_eq; simpl; intros [=].
      * intros (names & d & [= <-] & _ & [=]).
  - destruct a as [|v|e].
    + exists (take 10 names). rewrite !lookup_insert_ne by done.
      split_and?.
      * by simplify_map_eq.
      * rewrite length_take. lia.
      * by intros names' (d & [= <-] & _ & [= <-]).
      * intros H. destruct (H names). by eexists.
      * split; [|by simplify_map_eq]. intros _. exists names. by eexists.
    + exists (take 10 names). rewrite !lookup_insert_ne by done.
      split_and?.
      * by simplify_map_eq.
      * rewrite length_take. lia.
      * by intros names' (d & [= <-] & _ & [= <-]).
      * intros H. destruct (H names). by eexists.
      * split; [|by simplify_map_eq]. intros _. exists names. by eexists.
    + exists []. rewrite !lookup_insert_ne by done.
      split_and?.
      * by simplify_map_eq.
      * simpl; lia.
      * intros names' (d & [= <-] & H & _). by destruct (H e).
      * done.
      * split.
        -- simplify_map_eq. simpl. intros [=].
        -- intros (names' & d & [= <-] & H & _). by destruct (H e).
  - exists []. rewrite !lookup_insert_ne by done.
    split_and?.
    + by simplify_map_eq.
    + simpl; lia.
    + intros names (d & [=] & _).
    + done.
    + split.
      * simplify_map_eq. intros [=].
      * intros (names & d & [=] & _).
Qed.
End DiagnosticsFacts.

(** ** The scenario, once more *)


Section ScenarioAnswers.
Import Schemas Database Main Scenario.

Lemma plovdiv_answer :
  get_properties (by_region "Plovdiv") one_flat
  = OK {| results := [shaped_flat]; total := 1 |}.
Proof. reflexivity. Qed.

Lemma roomy_answer :
  get_properties roomy one_flat
  = OK {| results := [shaped_flat]; total := 1 |}.
Proof. reflexivity. Qed.

Lemma apt_answer :
  get_properties (only_q "APT") one_flat
  = OK {| results := [shaped_flat]; total := 1 |}.
Proof. reflexivity. Qed.

Lemma inverted_price_answer :
  get_properties inverted_price one_flat
  = OK {| results := []; total := 0 |}.
Proof. reflexivity. Qed.

Lemma cheap_flat_valid : validate number_only cheap_flat = inr cheap_payload.
Proof. vm_compute. reflexivity. Qed.

Lemma odd_flat_valid : validate number_only odd_flat = inr odd_payload.
Proof. vm_compute. reflexivity. Qed.

Lemma lev_flat_valid : validate number_only lev_flat = inr lev_payload.
Proof. vm_compute. reflexivity. Qed.

Lemma dear_flat_valid : validate number_only dear_flat = inr dear_payload.
Proof. vm_compute. reflexivity. Qed.

(** 1e308 EUR is accepted and stored with an infinite price in BGN. *)
Lemma dear_flat_stored :
  collection "property" one_dear_flat = [stored_doc dear_payload empty_store]
  /\ stored_doc dear_payload empty_store !! "price_bgn"
     = Some (VNum (S754_infinity false)).
Proof. split; reflexivity. Qed.

Lemma dear_flat_not_writable :
  ~ writable [shape (stored_doc dear_payload empty_store)].
Proof.
  intros H.
  assert (json_ok (VNum (S754_infinity false)) = true) as Hinf; [|done].
  apply (H (shape (stored_doc dear_payload empty_store)) "price_bgn").
  - by apply list_elem_of_singleton.
  - rewrite shape_other by done. apply dear_flat_stored.
Qed.

Lemma flat_writable : writable [shaped_flat].
Proof.
  apply forallb_dict_json_ok. reflexivity.
Qed.

Lemma number_only_reads : reads_numbers number_only.
Proof. intros x. reflexivity. Qed.
End ScenarioAnswers.

Section ScenarioWitnesses.
Import Schemas Database Main Scenario.

Lemma X1_search_meaning_witness :
  results {| results := [shaped_flat]; total := 1 |}
  = shape <$> take (Z.to_nat (effective_limit mid_priced))
                (List.filter (satisfies one_flat mid_priced)
                   (collection "property" one_flat)) /\
  total {| results := [shaped_flat]; total := 1 |}
  = length (results {| results := [shaped_flat]; total := 1 |}).
Proof. exact (X1_search_meaning mid_priced one_flat _ mid_priced_answer). Defined.

Lemma X2_region_exact_witness :
  "Plovdiv"%string ∈ BULGARIAN_REGIONS /\
  forall res, res ∈ [shaped_flat] -> res !! "region" = Some (VStr "Plovdiv").
Proof.
  exact (X2_region_exact (by_region "Plovdiv") one_flat _ "Plovdiv"
           plovdiv_answer eq_refl).
Defined.

Lemma X3_size_bounds_witness :
  exists x, shaped_flat !! "size_sqm" = Some (VNum x) /\
            Float64.leb (of_int 60) x = true.
Proof.
  destruct (X3_size_bounds roomy one_flat _ roomy_answer shaped_flat)
    as [Hlo _].
  - apply list_elem_of_singleton. reflexivity.
  - exact (Hlo _ eq_refl).
Defined.

Lemma X4_no_clause_lists_all_witness :
  get_properties any_listing one_flat
  = OK {| results := [shaped_flat]; total := 1 |} /\
  get_properties any_listing one_dear_flat = ServerError.
Proof.
  split.
  - apply (X4_no_clause_lists_all any_listing one_flat).
    + repeat split.
    + intros c Hc. discriminate Hc.
    + intros n Hn. discriminate Hn.
    + exact flat_writable.
  - apply (X4_no_clause_lists_all any_listing one_dear_flat).
    + repeat split.
    + intros c Hc. discriminate Hc.
    + intros n Hn. discriminate Hn.
    + exact dear_flat_not_writable.
Defined.

Lemma X5_unknown_region_or_currency_rejected_witness :
  exists detail,
    get_properties (by_region "Atlantis") one_flat = Unprocessable detail /\
    ("region"%string, literal_error) ∈ detail.
Proof.
  apply (proj1 (X5_unknown_region_or_currency_rejected
                  (by_region "Atlantis") one_flat) "Atlantis" eq_refl).
  intros H. apply list_elem_of_In in H. simpl in H.
  repeat (destruct H as [H|H]; [discriminate H|]). exact H.
Defined.

Lemma X6_plain_text_found_witness : q_occurs "APT" shaped_flat.
Proof.
  apply (X6_plain_text_found (only_q "APT") one_flat _ "APT" apt_answer
           eq_refl).
  - discriminate.
  - intros c Hc. apply list_elem_of_In in Hc. simpl in Hc.
    destruct Hc as [<-|[<-|[<-|[]]]]; reflexivity.
  - apply list_elem_of_singleton. reflexivity.
Defined.

Lemma X7_created_listing_is_found_witness :
  get_properties (by_region "Plovdiv") one_flat
  = OK {| results := [] ++ [shape (stored_doc flat_payload empty_store)];
          total := 1 |} /\
  get_properties (by_region "Varna") one_flat
  = get_properties (by_region "Varna") empty_store /\
  get_properties (by_region "Plovdiv") one_dear_flat = ServerError.
Proof.
  destruct (X7_created_listing_is_found number_only flat flat_payload
              empty_store flat_valid) as (Hsame & Hfinite & Hother).
  destruct (X7_created_listing_is_found number_only dear_flat dear_payload
              empty_store dear_flat_valid) as (Hdear & _ & _).
  split; [|split].
  - apply (Hsame {| results := []; total := 0 |}); [reflexivity| |].
    + simpl. lia.
    + apply Hfinite; [reflexivity|reflexivity|]. vm_compute. discriminate.
  - apply Hother. discriminate.
  - apply (Hdear {| results := []; total := 0 |}); [reflexivity| |].
    + simpl. lia.
    + exact dear_flat_not_writable.
Defined.

Lemma X8_smaller_limit_is_a_prefix_witness :
  exists r,
    get_properties (with_limit any_listing 1) three_flats = OK r /\
    results r = take (Z.to_nat 1) [shaped_flat; shaped_flat].
Proof.
  apply (X8_smaller_limit_is_a_prefix any_listing three_flats 1 2
           {| results := [shaped_flat; shaped_flat]; total := 2 |}).
  - reflexivity.
  - lia.
Defined.

Lemma X9_inverted_bounds_find_nothing_witness :
  results {| results := []; total := 0 |} = [] /\
  total {| results := []; total := 0 |} = 0%nat.
Proof.
  apply (X9_inverted_bounds_find_nothing inverted_price one_flat _
           inverted_price_answer).
  left. exists (of_int 60000), (of_int 40000). repeat split.
Defined.


(** An undeclared field that holds NaN is not ignored by a rejection:
    without it the flat that lacks its title is rejected, the rejection
    naming [title]; with it the answer is a server error. *)
Example undeclared_nan_not_ignored :
  post_properties number_only (delete "title" flat) empty_store
  = (Unprocessable [("title"%string, missing)], empty_store) /\
  post_properties number_only
    (<["owner" := VNum S754_nan]> (delete "title" flat)) empty_store
  = (ServerError, empty_store).
Proof. split; reflexivity. Qed.

(** 1234.567 EUR is stored as 1234.57 EUR and 2414.60 BGN; 0.125 BGN, a
    tie, as 0.12 BGN (the even cent) and 0.06 EUR. *)
Lemma C1_derived_prices_witness :
  (exists doc st',
     post_properties number_only odd_flat empty_store
     = (OK {| id := 0 |}, st') /\
     collection "property" st' = [doc] /\
     doc !! "price_eur"
     = Some (VNum (Float64.of_ratio false 123457 100)) /\
     doc !! "price_bgn"
     = Some (VNum (Float64.of_ratio false 241460 100)) /\
     rounded_to_cents
       (Float64.to_Q (Float64.of_ratio false 1234567 1000)) 0
       (Float64.of_ratio false 123457 100)) /\
  (exists doc st',
     post_properties number_only lev_flat empty_store
     = (OK {| id := 0 |}, st') /\
     collection "property" st' = [doc] /\
     doc !! "price_bgn" = Some (VNum (Float64.of_ratio false 12 100)) /\
     doc !! "price_eur" = Some (VNum (Float64.of_ratio false 6 100))).
Proof.
  split.
  - destruct (C1_derived_prices number_only odd_flat odd_payload
                empty_store odd_flat_valid)
      as (doc & st' & e & b & Hpost & Hcoll & He & Hb & Heur & _ & Hsem).
    destruct (Heur eq_refl) as [-> ->].
    destruct Hsem as [Hsem _]; [reflexivity|vm_compute; discriminate|].
    destruct (Hsem eq_refl) as [Hnative _].
    exists doc, st'.
    split; [exact Hpost|]. split; [exact Hcoll|]. split; [exact He|].
    split; [exact Hb|exact Hnative].
  - destruct (C1_derived_prices number_only lev_flat lev_payload
                empty_store lev_flat_valid)
      as (doc & st' & e & b & Hpost & Hcoll & He & Hb & _ & Hbgn & _).
    destruct Hbgn as (_ & -> & ->); [discriminate|].
    exists doc, st'.
    split; [exact Hpost|]. split; [exact Hcoll|].
    split; [exact Hb|exact He].
Defined.

Lemma X11_dump_validates_to_itself_witness :
  validate number_only (model_dump flat_payload) = inr flat_payload.
Proof.
  exact (X11_dump_validates_to_itself number_only flat flat_payload
           number_only_reads flat_valid).
Defined.

Lemma X12_whole_cents_stored_unchanged_witness :
  exists doc,
    collection "property" (snd (post_properties number_only flat empty_store))
    = collection "property" empty_store ++ [doc] /\
    doc !! "price_eur" = Some (VNum (of_int 50000)).
Proof.
  apply (X12_whole_cents_stored_unchanged number_only flat flat_payload
           empty_store 5000000 flat_valid).
  - reflexivity.
  - vm_compute. discriminate.
Defined.

Lemma X13_converted_price_accurate_witness :
  exists doc y,
    collection "property" (snd (post_properties number_only flat empty_store))
    = collection "property" empty_store ++ [doc] /\
    doc !! "price_bgn" = Some (VNum y) /\
    Float64.is_finite y = true /\
    (Qabs (Float64.to_Q y
           - Float64.to_Q (of_int 50000) * (195583 # 100000)) <= 6 # 1000)%Q.
Proof.
  apply (X13_converted_price_accurate number_only flat flat_payload
           empty_store flat_valid).
  - reflexivity.
  - vm_compute. discriminate.
Defined.

Lemma X14_price_below_half_a_cent_stored_as_zero_witness :
  exists doc detail,
    post_properties number_only cheap_flat empty_store
    = (OK {| id := 0 |},
       snd (post_properties number_only cheap_flat empty_store)) /\
    collection "property"
      (snd (post_properties number_only cheap_flat empty_store))
    = collection "property" empty_store ++ [doc] /\
    doc !! "price_eur" = Some (VNum Float64.zero) /\
    PropertyStored.validate number_only doc = inl detail /\
    ("price_eur"%string, greater_than) ∈ detail.
Proof.
  apply (X14_price_below_half_a_cent_stored_as_zero number_only cheap_flat
           cheap_payload empty_store number_only_reads cheap_flat_valid).
  - reflexivity.
  - vm_compute. reflexivity.
Defined.

Lemma X15_stored_listing_conforms_witness :
  exists doc stored,
    collection "property" (snd (post_properties number_only flat empty_store))
    = collection "property" empty_store ++ [doc] /\
    PropertyStored.validate number_only doc = inr stored /\
    PropertyStored.base stored = flat_payload /\
    doc !! "price_eur" = Some (VNum (PropertyStored.price_eur stored)) /\
    doc !! "price_bgn" = Some (VNum (PropertyStored.price_bgn stored)).
Proof.
  apply (X15_stored_listing_conforms number_only flat flat_payload
           empty_store number_only_reads flat_valid).
  - reflexivity.
  - vm_compute. discriminate.
  - vm_compute. discriminate.
Defined.

Lemma X16_fields_stored_as_sent_witness :
  exists doc,
    collection "property" (snd (post_properties number_only flat empty_store))
    = collection "property" empty_store ++ [doc] /\
    doc !! "title" = Some (VStr "2-bed apt") /\
    doc !! "description" = Some VNull.
Proof.
  destruct (X16_fields_stored_as_sent number_only flat flat_payload
              empty_store flat_valid)
    as (doc & Hcoll & Htext & _ & _ & Hnull & _).
  exists doc. split; [exact Hcoll|]. split.
  - apply Htext; [|reflexivity].
    apply list_elem_of_In. simpl. left. reflexivity.
  - apply Hnull; [|left; reflexivity].
    apply list_elem_of_In. simpl. right. left. reflexivity.
Defined.

Lemma X19_stored_prices_not_negative_witness :
  exists doc e b,
    collection "property" (snd (post_properties number_only flat empty_store))
    = collection "property" empty_store ++ [doc] /\
    doc !! "price_eur" = Some (VNum e) /\
    doc !! "price_bgn" = Some (VNum b) /\
    Float64.leb Float64.zero e = true /\
    Float64.leb Float64.zero b = true.
Proof.
  exact (X19_stored_prices_not_negative number_only flat flat_payload
           empty_store flat_valid).
Defined.

Lemma X20_own_price_rounded_to_the_cent_witness :
  exists doc y,
    collection "property" (snd (post_properties number_only flat empty_store))
    = collection "property" empty_store ++ [doc] /\
    doc !! "price_eur" = Some (VNum y) /\
    Float64.is_finite y = true /\
    (Qabs (Float64.to_Q y - Float64.to_Q (of_int 50000)) <= 52 # 10000)%Q.
Proof.
  apply (X20_own_price_rounded_to_the_cent number_only flat flat_payload
           empty_store flat_valid).
  - reflexivity.
  - vm_compute. discriminate.
Defined.
End ScenarioWitnesses.
